(** * CP_DSSTox loader: a shallow embedding of [load_data.py]

    The development follows the source file function by function.  Python
    values that reach the loader are modelled by [cell]; a pandas DataFrame
    by [DataFrame]; a call that may raise by the [result] type; the SQLite
    connection, the console and [exit] by [world] and [outcome].

    Conventions of the model
    - a Python [str] is a Rocq [string] whose characters are the code points
      below 256 (the whitespace and digit classes below are the ones Python
      uses on that range);
    - [datetime.strptime] follows CPython's [_strptime.py] (regular expression
      built from the format, matched with [IGNORECASE], English month names);
    - [float(str)] follows the grammar of the language reference with the
      correctly rounded decimal to binary64 conversion CPython performs;
    - [strftime] is the one of CPython on the C library of Linux, which
      writes a year below 1000 without leading zeros;
    - the dtype of a column of a frame is read off its values, as the
      readers of pandas infer it: int64 when they are all integers, float64
      when they are all floats, object otherwise;
    - what lives outside the file (the file system, the readers of pandas,
      the constraints of the SQLite schema, [repr] of a float, argparse and
      whether pandas infers string columns) is a section variable. *)

From Stdlib Require Import ZArith Ascii String List Bool Lia.
From Stdlib Require Import Floats.PrimFloat Floats.SpecFloat Floats.FloatOps.
From Stdlib Require Import Numbers.DecimalString.
From stdpp Require Import base tactics option list.

Import ListNotations.
Open Scope string_scope.
Open Scope list_scope.

(** ** Exceptions, [exit] and the result of a call *)

Module Py.

(** The exception classes the loader can meet.  All of them derive from
    [Exception]. *)
Inductive exn : Type :=
  | ValueError
  | AttributeError
  | KeyError
  | UnicodeDecodeError
  | DatabaseError      (* sqlite3.Error and its subclasses *)
  | OtherError.

(** The result of a call that computes on values only (strings, dates,
    frames): it returns or it raises. *)
Inductive result (A : Type) : Type :=
  | Ok (a : A)
  | Raise (e : exn).

Arguments Ok {A} a.
Arguments Raise {A} e.

Definition bind {A B : Type} (r : result A) (k : A -> result B) : result B :=
  match r with
  | Ok a => k a
  | Raise e => Raise e
  end.

(** [for x in xs: body] where the body may raise: the loop stops at the
    first element whose body does not return. *)
Fixpoint mapM {A B : Type} (f : A -> result B) (xs : list A) : result (list B) :=
  match xs with
  | [] => Ok []
  | x :: xs' =>
      bind (f x) (fun y => bind (mapM f xs') (fun ys => Ok (y :: ys)))
  end.

End Py.

Export Py.

(** The monad structure of [result], with stdpp's [x ← c; k] notation. *)
#[export] Instance result_ret : MRet result := @Ok.
#[export] Instance result_bind : MBind result :=
  fun A B (k : A -> result B) (r : result A) => Py.bind r k.

(** ** Python strings *)

Module PyStr.

(** [str.isspace] on one character (code points below 256). *)
Definition isspace (c : ascii) : bool :=
  let n := nat_of_ascii c in
  ((9 <=? n) && (n <=? 13) || (28 <=? n) && (n <=? 32)
   || (n =? 133) || (n =? 160))%nat.

Definition isdigit (c : ascii) : bool :=
  let n := nat_of_ascii c in ((48 <=? n) && (n <=? 57))%nat.

Definition digit_val (c : ascii) : Z := Z.of_nat (nat_of_ascii c) - 48.

(** ASCII lower-casing, enough for the month names matched with IGNORECASE. *)
Definition lower (c : ascii) : ascii :=
  let n := nat_of_ascii c in
  if ((65 <=? n) && (n <=? 90))%nat then ascii_of_nat (n + 32) else c.

Fixpoint lstrip (s : string) : string :=
  match s with
  | EmptyString => EmptyString
  | String c s' => if isspace c then lstrip s' else s
  end.

Fixpoint rstrip (s : string) : string :=
  match s with
  | EmptyString => EmptyString
  | String c s' =>
      match rstrip s' with
      | EmptyString => if isspace c then EmptyString else String c EmptyString
      | r => String c r
      end
  end.

(** [s.strip()] *)
Definition strip (s : string) : string := rstrip (lstrip s).

(** [s.split(sep)] for a one-character separator: the first token and the
    tokens after it.  The result of Python's [split] is never empty. *)
Fixpoint split_first (sep : ascii) (s : string) : string * list string :=
  match s with
  | EmptyString => (EmptyString, [])
  | String c s' =>
      let '(tok, toks) := split_first sep s' in
      if Ascii.eqb c sep then (EmptyString, tok :: toks)
      else (String c tok, toks)
  end.

Definition split (sep : ascii) (s : string) : list string :=
  let '(tok, toks) := split_first sep s in tok :: toks.

(** [c in s] *)
Fixpoint contains (c : ascii) (s : string) : bool :=
  match s with
  | EmptyString => false
  | String d s' => Ascii.eqb d c || contains c s'
  end.

(** [s.replace(c, '')] *)
Fixpoint remove_char (c : ascii) (s : string) : string :=
  match s with
  | EmptyString => EmptyString
  | String d s' =>
      if Ascii.eqb d c then remove_char c s' else String d (remove_char c s')
  end.

(** Number of occurrences of a character. *)
Fixpoint count_char (c : ascii) (s : string) : nat :=
  match s with
  | EmptyString => 0
  | String d s' => (if Ascii.eqb d c then 1 else 0) + count_char c s'
  end.

(** [str(n)] for an integer. *)
Definition str_of_Z (z : Z) : string := NilZero.string_of_int (Z.to_int z).

(** [s.endswith(suffix)] *)
Fixpoint endswith (s suffix : string) : bool :=
  String.eqb s suffix
  || match s with
     | EmptyString => false
     | String _ s' => endswith s' suffix
     end.

End PyStr.

(** ** Python floats: [float(str)] *)

Module PyFloat.
Import PyStr.

(** Underscores may group digits: each one stands between two digits.  The
    function returns the text without them, or [None] when one is misplaced
    (CPython's [_Py_string_to_number_with_underscores]). *)
Fixpoint drop_underscores (prev : option ascii) (s : string) : option string :=
  match s with
  | EmptyString =>
      match prev with
      | Some p => if Ascii.eqb p "_" then None else Some EmptyString
      | None => Some EmptyString
      end
  | String c s' =>
      if Ascii.eqb c "_" then
        match prev with
        | Some p => if isdigit p then drop_underscores (Some c) s' else None
        | None => None
        end
      else
        match prev with
        | Some p =>
            if Ascii.eqb p "_" && negb (isdigit c) then None
            else option_map (String c) (drop_underscores (Some c) s')
        | None => option_map (String c) (drop_underscores (Some c) s')
        end
  end.

(** An optional sign: [true] for a minus. *)
Definition take_sign (s : string) : bool * string :=
  match s with
  | String "+" s' => (false, s')
  | String "-" s' => (true, s')
  | _ => (false, s)
  end.

(** The longest run of decimal digits at the head of [s]: the number they
    spell after [acc], how many there are, and what follows. *)
Fixpoint take_digits (acc : Z) (n : Z) (s : string) : Z * Z * string :=
  match s with
  | EmptyString => (acc, n, EmptyString)
  | String c s' =>
      if isdigit c then take_digits (10 * acc + digit_val c) (n + 1) s'
      else (acc, n, s)
  end.

Fixpoint lower_string (s : string) : string :=
  match s with
  | EmptyString => EmptyString
  | String c s' => String (lower c) (lower_string s')
  end.

(** [number [exponent]] of the grammar, the whole of [s]: the integer spelt
    by the digits of the mantissa and the power of ten that scales it. *)
Definition parse_decimal (s : string) : option (Z * Z) :=
  let '(m1, n1, r1) := take_digits 0 0 s in
  let '(m, n2, r2) :=
    match r1 with
    | String "." r => take_digits m1 0 r
    | _ => (m1, 0%Z, r1)
    end in
  if (n1 + n2 =? 0)%Z then None
  else
    match r2 with
    | EmptyString => Some (m, (- n2)%Z)
    | String c r3 =>
        if Ascii.eqb (lower c) "e" then
          let '(eneg, r4) := take_sign r3 in
          let '(e, ne, r5) := take_digits 0 0 r4 in
          if (ne =? 0)%Z || negb (String.eqb r5 EmptyString) then None
          else Some (m, ((if eneg then - e else e) - n2)%Z)
        else None
    end.

(** The binary64 number nearest to [m * 10 ^ e] (ties to even), for [m >= 0].
    A negative power of ten is divided out into a quotient of at least 64
    bits whose last bit records whether anything was lost, so that the
    rounding of [binary_normalize] to 53 bits is that of the exact value. *)
Definition round_decimal (neg : bool) (m e : Z) : float :=
  let sgn (z : Z) := if neg then (- z)%Z else z in
  if (m =? 0)%Z then (if neg then neg_zero else zero)
  else if (0 <=? e)%Z then
    SF2Prim (binary_normalize prec emax (sgn (m * 10 ^ e)%Z) 0 neg)
  else
    let d := (10 ^ (- e))%Z in
    let s := (Z.log2 d + 64)%Z in
    let q := (m * 2 ^ s / d)%Z in
    let sticky := if (m * 2 ^ s mod d =? 0)%Z then 0%Z else 1%Z in
    SF2Prim (binary_normalize prec emax (sgn (2 * q + sticky)%Z) (- (s + 1)) neg).

(** [float(s)] for a string: [None] stands for [ValueError]. *)
Definition py_float (s : string) : option float :=
  match drop_underscores None s with
  | None => None
  | Some s1 =>
      let '(neg, body) := take_sign (strip s1) in
      let name := lower_string body in
      if String.eqb name "inf" || String.eqb name "infinity" then
        Some (if neg then neg_infinity else infinity)
      else if String.eqb name "nan" then Some nan
      else
        match parse_decimal body with
        | Some (m, e) => Some (round_decimal neg m e)
        | None => None
        end
  end.

End PyFloat.

(** ** [datetime.strptime] and [strftime] *)

Module Strptime.
Import PyStr.

(** The directives the loader's formats use. *)
Inductive directive : Type := dY | dm | dd | dy | db | dB.

(** What a format is compiled to: a literal character, a run of white space
    (the regular expression [\s+]) or a directive's group. *)
Inductive item : Type :=
  | Lit (c : ascii)
  | Spaces
  | Dir (d : directive).

Definition directive_of (c : ascii) : option directive :=
  if Ascii.eqb c "Y" then Some dY
  else if Ascii.eqb c "m" then Some dm
  else if Ascii.eqb c "d" then Some dd
  else if Ascii.eqb c "y" then Some dy
  else if Ascii.eqb c "b" then Some db
  else if Ascii.eqb c "B" then Some dB
  else None.

(** [TimeRE.pattern]: every run of white space of the format becomes one
    [Spaces], every [%x] the group of [x]; [None] is the [ValueError] of a
    bad directive or of a stray [%]. *)
Fixpoint compile (in_space : bool) (fmt : string) : option (list item) :=
  match fmt with
  | EmptyString => Some []
  | String c rest =>
      if Ascii.eqb c "%" then
        match rest with
        | EmptyString => None
        | String x rest' =>
            match directive_of x, compile false rest' with
            | Some d, Some its => Some (Dir d :: its)
            | _, _ => None
            end
        end
      else if isspace c then
        match compile true rest with
        | Some its => Some (if in_space then its else Spaces :: its)
        | None => None
        end
      else
        match compile false rest with
        | Some its => Some (Lit c :: its)
        | None => None
        end
  end.

(** A character class, and a sequence of classes matched at the head of a
    string: the text matched and the rest. *)
Definition cls : Type := ascii -> bool.

Definition one (c : ascii) : cls := fun x => Ascii.eqb (lower x) (lower c).
Definition range (a b : ascii) : cls :=
  fun x => ((nat_of_ascii a <=? nat_of_ascii x)
            && (nat_of_ascii x <=? nat_of_ascii b))%nat.

Fixpoint match_seq (ps : list cls) (s : string) : option (string * string) :=
  match ps with
  | [] => Some (EmptyString, s)
  | p :: ps' =>
      match s with
      | EmptyString => None
      | String c s' =>
          if p c then
            match match_seq ps' s' with
            | Some (m, r) => Some (String c m, r)
            | None => None
            end
          else None
      end
  end.

Fixpoint word (w : string) : list cls :=
  match w with
  | EmptyString => []
  | String c w' => one c :: word w'
  end.

(** Month names of the C locale, lower case, as [LocaleTime] holds them. *)
Definition a_month : list string :=
  ["jan"; "feb"; "mar"; "apr"; "may"; "jun";
   "jul"; "aug"; "sep"; "oct"; "nov"; "dec"].

Definition f_month : list string :=
  ["january"; "february"; "march"; "april"; "may"; "june";
   "july"; "august"; "september"; "october"; "november"; "december"].

(** [sorted(names, key=len, reverse=True)]: a stable insertion sort. *)
Fixpoint insert_by_len (w : string) (ws : list string) : list string :=
  match ws with
  | [] => [w]
  | v :: ws' =>
      if (String.length v <=? String.length w)%nat then w :: ws
      else v :: insert_by_len w ws'
  end.

Definition sorted_by_len (ws : list string) : list string :=
  fold_right insert_by_len [] ws.

(** The alternatives of a directive's group, in the order the regular
    expression lists them. *)
Definition alternatives (d : directive) : list (list cls) :=
  match d with
  | dY => [[isdigit; isdigit; isdigit; isdigit]]
  | dy => [[isdigit; isdigit]]
  | dm => [[one "1"; range "0" "2"]; [one "0"; range "1" "9"]; [range "1" "9"]]
  | dd => [[one "3"; range "0" "1"]; [range "1" "2"; isdigit];
           [one "0"; range "1" "9"]; [range "1" "9"];
           [one " "; range "1" "9"]]
  | db => map word (sorted_by_len a_month)
  | dB => map word (sorted_by_len f_month)
  end.

(** [int(s)] on the text a numeric group matched (white space around the
    digits is ignored by [int]). *)
Definition int_of (s : string) : Z :=
  let '(v, _, _) := PyFloat.take_digits 0 0 (strip s) in v.

(** [names.index(found.lower())], counted from one. *)
Fixpoint index_of (w : string) (ws : list string) (i : Z) : Z :=
  match ws with
  | [] => i
  | v :: ws' => if String.eqb v w then i else index_of w ws' (i + 1)
  end.

(** The fields [_strptime] fills while it reads the groups. *)
Record fields : Type := mkFields {
  f_year : option Z;
  f_mon : Z;
  f_day : Z
}.

Definition no_fields : fields := mkFields None 1 1.

Definition set_field (d : directive) (found : string) (fs : fields) : fields :=
  match d with
  | dY => mkFields (Some (int_of found)) (f_mon fs) (f_day fs)
  | dy =>
      let y := int_of found in
      mkFields (Some (if (y <=? 68)%Z then 2000 + y else 1900 + y)%Z)
               (f_mon fs) (f_day fs)
  | dm => mkFields (f_year fs) (int_of found) (f_day fs)
  | dB => mkFields (f_year fs)
            (index_of (PyFloat.lower_string found) f_month 1) (f_day fs)
  | db => mkFields (f_year fs)
            (index_of (PyFloat.lower_string found) a_month 1) (f_day fs)
  | dd => mkFields (f_year fs) (f_mon fs) (int_of found)
  end.

(** What is left of [s] after [\s+] has taken one or more white-space
    characters, the longest run first (the quantifier is greedy). *)
Fixpoint after_spaces (s : string) : list string :=
  match s with
  | EmptyString => []
  | String c s' => if isspace c then after_spaces s' ++ [s'] else []
  end.

(** The ways one item can match at the head of [s], in the order the
    backtracking matcher tries them. *)
Definition ways (it : item) (fs : fields) (s : string) : list (fields * string) :=
  match it with
  | Lit c =>
      match s with
      | String x s' => if one c x then [(fs, s')] else []
      | EmptyString => []
      end
  | Spaces => map (fun r => (fs, r)) (after_spaces s)
  | Dir d =>
      omap (fun ps =>
              match match_seq ps s with
              | Some (found, r) => Some (set_field d found fs, r)
              | None => None
              end)
           (alternatives d)
  end.

(** [format_regex.match(data_string)]: the first way, in backtracking
    order, to match every item; the match need not reach the end. *)
Definition first_success {A B : Type} (f : A -> option B) : list A -> option B :=
  fix go (xs : list A) : option B :=
    match xs with
    | [] => None
    | x :: xs' =>
        match f x with
        | Some b => Some b
        | None => go xs'
        end
    end.

Fixpoint match_items (its : list item) (fs : fields) (s : string)
  : option (fields * string) :=
  match its with
  | [] => Some (fs, s)
  | it :: its' =>
      first_success (fun way => match_items its' (fst way) (snd way))
                    (ways it fs s)
  end.

Record date : Type := mkDate { year : Z; month : Z; day : Z }.

Definition is_leap (y : Z) : bool :=
  ((y mod 4 =? 0) && (negb (y mod 100 =? 0) || (y mod 400 =? 0)))%Z.

Definition days_in_month (y m : Z) : Z :=
  if (m =? 2)%Z then (if is_leap y then 29 else 28)
  else if ((m =? 4) || (m =? 6) || (m =? 9) || (m =? 11))%Z then 30
  else 31.

(** The constructor of [datetime.date]: [ValueError] outside the calendar. *)
Definition make_date (y m d : Z) : result date :=
  if ((1 <=? y) && (y <=? 9999) && (1 <=? m) && (m <=? 12)
      && (1 <=? d) && (d <=? days_in_month y m))%Z
  then Ok (mkDate y m d)
  else Raise ValueError.

(** [datetime.strptime(s, fmt)] as far as the date goes: the text must
    match the format and be consumed entirely, and the date must exist.  A
    format without a year takes 1900. *)
Definition strptime (s fmt : string) : result date :=
  match compile false fmt with
  | None => Raise ValueError
  | Some its =>
      match match_items its no_fields s with
      | None => Raise ValueError
      | Some (fs, rest) =>
          if String.eqb rest EmptyString then
            make_date (default 1900%Z (f_year fs)) (f_mon fs) (f_day fs)
          else Raise ValueError
      end
  end.

(** [str(n).zfill(width)] for a natural number. *)
Definition zfill (width : nat) (z : Z) : string :=
  let s := str_of_Z z in
  String.concat EmptyString (repeat "0" (width - String.length s)) ++ s.

(** [d.strftime("%Y-%m-%d")]: CPython hands the format to the C library,
    and the one of Linux writes the year as a plain decimal number, without
    leading zeros (999-01-01 for the year 999); month and day come on two
    digits. *)
Definition strftime_Ymd (d : date) : string :=
  str_of_Z (year d) ++ "-" ++ zfill 2 (month d) ++ "-" ++ zfill 2 (day d).

(** The shape YYYY-MM-DD. *)
Definition all_digits (n : nat) (s : string) : bool :=
  (String.length s =? n)%nat && forallb isdigit (list_ascii_of_string s).

Definition is_iso_date (s : string) : bool :=
  match list_ascii_of_string s with
  | [y1; y2; y3; y4; h1; m1; m2; h2; d1; d2] =>
      forallb isdigit [y1; y2; y3; y4; m1; m2; d1; d2]
      && Ascii.eqb h1 "-" && Ascii.eqb h2 "-"
  | _ => false
  end.

End Strptime.

(** ** pandas: cells and data frames *)

Module Pandas.
Import PyStr.

(** A value held by a cell: [None], a string, an integer or a float (a NaN
    is a float). *)
Inductive cell : Type :=
  | CNone
  | CStr (s : string)
  | CInt (z : Z)
  | CFloat (f : float).

(** [pd.notnull(x)] *)
Definition notnull (c : cell) : bool :=
  match c with
  | CNone => false
  | CFloat f => negb (PrimFloat.is_nan f)
  | _ => true
  end.

(** A frame: the column labels in order and the rows in order, each row
    holding one cell per column. *)
Record DataFrame : Type := mkFrame {
  columns : list string;
  rows : list (list cell)
}.

(** [df.empty]: no row or no column. *)
Definition empty (df : DataFrame) : bool :=
  match columns df, rows df with
  | [], _ | _, [] => true
  | _, _ => false
  end.

(** Position of the first column that carries a label.  A row too short
    for a position reads as [None] there. *)
Fixpoint col_index (name : string) (cols : list string) : option nat :=
  match cols with
  | [] => None
  | c :: cols' =>
      if String.eqb c name then Some 0
      else match col_index name cols' with
           | Some i => Some (S i)
           | None => None
           end
  end.

(** [row[name]] for a row that [iterrows] yields. *)
Definition row_get (cols : list string) (row : list cell) (name : string)
  : result cell :=
  match col_index name cols with
  | Some i => Ok (default CNone (row !! i))
  | None => Raise KeyError
  end.

Definition is_none (c : cell) : bool :=
  match c with
  | CNone => true
  | _ => false
  end.

Definition is_str (c : cell) : bool :=
  match c with
  | CStr _ => true
  | _ => false
  end.

Definition is_int (c : cell) : bool :=
  match c with
  | CInt _ => true
  | _ => false
  end.

Definition is_float (c : cell) : bool :=
  match c with
  | CFloat _ => true
  | _ => false
  end.

(** The binary64 number nearest to an integer (ties to even): what an
    int64 value becomes in a float64 array. *)
Definition float_of_Z (z : Z) : float :=
  SF2Prim (binary_normalize prec emax z 0 false).

Definition as_float (c : cell) : cell :=
  match c with
  | CInt z => CFloat (float_of_Z z)
  | _ => c
  end.

(** What [Series.apply] makes of the values its function returned
    ([lib.maybe_convert_objects], then the constructor of the Series).
    Values that are all [None], or all integers, stay as they are.  Other
    values without a string among them (floats, or numbers and nulls) make
    a float64 column: [None] reads NaN there and an integer is the float of
    its value.  With a string among them the values stay as they are,
    unless pandas infers string columns ([infer_string], the default from
    pandas 3 on): then strings and nulls make a string column, whose nulls
    read NaN. *)
Definition infer_objects (infer_string : bool) (vals : list cell) : list cell :=
  if existsb is_str vals then
    if infer_string && forallb (fun c => is_str c || negb (notnull c)) vals
    then (fun c => if is_str c then c else CFloat nan) <$> vals
    else vals
  else if forallb is_none vals || forallb is_int vals then vals
  else (fun c => match c with
                 | CNone => CFloat nan
                 | _ => as_float c
                 end) <$> vals.

(** [df[name] = df[name].apply(f)]: [f] is called on every value of the
    column, from the first row on, and the column is assigned, with the
    values as [infer_objects] gives them, once all the calls have
    returned. *)
Definition apply_col (infer_string : bool) (df : DataFrame) (name : string)
    (f : cell -> result cell) : result DataFrame :=
  match col_index name (columns df) with
  | None => Raise KeyError
  | Some i =>
      vals ← mapM (fun row => f (default CNone (row !! i))) (rows df);
      Ok (mkFrame (columns df)
            (zip_with (fun row v => <[i := v]> row) (rows df)
               (infer_objects infer_string vals)))
  end.

(** The dtypes the loader can tell apart. *)
Inductive dtype : Type := Int64 | Float64 | Object.

(** The dtype of a column, read off its values: int64 when they are all
    integers, float64 when they are all floats (a missing number is NaN),
    object otherwise. *)
Definition dtype_of (vals : list cell) : dtype :=
  if forallb is_int vals then Int64
  else if forallb is_float vals then Float64
  else Object.

(** The values of the column in position [j], from the first row on. *)
Definition column (df : DataFrame) (j : nat) : list cell :=
  (fun row => default CNone (row !! j)) <$> rows df.

(** The dtype of [df.values], the array that holds every column: int64
    when all columns are, float64 when all are numeric, object as soon as
    one column is. *)
Definition values_dtype (df : DataFrame) : dtype :=
  let dtypes := (fun j => dtype_of (column df j)) <$> seq 0 (length (columns df)) in
  if forallb (fun d => match d with Int64 => true | _ => false end) dtypes then Int64
  else if forallb (fun d => match d with Object => false | _ => true end) dtypes
       then Float64
  else Object.

(** [for _, row in df.iterrows()]: every row is a Series over a line of
    [df.values], so in a frame of numbers with a float column the integers
    come as floats; in every other frame the values come as they are.
    [tuple(row)] and [row[name]] read these values. *)
Definition iterrows (df : DataFrame) : list (list cell) :=
  match values_dtype df with
  | Float64 => fmap (M := list) as_float <$> rows df
  | _ => rows df
  end.

(** A cell-wise map, for [replace] and [where]. *)
Definition map_cells (f : cell -> cell) (df : DataFrame) : DataFrame :=
  mkFrame (columns df) (fmap (M := list) (fmap (M := list) f) (rows df)).

(** [df.where(pd.notnull(df), None)] *)
Definition where_notnull (df : DataFrame) : DataFrame :=
  map_cells (fun c => if notnull c then c else CNone) df.

Fixpoint record_get (name : string) (rec : list (string * cell)) : cell :=
  match rec with
  | [] => CNone
  | (k, v) :: rec' => if String.eqb k name then v else record_get name rec'
  end.

(** [pd.DataFrame(records)] for a list of dictionaries with the same keys:
    the columns are the keys in their order, and no column at all when the
    list is empty. *)
Definition DataFrame_of_records (recs : list (list (string * cell))) : DataFrame :=
  let cols := match recs with
              | [] => []
              | r :: _ => map fst r
              end in
  mkFrame cols (map (fun r => map (fun c => record_get c r) cols) recs).

End Pandas.

(** ** The connection, the console and the effects of a call *)

Module Db.
Import Pandas.

(** What the loader prints. *)
Inductive message : Type :=
  | MsgImported (table : string)
  | MsgNotImported (table : string)
  | MsgImportError (table : string) (e : exn)
  | MsgFileNotFound (path : string)
  | MsgErrorFileNotFound (path : string)
  | MsgEncodingFailed (encoding path : string)
  | MsgAllEncodingsFailed (path : string)
  | MsgUnsupportedFormat (path : string)
  | MsgReadError (path : string) (e : exn)
  | MsgDatabaseCreated (db_path : string)
  | MsgTesting
  | MsgCompleted
  | MsgNoValidData
  | MsgProgramComplete
  | MsgHelp.           (* the help text argparse prints for -h *)

(** An inserted row with the table it went to: the values bound to the
    INSERT, as SQLite takes them.  What the column affinities of the schema
    make of them lies outside the file. *)
Definition stored : Type := (string * list cell)%type.

(** The value SQLite takes for a bound parameter: a NaN is stored as NULL,
    every other value as it is. *)
Definition sqlite_value (c : cell) : cell :=
  match c with
  | CFloat f => if PrimFloat.is_nan f then CNone else c
  | _ => c
  end.

(** The database behind the connection (the rows committed and the rows
    inserted since the last commit) and the console. *)
Record world : Type := mkWorld {
  committed : list stored;
  pending : list stored;
  stdout : list message
}.

(** How a call that acts on the world ends: it returns, it raises an
    [Exception], or it leaves by [exit] ([SystemExit], which is no
    [Exception] and which [except Exception] lets through). *)
Inductive outcome (A : Type) : Type :=
  | Ret (a : A)
  | Throw (e : exn)
  | Exit (code : Z).

Arguments Ret {A} a.
Arguments Throw {A} e.
Arguments Exit {A} code.

(** A call: it changes the world and ends.  What it did before raising
    stays done. *)
Definition io (A : Type) : Type := world -> world * outcome A.

Definition io_ret {A : Type} (a : A) : io A := fun w => (w, Ret a).

Definition io_bind {A B : Type} (m : io A) (k : A -> io B) : io B :=
  fun w =>
    match m w with
    | (w', Ret a) => k a w'
    | (w', Throw e) => (w', Throw e)
    | (w', Exit c) => (w', Exit c)
    end.

(** A computation on values, run inside a call. *)
Definition lift {A : Type} (r : result A) : io A :=
  fun w =>
    match r with
    | Ok a => (w, Ret a)
    | Raise e => (w, Throw e)
    end.

Definition print (m : message) : io unit :=
  fun w => (mkWorld (committed w) (pending w) (stdout w ++ [m]), Ret tt).

(** [exit(code)] *)
Definition sys_exit {A : Type} (code : Z) : io A := fun w => (w, Exit code).

(** [conn.commit()] and the rollback of a connection left by an exception. *)
Definition commit : io unit :=
  fun w => (mkWorld (committed w ++ pending w) [] (stdout w), Ret tt).

Definition rollback : io unit :=
  fun w => (mkWorld (committed w) [] (stdout w), Ret tt).

(** [for x in xs: body(x)] *)
Fixpoint for_each {A : Type} (xs : list A) (body : A -> io unit) : io unit :=
  match xs with
  | [] => io_ret tt
  | x :: xs' => io_bind (body x) (fun _ => for_each xs' body)
  end.

End Db.

#[export] Instance io_ret_inst : MRet Db.io := @Db.io_ret.
#[export] Instance io_bind_inst : MBind Db.io :=
  fun A B (k : A -> Db.io B) (m : Db.io A) => Db.io_bind m k.

(** ** The loader, function by function *)

Module LoadData.
Import PyStr PyFloat Strptime Pandas Db.

(** What [parser.parse_args()] makes of the command line: the values of
    the four options, all of them required, or one of the two ends argparse
    gives the program itself: the usage and an error on the error stream
    with exit status 2, and for [-h] the help text with exit status 0. *)
Inductive parsed : Type :=
  | Namespace (db_path schema_file data_path TEST : string)
  | UsageError
  | HelpRequested.

Section Loader.

(** Whether pandas infers string columns ([future.infer_string], the
    default from pandas 3 on). *)
Variable infer_string : bool.
(** [repr] of a float, used by [str(value)]. *)
Variable repr_float : float -> string.
(** [os.path.exists] *)
Variable path_exists : string -> bool.
(** [pd.read_excel(path)] and [pd.read_csv(path, encoding=...)] *)
Variable read_excel : string -> result DataFrame.
Variable read_csv : string -> string -> result DataFrame.
(** The schema's verdict on an insertion, given the rows already in the
    database (committed or not), the table and the values bound. *)
Variable sink_accepts : list stored -> string -> list cell -> bool.
(** argparse, on the arguments of the command line. *)
Variable parse_args : list string -> parsed.

(** [str(x)] *)
Definition py_str (c : cell) : string :=
  match c with
  | CNone => "None"
  | CStr s => s
  | CInt z => str_of_Z z
  | CFloat f => repr_float f
  end.

(** [cursor.execute('INSERT INTO table (...) VALUES (?, ..., ?)', params)]
    with [arity] question marks: the number of values bound must be the
    number of marks and the schema must accept the row.  The row is
    inserted with the values as SQLite takes them (integers are taken to
    fit its 64 bits). *)
Definition execute (table : string) (arity : nat) (params : list cell) : io unit :=
  fun w =>
    let values := sqlite_value <$> params in
    if (length params =? arity)%nat
       && sink_accepts (committed w ++ pending w) table values
    then (mkWorld (committed w) (pending w ++ [(table, values)]) (stdout w), Ret tt)
    else (w, Throw DatabaseError).

(** *** [replace_empty_na_with_null] *)

(** [df.replace(['', 'NA'], None)]: a cell equal to one of the two strings
    becomes [None], as the function's docstring says (pandas gives the
    explicit [None] this meaning from version 1.4 on). *)

Definition null_if_empty_or_na (c : cell) : cell :=
  match c with
  | CStr s => if String.eqb s "" || String.eqb s "NA" then CNone else c
  | _ => c
  end.

Definition replace_empty_na_with_null (df : DataFrame) : DataFrame :=
  map_cells null_if_empty_or_na df.

(** *** [explode_identifiers] *)

(** The body of the inner loop: one dictionary appended per alternative
    identifier. *)
Definition append_alternatives (casrn : string) (alts : list string)
  (identifier_rows : list (list (string * cell))) : list (list (string * cell)) :=
  fold_left
    (fun acc alt_id =>
       acc ++ [[("IDENTIFIER", CStr casrn); ("CASRN", CStr casrn);
                ("ALTERNATIVE_IDENTIFIER", CStr (strip alt_id))]])
    alts identifier_rows.

(** The loop over [df.iterrows()]. *)
Fixpoint collect_identifier_rows (cols : list string) (rws : list (list cell))
  (identifier_rows : list (list (string * cell)))
  : result (list (list (string * cell))) :=
  match rws with
  | [] => Ok identifier_rows
  | row :: rws' =>
      v ← row_get cols row "IDENTIFIER";
      let identifiers := split "|" (py_str v) in
      let casrn := strip (hd "" identifiers) in
      collect_identifier_rows cols rws'
        (append_alternatives casrn (tl identifiers) identifier_rows)
  end.

(** [lambda x: x.split('|')[0].strip()]: only a string has [split]. *)
Definition first_identifier (x : cell) : result cell :=
  match x with
  | CStr s => Ok (CStr (strip (hd "" (split "|" s))))
  | _ => Raise AttributeError
  end.

Definition explode_identifiers (df : DataFrame) : result (DataFrame * DataFrame) :=
  identifier_rows ← collect_identifier_rows (columns df) (iterrows df) [];
  let identifier_df := DataFrame_of_records identifier_rows in
  df' ← apply_col infer_string df "IDENTIFIER" first_identifier;
  Ok (df', identifier_df).

(** *** The import functions of the tables *)

Definition Identifier_import_data (identifier_df : DataFrame) : io unit :=
  for_each (iterrows identifier_df)
    (fun row =>
       a ← lift (row_get (columns identifier_df) row "IDENTIFIER");
       b ← lift (row_get (columns identifier_df) row "CASRN");
       c ← lift (row_get (columns identifier_df) row "ALTERNATIVE_IDENTIFIER");
       execute "Identifier" 3 [a; b; c]);;
  commit.

Definition DSSTox_import_data (df : DataFrame) : io unit :=
  '(dsstox_df, identifier_df) ← lift (explode_identifiers df);
  let dsstox_df := where_notnull dsstox_df in
  let identifier_df := where_notnull identifier_df in
  for_each (iterrows dsstox_df) (execute "DSSTox" 12);;
  Identifier_import_data identifier_df;;
  commit.

Definition chemical_dictionary_import_data (df : DataFrame) : io unit :=
  for_each (iterrows df) (execute "chemical_dictionary" 7);;
  commit.

Definition QSUR_data_import_data (df : DataFrame) : io unit :=
  for_each (iterrows df) (execute "QSUR_data" 5);;
  commit.

(** *** [parse_date] and [convert_dates] *)

Definition date_formats : list string :=
  ["%Y-%m-%d"; "%d-%m-%Y"; "%d-%b-%y"; "%d-%b-%Y"; "%d-%B-%Y"; "%B-%y";
   "%b-%y"; "%B %d, %Y"; "%B %Y"; "%Y"; "%d/%m/%Y"; "%m/%d/%Y";
   "%d %B %Y"; "%m.%d.%Y"].

(** [date_str.strip()]: only a string has [strip]. *)
Definition py_strip (c : cell) : result string :=
  match c with
  | CStr s => Ok (strip s)
  | _ => Raise AttributeError
  end.

(** The [try] of one turn of the loop. *)
Definition try_format (date_str : cell) (fmt : string) : result string :=
  s ← py_strip date_str;
  d ← strptime s fmt;
  Ok (strftime_Ymd d).

(** The loop over the formats: [ValueError] and [AttributeError] go on to
    the next format, anything else leaves the function. *)
Fixpoint parse_date_from (date_str : cell) (fmts : list string)
  : result (option string) :=
  match fmts with
  | [] => Ok None
  | fmt :: fmts' =>
      match try_format date_str fmt with
      | Ok newDate => Ok (Some newDate)
      | Raise ValueError | Raise AttributeError => parse_date_from date_str fmts'
      | Raise e => Raise e
      end
  end.

Definition parse_date (date_str : cell) : result (option string) :=
  parse_date_from date_str date_formats.

Definition cell_of_str (o : option string) : cell :=
  match o with
  | Some s => CStr s
  | None => CNone
  end.

Definition convert_dates (df : DataFrame) (date_column : string) : result DataFrame :=
  apply_col infer_string df date_column
    (fun x => if notnull x then r ← parse_date x; Ok (cell_of_str r)
              else Ok CNone).

Definition document_dictionary_import_data (df : DataFrame) : io unit :=
  df ← lift (convert_dates df "doc_date");
  for_each (iterrows df) (execute "document_dictionary" 4);;
  commit.

(** *** [to_float] and [convert_compositions] *)

(** [float(s)]: a string that is no number raises [ValueError]. *)
Definition float_of_str (s : string) : result float :=
  match py_float s with
  | Some f => Ok f
  | None => Raise ValueError
  end.

Definition to_float (value : cell) : result (option float) :=
  let body : result (option float) :=
    if notnull value then
      let value_str := strip (py_str value) in
      if contains "%" value_str then
        let value_str := remove_char "%" value_str in
        f ← float_of_str value_str;
        Ok (Some (f / 100)%float)
      else
        f ← float_of_str value_str;
        Ok (Some f)
    else Ok None in
  match body with
  | Raise ValueError => Ok None
  | r => r
  end.

Definition cell_of_float (o : option float) : cell :=
  match o with
  | Some f => CFloat f
  | None => CNone
  end.

Definition composition_columns : list string :=
  ["raw_min_comp"; "raw_central_comp"; "raw_max_comp"].

Definition convert_compositions (df : DataFrame) : result DataFrame :=
  foldl (fun acc col =>
           df ← acc;
           apply_col infer_string df col
             (fun x => r ← to_float x; Ok (cell_of_float r)))
        (Ok df) composition_columns.

Definition product_composition_data_import_data (df : DataFrame) : io unit :=
  df ← lift (convert_compositions df);
  for_each (iterrows df) (execute "product_composition_data" 14);;
  commit.

Definition list_presence_dictionary_import_data (df : DataFrame) : io unit :=
  for_each (iterrows df) (execute "list_presence_dictionary" 4);;
  commit.

Definition list_presence_data_import_data (df : DataFrame) : io unit :=
  for_each (iterrows df) (execute "list_presence_data" 3);;
  commit.

Definition HHE_data_import_data (df : DataFrame) : io unit :=
  for_each (iterrows df) (execute "HHE_data" 2);;
  commit.

Definition functional_use_dictionary_import_data (df : DataFrame) : io unit :=
  for_each (iterrows df) (execute "functional_use_dictionary" 4);;
  commit.

Definition functional_use_data_import_data (df : DataFrame) : io unit :=
  for_each (iterrows df) (execute "functional_use_data" 3);;
  commit.

Definition PUC_dictionary_import_data (df : DataFrame) : io unit :=
  for_each (iterrows df) (execute "PUC_dictionary" 7);;
  commit.

(** *** [import_table_data] *)

Definition import_table_data (table_name : string) (df : DataFrame) : io unit :=
  (if String.eqb table_name "document_dictionary" then
     document_dictionary_import_data df
   else if String.eqb table_name "chemical_dictionary" then
     chemical_dictionary_import_data df
   else if String.eqb table_name "list_presence_dictionary" then
     list_presence_dictionary_import_data df
   else if String.eqb table_name "PUC_dictionary" then
     PUC_dictionary_import_data df
   else if String.eqb table_name "functional_use_dictionary" then
     functional_use_dictionary_import_data df
   else if String.eqb table_name "DSSTox" then
     DSSTox_import_data df
   else if String.eqb table_name "QSUR_data" then
     QSUR_data_import_data df
   else if String.eqb table_name "functional_use_data" then
     functional_use_data_import_data df
   else if String.eqb table_name "product_composition_data" then
     product_composition_data_import_data df
   else if String.eqb table_name "list_presence_data" then
     list_presence_data_import_data df
   else if String.eqb table_name "HHE_data" then
     HHE_data_import_data df
   else
     (print (MsgNotImported table_name);; sys_exit 1));;
  print (MsgImported table_name).

(** *** [import_data_to_DB] *)

(** The inner loop: the frames of one table. *)
Definition import_frames (table_name : string) (df_list : list DataFrame) : io unit :=
  for_each df_list
    (fun df =>
       let df := replace_empty_na_with_null df in
       import_table_data table_name df).

(** The [try] around it: an [Exception] is printed with the table's name
    and the loop over the tables goes on; [SystemExit] is not caught. *)
Definition import_table_guarded (entry : string * list DataFrame) : io unit :=
  fun w =>
    match import_frames (fst entry) (snd entry) w with
    | (w', Throw e) => print (MsgImportError (fst entry) e) w'
    | other => other
    end.

(** [data] is a dictionary: its items come in insertion order.  Leaving the
    [with] block commits; leaving it by [SystemExit] rolls back. *)
Definition import_data_to_DB (data : list (string * list DataFrame)) : io unit :=
  fun w =>
    match for_each data import_table_guarded w with
    | (w', Ret tt) => commit w'
    | (w', other) => (fst (rollback w'), other)
    end.

(** *** [extract_data], [parse_file_paths] and [load_file] *)

(** A dictionary from table names to lists, in insertion order. *)
Definition dict (V : Type) : Type := list (string * list V).

(** [d[key].append(v)] on a [defaultdict(list)]: a new key goes last. *)
Fixpoint dict_append {V : Type} (key : string) (v : V) (d : dict V) : dict V :=
  match d with
  | [] => [(key, [v])]
  | (k, vs) :: d' =>
      if String.eqb k key then (k, vs ++ [v]) :: d'
      else (k, vs) :: dict_append key v d'
  end.

(** [paths.remove(p)]: the first occurrence. *)
Fixpoint remove_first (p : string) (paths : list string) : list string :=
  match paths with
  | [] => []
  | q :: paths' => if String.eqb q p then paths' else q :: remove_first p paths'
  end.

(** [for file_path in paths: if not os.path.exists(file_path): ...
    paths.remove(file_path)]: the iterator holds a position in the list the
    body shortens.  [fuel] bounds the turns; the length of the list is
    enough. *)
Fixpoint prune_missing (fuel i : nat) (paths : list string) : io (list string) :=
  match fuel with
  | O => mret paths
  | S fuel' =>
      match paths !! i with
      | None => mret paths
      | Some file_path =>
          if path_exists file_path then prune_missing fuel' (S i) paths
          else
            print (MsgFileNotFound file_path);;
            prune_missing fuel' (S i) (remove_first file_path paths)
      end
  end.

(** The loop that verifies the files of every table. *)
Fixpoint verify_files (file_paths : dict string) : io (dict string) :=
  match file_paths with
  | [] => mret []
  | (table_name, paths) :: rest =>
      paths' ← prune_missing (length paths) 0 paths;
      match paths' with
      | [] => sys_exit 1
      | _ => rest' ← verify_files rest; mret ((table_name, paths') :: rest')
      end
  end.

Definition parse_file_paths (data_dir : string) : io (dict string) :=
  let file_paths : dict string := [] in
  let file_paths :=
    fold_left
      (fun d i =>
         dict_append "DSSTox"
           (data_dir ++ "/DSSToxDump" ++ str_of_Z (Z.of_nat i) ++ ".xlsx")%string d)
      (seq 1 13) file_paths in
  let file_paths :=
    dict_append "document_dictionary"
      (data_dir ++ "/document_dictionary_20201216.csv")%string file_paths in
  let file_paths :=
    dict_append "chemical_dictionary"
      (data_dir ++ "/chemical_dictionary_20201216.csv")%string file_paths in
  let file_paths :=
    dict_append "list_presence_data"
      (data_dir ++ "/list_presence_data_20201216.csv")%string file_paths in
  let file_paths :=
    dict_append "PUC_dictionary"
      (data_dir ++ "/PUC_dictionary_20201216.csv")%string file_paths in
  let file_paths :=
    dict_append "functional_use_dictionary"
      (data_dir ++ "/functional_use_dictionary_20201216.csv")%string file_paths in
  let file_paths :=
    dict_append "QSUR_data"
      (data_dir ++ "/QSUR_data_20201216.csv")%string file_paths in
  let file_paths :=
    dict_append "functional_use_data"
      (data_dir ++ "/functional_use_data_20201216.csv")%string file_paths in
  let file_paths :=
    dict_append "product_composition_data"
      (data_dir ++ "/product_composition_data_20201216.csv")%string file_paths in
  let file_paths :=
    dict_append "list_presence_dictionary"
      (data_dir ++ "/list_presence_dictionary_20201216.csv")%string file_paths in
  let file_paths :=
    dict_append "HHE_data"
      (data_dir ++ "/HHE_data_20201216.csv")%string file_paths in
  verify_files file_paths.

Definition parse_file_paths_for_test (data_dir : string) : io (dict string) :=
  let file_paths : dict string := [] in
  let file_paths :=
    dict_append "DSSTox"
      (data_dir ++ "/DSSTox_sample.xlsx")%string file_paths in
  let file_paths :=
    dict_append "document_dictionary"
      (data_dir ++ "/document_dictionary_sample.csv")%string file_paths in
  let file_paths :=
    dict_append "chemical_dictionary"
      (data_dir ++ "/chemical_dictionary_sample.csv")%string file_paths in
  let file_paths :=
    dict_append "list_presence_dictionary"
      (data_dir ++ "/list_presence_dictionary_sample.csv")%string file_paths in
  let file_paths :=
    dict_append "PUC_dictionary"
      (data_dir ++ "/PUC_dictionary_sample.csv")%string file_paths in
  let file_paths :=
    dict_append "functional_use_dictionary"
      (data_dir ++ "/functional_use_dictionary_sample.csv")%string file_paths in
  let file_paths :=
    dict_append "QSUR_data"
      (data_dir ++ "/QSUR_data_sample.csv")%string file_paths in
  let file_paths :=
    dict_append "functional_use_data"
      (data_dir ++ "/functional_use_data_sample.csv")%string file_paths in
  let file_paths :=
    dict_append "product_composition_data"
      (data_dir ++ "/product_composition_data_sample.csv")%string file_paths in
  let file_paths :=
    dict_append "list_presence_data"
      (data_dir ++ "/list_presence_data_sample.csv")%string file_paths in
  let file_paths :=
    dict_append "HHE_data"
      (data_dir ++ "/HHE_data_sample.csv")%string file_paths in
  verify_files file_paths.

(** The encodings of a CSV file, tried in turn. *)
Fixpoint try_encodings (file_path : string) (encodings : list string) : io DataFrame :=
  match encodings with
  | [] => print (MsgAllEncodingsFailed file_path);; sys_exit 1
  | encoding :: rest =>
      match read_csv file_path encoding with
      | Raise UnicodeDecodeError =>
          print (MsgEncodingFailed encoding file_path);;
          try_encodings file_path rest
      | r => lift r
      end
  end.

Definition load_file (file_path : string) : io DataFrame :=
  let body : io DataFrame :=
    if endswith file_path ".xlsx" || endswith file_path ".xls" then
      lift (read_excel file_path)
    else if endswith file_path ".csv" then
      try_encodings file_path ["utf-8"; "ISO-8859-1"; "Windows-1252"]
    else
      print (MsgUnsupportedFormat file_path);; sys_exit 1 in
  fun w =>
    match body w with
    | (w', Throw e) => (print (MsgReadError file_path e);; sys_exit 1) w'
    | other => other
    end.

(** The frames of one table's files. *)
Fixpoint load_files (paths : list string) : io (list DataFrame) :=
  match paths with
  | [] => mret []
  | file_path :: paths' =>
      df ← load_file file_path;
      if empty df then sys_exit 1
      else df_list ← load_files paths'; mret (df :: df_list)
  end.

(** The keys of [file_paths] are distinct, so [data] gets them in the same
    order. *)
Fixpoint extract_data (file_paths : dict string) : io (dict DataFrame) :=
  match file_paths with
  | [] => mret []
  | (table_name, paths) :: rest =>
      df_list ← load_files paths;
      data ← extract_data rest;
      mret ((table_name, df_list) :: data)
  end.

(** *** [create_database], [test_program] and [main] *)

(** The schema script runs outside the model: the world the loader starts
    in has the tables. *)
Definition create_database (db_path schema_file : string) : io unit :=
  print (MsgDatabaseCreated db_path).

(** [validate_file_paths]: the first missing path ends the program. *)
Fixpoint validate_file_paths (paths : list string) : io unit :=
  match paths with
  | [] => mret tt
  | path :: paths' =>
      if path_exists path then validate_file_paths paths'
      else print (MsgErrorFileNotFound path);; sys_exit 1
  end.

(** [if data: ... else: ...] with what follows the import. *)
Definition import_or_report (data : dict DataFrame) : io unit :=
  match data with
  | [] => print MsgNoValidData
  | _ => import_data_to_DB data;; print MsgCompleted
  end.

Definition test_program (data_dir db_path schema_file : string) : io unit :=
  print MsgTesting;;
  data_files ← parse_file_paths_for_test data_dir;
  create_database db_path schema_file;;
  data ← extract_data data_files;
  import_or_report data.

(** [main]: [argv] stands for the arguments of the command line, which
    [parse_args] reads. *)
Definition main (argv : list string) : io unit :=
  match parse_args argv with
  | UsageError => sys_exit 2
  | HelpRequested => print MsgHelp;; sys_exit 0
  | Namespace db_path schema_file data_path TEST =>
      let test_bool := String.eqb TEST "yes" in
      if test_bool then
        test_program data_path db_path schema_file;;
        print MsgProgramComplete;;
        sys_exit 0
      else
        data_files ← parse_file_paths data_path;
        create_database db_path schema_file;;
        data ← extract_data data_files;
        import_or_report data;;
        sys_exit 0
  end.

End Loader.

End LoadData.

(** * Properties *)

(** ** Vocabulary of the statements *)

Module Statements.
Import PyStr PyFloat Strptime Pandas Db LoadData.

(** The cell of row [i] (from zero) in column position [j]. *)
Definition cell_at (df : DataFrame) (i j : nat) : option cell :=
  rows df !! i ≫= fun row => row !! j.

(** The items of a compiled format that set the day, and the month. *)
Definition sets_day (it : item) : bool :=
  match it with
  | Dir dd => true
  | _ => false
  end.

Definition sets_month (it : item) : bool :=
  match it with
  | Dir dm | Dir db | Dir dB => true
  | _ => false
  end.

(** A row holds a string in position [i]. *)
Definition holds_string (i : nat) (row : list cell) : Prop :=
  exists s, row !! i = Some (CStr s).

(** The text of the cell in position [i] (empty when the cell holds no
    string). *)
Definition text_at (i : nat) (row : list cell) : string :=
  match row !! i with
  | Some (CStr s) => s
  | _ => EmptyString
  end.

(** The first token of a compound identifier, trimmed, and the
    cross-reference rows of the tokens after it: primary, primary, trimmed
    alternative. *)
Definition primary_token (s : string) : string :=
  strip (hd EmptyString (split "|" s)).

Definition cross_references (s : string) : list (list cell) :=
  (fun alt => [CStr (primary_token s); CStr (primary_token s); CStr (strip alt)])
    <$> tl (split "|" s).

(** The dictionaries the loop of [explode_identifiers] appends for a row
    whose identifier reads [s]. *)
Definition records_of (s : string) : list (list (string * cell)) :=
  (fun alt_id =>
     [("IDENTIFIER", CStr (primary_token s)); ("CASRN", CStr (primary_token s));
      ("ALTERNATIVE_IDENTIFIER", CStr (strip alt_id))]) <$> tl (split "|" s).

(** The tables [import_table_data] knows. *)
Definition table_names : list string :=
  ["document_dictionary"; "chemical_dictionary"; "list_presence_dictionary";
   "PUC_dictionary"; "functional_use_dictionary"; "DSSTox"; "QSUR_data";
   "functional_use_data"; "product_composition_data"; "list_presence_data";
   "HHE_data"].

Definition known_table (table_name : string) : bool :=
  existsb (String.eqb table_name) table_names.

(** What the console shows of one table of [data]: a line per frame
    imported, all of them or, when a frame fails, those before it and the
    line of the error. *)
Definition table_report (entry : string * list DataFrame) (msgs : list message) : Prop :=
  msgs = replicate (length (snd entry)) (MsgImported (fst entry))
  \/ exists k e,
       (k < length (snd entry))%nat
       /\ msgs = replicate k (MsgImported (fst entry))
                 ++ [MsgImportError (fst entry) e].

(** A call that prints nothing, takes nothing back from the database and
    does not exit. *)
Definition quiet {A : Type} (m : io A) : Prop :=
  forall w,
    committed w `prefix_of` committed (fst (m w))
    /\ stdout (fst (m w)) = stdout w
    /\ forall code, snd (m w) <> Exit code.

(** A batch of insertions: the table, the number of question marks of its
    INSERT statement and the rows bound to it, in order. *)
Definition batch : Type := (string * nat * list (list cell))%type.

(** The number of question marks of the INSERT statement of a table that
    has no transform of its own. *)
Definition marks_of (table_name : string) : nat :=
  if String.eqb table_name "chemical_dictionary" then 7
  else if String.eqb table_name "list_presence_dictionary" then 4
  else if String.eqb table_name "PUC_dictionary" then 7
  else if String.eqb table_name "functional_use_dictionary" then 4
  else if String.eqb table_name "QSUR_data" then 5
  else if String.eqb table_name "functional_use_data" then 3
  else if String.eqb table_name "list_presence_data" then 3
  else 2.

(** The rows of a frame as they are bound to an INSERT and taken by
    SQLite: the values [iterrows] yields, a NaN among them read as NULL. *)
Definition bound_rows (df : DataFrame) : list (list cell) :=
  fmap (M := list) sqlite_value <$> iterrows df.

(** What the import function of a table does to the frame it is given
    before it inserts: the transform of the table (the dates of
    document_dictionary, the compositions of product_composition_data, the
    explosion of DSSTox with the nulls of both frames set to [None]) and
    the rows that result, as they are bound. *)
Definition insertions (infer_string : bool) (repr_float : float -> string)
    (table_name : string) (df : DataFrame) : result (list batch) :=
  if String.eqb table_name "document_dictionary" then
    df' ← convert_dates infer_string df "doc_date";
    Ok [("document_dictionary", 4%nat, bound_rows df')]
  else if String.eqb table_name "product_composition_data" then
    df' ← convert_compositions infer_string repr_float df;
    Ok [("product_composition_data", 14%nat, bound_rows df')]
  else if String.eqb table_name "DSSTox" then
    frames ← explode_identifiers infer_string repr_float df;
    Ok [("DSSTox", 12%nat, bound_rows (where_notnull (fst frames)));
        ("Identifier", 3%nat, bound_rows (where_notnull (snd frames)))]
  else Ok [(table_name, marks_of table_name, bound_rows df)].

Definition insert_batches (sink_accepts : list stored -> string -> list cell -> bool)
    (batches : list batch) : io unit :=
  for_each batches
    (fun b => for_each (snd b) (execute sink_accepts (fst (fst b)) (snd (fst b)))).

(** The import of one frame in the order the code has: null normalization
    of the frame as read, the transform of the table, the insertions, the
    commit and the line on the console. *)
Definition normalize_then_transform (infer_string : bool)
    (repr_float : float -> string)
    (sink_accepts : list stored -> string -> list cell -> bool)
    (table_name : string) (df : DataFrame) : io unit :=
  batches ← lift (insertions infer_string repr_float table_name
                    (replace_empty_na_with_null df));
  insert_batches sink_accepts batches;;
  commit;;
  print (MsgImported table_name).

(** The import of one frame in the order the specification describes: the
    transform of the table on the frame as read, null normalization of the
    rows that result, and the insertions right after it. *)
Definition transform_then_normalize (infer_string : bool)
    (repr_float : float -> string)
    (sink_accepts : list stored -> string -> list cell -> bool)
    (table_name : string) (df : DataFrame) : io unit :=
  batches ← lift (insertions infer_string repr_float table_name df);
  insert_batches sink_accepts
    ((fun b : batch =>
        (fst b, fmap (M := list) (fmap (M := list) null_if_empty_or_na) (snd b)))
       <$> batches);;
  commit;;
  print (MsgImported table_name).

(** A substance whose compound identifier starts with the token NA. *)
Definition dsstox_columns : list string :=
  ["DTXSID"; "PREFERRED_NAME"; "CASRN"; "INCHIKEY"; "IUPAC_NAME"; "SMILES";
   "MOLECULAR_FORMULA"; "AVERAGE_MASS"; "MONOISOTOPIC_MASS";
   "QSAR_READY_SMILES"; "MS_READY_SMILES"; "IDENTIFIER"].

Definition substance_na : DataFrame :=
  mkFrame dsstox_columns
    [[CStr "DTXSID7020637"; CStr "Formaldehyde"; CStr "50-00-0";
      CStr "WSFSSNUMVMOOMR-UHFFFAOYSA-N"; CStr "Formaldehyde"; CStr "C=O";
      CStr "CH2O"; CStr "30.026"; CStr "30.010564684"; CStr "C=O"; CStr "C=O";
      CStr "NA|CAS-ALT-1"]].

Definition empty_world : world := mkWorld [] [] [].

(** A data directory with every file, one row in each: the columns of a
    table are those of its INSERT statement. *)
Definition columns_of (table_name : string) : list string :=
  if String.eqb table_name "document_dictionary" then
    ["document_id"; "title"; "subtitle"; "doc_date"]
  else if String.eqb table_name "chemical_dictionary" then
    ["chemical_id"; "raw_chem_name"; "raw_casrn"; "preferred_name";
     "preferred_casrn"; "DTXSID"; "curation_level"]
  else if String.eqb table_name "list_presence_dictionary" then
    ["list_presence_id"; "name"; "definition"; "kind"]
  else if String.eqb table_name "PUC_dictionary" then
    ["puc_id"; "gen_cat"; "prod_fam"; "prod_type"; "description"; "puc_code"; "kind"]
  else if String.eqb table_name "functional_use_dictionary" then
    ["chemical_id"; "functional_use_id"; "report_funcuse"; "oecd_function"]
  else if String.eqb table_name "DSSTox" then dsstox_columns
  else if String.eqb table_name "QSUR_data" then
    ["DTXSID"; "preferred_name"; "preferred_casrn"; "harmonized_function"; "probability"]
  else if String.eqb table_name "functional_use_data" then
    ["document_id"; "chemical_id"; "functional_use_id"]
  else if String.eqb table_name "product_composition_data" then
    ["document_id"; "product_id"; "chemical_id"; "functional_use_id"; "puc_id";
     "classification"; "prod_title"; "brand_name"; "raw_min_comp";
     "raw_central_comp"; "raw_max_comp"; "clean_min_wf"; "clean_central_wf";
     "clean_max_wf"]
  else if String.eqb table_name "list_presence_data" then
    ["document_id"; "chemical_id"; "list_presence_id"]
  else ["document_id"; "chemical_id"].

Definition sample_frame (table_name : string) : DataFrame :=
  mkFrame (columns_of table_name) [(fun _ => CStr "1") <$> columns_of table_name].

Definition sample_read_excel (path : string) : result DataFrame :=
  Ok (sample_frame "DSSTox").

Definition sample_read_csv (path encoding : string) : result DataFrame :=
  match find (fun t => endswith path ("/" ++ t ++ "_20201216.csv")%string) table_names with
  | Some t => Ok (sample_frame t)
  | None => Raise OtherError
  end.

(** The order in which [parse_file_paths] and [parse_file_paths_for_test]
    enter the tables in the dictionary. *)
Definition production_order : list string :=
  ["DSSTox"; "document_dictionary"; "chemical_dictionary"; "list_presence_data";
   "PUC_dictionary"; "functional_use_dictionary"; "QSUR_data";
   "functional_use_data"; "product_composition_data";
   "list_presence_dictionary"; "HHE_data"].

Definition test_order : list string :=
  ["DSSTox"; "document_dictionary"; "chemical_dictionary";
   "list_presence_dictionary"; "PUC_dictionary"; "functional_use_dictionary";
   "QSUR_data"; "functional_use_data"; "product_composition_data";
   "list_presence_data"; "HHE_data"].

(** The world after some lines were printed and nothing else happened. *)
Definition with_output (w : world) (msgs : list message) : world :=
  mkWorld (committed w) (pending w) (stdout w ++ msgs).

(** The files of the production directory that are not DSSTox dumps. *)
Definition csv_tables : list string :=
  ["document_dictionary"; "chemical_dictionary"; "list_presence_data";
   "PUC_dictionary"; "functional_use_dictionary"; "QSUR_data";
   "functional_use_data"; "product_composition_data";
   "list_presence_dictionary"; "HHE_data"].

Definition csv_path (data_dir table_name : string) : string :=
  (data_dir ++ "/" ++ table_name ++ "_20201216.csv")%string.

(** An entry of the dictionary of paths whose list the verification loop
    cannot empty: at least two paths, all distinct. *)
Definition several_paths (entry : string * list string) : Prop :=
  NoDup (snd entry) /\ (2 <= length (snd entry))%nat.

(** An entry with exactly one path. *)
Definition single_path (entry : string * list string) : Prop :=
  exists p, snd entry = [p].

Definition sample_path (data_dir table_name : string) : string :=
  (data_dir ++ "/" ++ table_name ++ "_sample.csv")%string.

(** The eleven files of the sample directory, in the order of
    [parse_file_paths_for_test]. *)
Definition sample_files (data_dir : string) : list string :=
  (data_dir ++ "/DSSTox_sample.xlsx")%string
  :: (sample_path data_dir <$> tail test_order).

(** The last character of a string. *)
Fixpoint last_char (s : string) : option ascii :=
  match s with
  | EmptyString => None
  | String c EmptyString => Some c
  | String _ s' => last_char s'
  end.

(** The encodings [load_file] tries for a CSV file. *)
Definition csv_encodings : list string := ["utf-8"; "ISO-8859-1"; "Windows-1252"].

(** A date of the calendar: one the constructor of [datetime.date]
    accepts. *)
Definition calendar_date (d : date) : Prop :=
  make_date (year d) (month d) (day d) = Ok d.

(** What a cell holds after the conversion of its column: a null ([None]
    or NaN) or the text [strftime] writes for a date of the calendar; null
    or a float. *)
Definition date_or_null (c : cell) : Prop :=
  notnull c = false
  \/ exists d, calendar_date d /\ c = CStr (strftime_Ymd d).

Definition float_or_null (c : cell) : Prop :=
  c = CNone \/ exists f, c = CFloat f.

(** A row of the converted frame against the row it comes from: the same
    length, the same cells outside the positions [converted], and cells
    that satisfy [P] at these positions. *)
Definition converted_row (P : cell -> Prop) (converted : list nat)
    (row row' : list cell) : Prop :=
  length row' = length row
  /\ (forall j, j ∉ converted -> row' !! j = row !! j)
  /\ (forall j c, j ∈ converted -> row' !! j = Some c -> P c).

(** The rows of a list of batches with the table of each, in the order of
    their insertion. *)
Definition stored_rows (batches : list batch) : list stored :=
  batches ≫= fun b => pair (fst (fst b)) <$> snd b.

(** Every row of a batch has as many values as its INSERT has marks. *)
Definition well_formed_batch (b : batch) : Prop :=
  Forall (fun r => length r = snd (fst b)) (snd b).

(** A row holds, in position [i], a string that null normalization
    leaves alone. *)
Definition holds_identifier (i : nat) (row : list cell) : Prop :=
  exists s, row !! i = Some (CStr s) /\ s <> EmptyString /\ s <> "NA".

(** The run over the tables as the specification describes it, for a
    given import of one table: every table is imported in turn, from the
    state the tables before it left; when the import of a table raises, the
    line of the error is printed with the name of the table and the
    exception, and the run goes on with the next table. *)
Fixpoint attempt_every_table (import : string -> list DataFrame -> io unit)
    (data : list (string * list DataFrame)) (w : world) : world :=
  match data with
  | [] => w
  | (table_name, df_list) :: rest =>
      match import table_name df_list w with
      | (w', Throw e) =>
          attempt_every_table import rest
            (with_output w' [MsgImportError table_name e])
      | (w', _) => attempt_every_table import rest w'
      end
  end.

(** argparse on the command lines of the examples: the four options in
    the order of the parser, each followed by its value. *)
Definition sample_parse_args (argv : list string) : parsed :=
  match argv with
  | ["--db"; db_path; "--schema"; schema_file; "--data"; data_path;
     "--TEST"; test] =>
      Namespace db_path schema_file data_path test
  | ["-h"] => HelpRequested
  | _ => UsageError
  end.

Definition sample_argv : list string :=
  ["--db"; "cp_dsstox.db"; "--schema"; "schema.sql"; "--data"; "data";
   "--TEST"; "no"].

End Statements.

Import PyStr PyFloat Strptime Pandas Db LoadData Statements.

(** ** Null normalization *)

Lemma cell_at_map_cells (f : cell -> cell) (df : DataFrame) (i j : nat) :
  cell_at (map_cells f df) i j = f <$> cell_at df i j.
Proof.
  unfold cell_at, map_cells; cbn [rows].
  rewrite list_lookup_fmap.
  destruct (rows df !! i) as [row|]; cbn; [|done].
  by rewrite list_lookup_fmap.
Qed.

Lemma null_if_empty_or_na_idemp (c : cell) :
  null_if_empty_or_na (null_if_empty_or_na c) = null_if_empty_or_na c.
Proof.
  destruct c as [|s| |]; cbn; try done.
  destruct (String.eqb s "" || String.eqb s "NA") eqn:E; cbn; [done|].
  by rewrite E.
Qed.

Lemma null_if_empty_or_na_other (c : cell) :
  c <> CStr "" -> c <> CStr "NA" -> null_if_empty_or_na c = c.
Proof.
  intros H1 H2. destruct c as [|s| |]; cbn; try done.
  destruct (String.eqb_spec s ""); [congruence|].
  destruct (String.eqb_spec s "NA"); [congruence|]. done.
Qed.

(** C7.  Null normalization keeps the columns and the shape of the frame,
    turns every cell that holds the empty string or the text NA into the
    null value, leaves every other cell as it is, and applying it twice is
    applying it once. *)
Theorem replace_empty_na_with_null_spec (df : DataFrame) :
  columns (replace_empty_na_with_null df) = columns df
  /\ (forall i j s,
        cell_at df i j = Some (CStr s) -> s = "" \/ s = "NA" ->
        cell_at (replace_empty_na_with_null df) i j = Some CNone)
  /\ (forall i j c,
        cell_at df i j = Some c -> c <> CStr "" -> c <> CStr "NA" ->
        cell_at (replace_empty_na_with_null df) i j = Some c)
  /\ (forall i j,
        cell_at df i j = None ->
        cell_at (replace_empty_na_with_null df) i j = None)
  /\ replace_empty_na_with_null (replace_empty_na_with_null df)
     = replace_empty_na_with_null df.
Proof.
  unfold replace_empty_na_with_null.
  split; [done|].
  split.
  { intros i j s Hc Hs. rewrite cell_at_map_cells, Hc.
    by destruct Hs as [-> | ->]. }
  split.
  { intros i j c Hc H1 H2. rewrite cell_at_map_cells, Hc; cbn.
    by rewrite null_if_empty_or_na_other. }
  split.
  { intros i j Hc. by rewrite cell_at_map_cells, Hc. }
  unfold map_cells; cbn [rows columns]. f_equal.
  rewrite <- list_fmap_compose.
  apply list_fmap_ext; intros _ row _; cbn.
  rewrite <- list_fmap_compose.
  apply list_fmap_ext; intros _ c _; cbn.
  apply null_if_empty_or_na_idemp.
Qed.

(** A frame of two rows with an empty string, the text NA, an ordinary
    string and a number: the first two cells become null, the others stay. *)
Lemma replace_empty_na_with_null_witness :
  let df := mkFrame ["a"; "b"] [[CStr ""; CStr "NA"]; [CStr "x"; CInt 7]] in
  cell_at (replace_empty_na_with_null df) 0 0 = Some CNone
  /\ cell_at (replace_empty_na_with_null df) 0 1 = Some CNone
  /\ cell_at (replace_empty_na_with_null df) 1 0 = Some (CStr "x")
  /\ cell_at (replace_empty_na_with_null df) 1 1 = Some (CInt 7)
  /\ cell_at (replace_empty_na_with_null df) 2 0 = None.
Proof.
  intros df.
  destruct (replace_empty_na_with_null_spec df) as (_ & Hnull & Hkeep & Hout & _).
  split; [apply (Hnull 0 0 "")%nat; [reflexivity | by left]|].
  split; [apply (Hnull 0 1 "NA")%nat; [reflexivity | by right]|].
  split; [apply (Hkeep 1 0)%nat; [reflexivity | discriminate | discriminate]|].
  split; [apply (Hkeep 1 1)%nat; [reflexivity | discriminate | discriminate]|].
  apply (Hout 2 0)%nat; reflexivity.
Defined.

(** ** Percentage-aware parsing *)

Lemma remove_char_absent (c : ascii) (s : string) :
  contains c s = false -> remove_char c s = s.
Proof.
  induction s as [|d s IH]; cbn; [done|].
  destruct (Ascii.eqb d c); cbn; [done|].
  intros H. by rewrite IH.
Qed.

Lemma to_float_str (repr_float : float -> string) (s : string) :
  to_float repr_float (CStr s)
  = Ok (if contains "%" (strip s)
        then (fun f => (f / 100)%float) <$> py_float (remove_char "%" (strip s))
        else py_float (strip s)).
Proof.
  unfold to_float, float_of_str; cbn [notnull py_str].
  destruct (contains "%" (strip s)).
  - by destruct (py_float (remove_char "%" (strip s))).
  - by destruct (py_float (strip s)).
Qed.

#[local] Set Warnings "-inexact-float".

(** C5.  [to_float] returns null for a null input; for a string whose
    trimmed form holds a percent sign it returns the number read once the
    percent signs are taken out, divided by 100; for any other string the
    number read from the trimmed form; and null, not an exception, when the
    text is no number.  So 45% gives 0.45, 0.45 gives 0.45 and abc gives
    null.  The numbers are binary64 floats, read and divided as Python
    does. *)
Theorem to_float_spec (repr_float : float -> string) :
  (forall c, notnull c = false -> to_float repr_float c = Ok None)
  /\ (forall s, contains "%" (strip s) = true ->
        to_float repr_float (CStr s)
        = Ok ((fun f => (f / 100)%float)
                <$> py_float (remove_char "%" (strip s))))
  /\ (forall s, contains "%" (strip s) = false ->
        to_float repr_float (CStr s) = Ok (py_float (strip s)))
  /\ (forall s, py_float (remove_char "%" (strip s)) = None ->
        to_float repr_float (CStr s) = Ok None)
  /\ to_float repr_float (CStr "45%") = Ok (Some 0.45%float)
  /\ to_float repr_float (CStr "0.45") = Ok (Some 0.45%float)
  /\ to_float repr_float (CStr "abc") = Ok None.
Proof.
  split.
  { intros c Hc. unfold to_float. by rewrite Hc. }
  split.
  { intros s Hs. by rewrite to_float_str, Hs. }
  split.
  { intros s Hs. by rewrite to_float_str, Hs. }
  split.
  { intros s Hs. rewrite to_float_str.
    destruct (contains "%" (strip s)) eqn:E.
    - by rewrite Hs.
    - by rewrite remove_char_absent in Hs by done; rewrite Hs. }
  split; [|split]; rewrite to_float_str; vm_compute; reflexivity.
Qed.

(** The general clauses at four inputs: a NaN cell, a percentage with
    white space around it, a plain number and a text that is no number. *)
Lemma to_float_witness :
  to_float (fun _ => "nan") (CFloat nan) = Ok None
  /\ to_float (fun _ => "nan") (CStr " 12.5 % ") = Ok (Some 0.125%float)
  /\ to_float (fun _ => "nan") (CStr "1e-3") = Ok (Some 0.001%float)
  /\ to_float (fun _ => "nan") (CStr "12 percent") = Ok None.
Proof.
  destruct (to_float_spec (fun _ => "nan")) as (Hnull & Hpct & Hplain & Hbad & _).
  split; [apply Hnull; reflexivity|].
  split; [rewrite Hpct by reflexivity; vm_compute; reflexivity|].
  split; [rewrite Hplain by reflexivity; vm_compute; reflexivity|].
  apply Hbad; vm_compute; reflexivity.
Defined.

(** ** Date canonicalization *)

Lemma strptime_raises_ValueError (s fmt : string) (e : exn) :
  strptime s fmt = Raise e -> e = ValueError.
Proof.
  unfold strptime, make_date.
  repeat case_match; congruence.
Qed.

Lemma try_format_str (s fmt : string) :
  try_format (CStr s) fmt
  = match strptime (strip s) fmt with
    | Ok d => Ok (strftime_Ymd d)
    | Raise e => Raise e
    end.
Proof. reflexivity. Qed.

Lemma try_format_nonstr (c : cell) (fmt : string) :
  (forall s, c <> CStr s) -> try_format c fmt = Raise AttributeError.
Proof.
  intros Hc. destruct c as [|s| |]; try reflexivity.
  by destruct (Hc s).
Qed.

Lemma parse_date_from_nonstr (c : cell) (fmts : list string) :
  (forall s, c <> CStr s) -> parse_date_from c fmts = Ok None.
Proof.
  intros Hc. induction fmts as [|fmt fmts IH]; cbn [parse_date_from]; [done|].
  by rewrite try_format_nonstr.
Qed.

Lemma parse_date_from_skip (s fmt : string) (fmts : list string) (e : exn) :
  strptime (strip s) fmt = Raise e ->
  parse_date_from (CStr s) (fmt :: fmts) = parse_date_from (CStr s) fmts.
Proof.
  intros H. cbn [parse_date_from]. rewrite try_format_str, H.
  by rewrite (strptime_raises_ValueError _ _ _ H).
Qed.

Lemma parse_date_from_none (s : string) (fmts : list string) :
  (forall fmt, fmt ∈ fmts -> exists e, strptime (strip s) fmt = Raise e) ->
  parse_date_from (CStr s) fmts = Ok None.
Proof.
  induction fmts as [|fmt fmts IH]; intros H; [done|].
  destruct (H fmt) as [e He]; [left|].
  rewrite (parse_date_from_skip _ _ _ _ He).
  apply IH. intros f Hf. apply H. by right.
Qed.

Lemma parse_date_from_first (s : string) (pre : list string) (fmt : string)
    (post : list string) (d : date) :
  (forall f, f ∈ pre -> exists e, strptime (strip s) f = Raise e) ->
  strptime (strip s) fmt = Ok d ->
  parse_date_from (CStr s) (pre ++ fmt :: post) = Ok (Some (strftime_Ymd d)).
Proof.
  induction pre as [|f pre IH]; intros Hpre Hfmt.
  - cbn [app parse_date_from]. by rewrite try_format_str, Hfmt.
  - destruct (Hpre f) as [e He]; [left|].
    change ((f :: pre) ++ fmt :: post) with (f :: (pre ++ fmt :: post)).
    rewrite (parse_date_from_skip _ _ _ _ He).
    apply IH; [|done]. intros g Hg. apply Hpre. by right.
Qed.

(** Whatever the cell, the loop ends with a value: the date of the first
    format that reads the text, or null. *)
Lemma parse_date_from_result (c : cell) (fmts : list string) :
  parse_date_from c fmts = Ok None
  \/ exists s fmt d,
       c = CStr s /\ fmt ∈ fmts /\ strptime (strip s) fmt = Ok d
       /\ parse_date_from c fmts = Ok (Some (strftime_Ymd d)).
Proof.
  destruct c as [|s|z|f];
    try (left; apply parse_date_from_nonstr; intros; discriminate).
  induction fmts as [|fmt fmts IH]; [by left|].
  destruct (strptime (strip s) fmt) as [d|e] eqn:E.
  - right. exists s, fmt, d. split; [done|]. split; [left|]. split; [done|].
    cbn [parse_date_from]. by rewrite try_format_str, E.
  - rewrite (parse_date_from_skip _ _ _ _ E).
    destruct IH as [IH | (s' & fmt' & d & Hs & Hin & Hd & IH)]; [by left|].
    right. exists s', fmt', d. split; [done|]. split; [by right|]. done.
Qed.

(** C6.  [parse_date] never raises: every input gives a value.  An input
    that is no string (null in particular) gives null; so does a string
    that none of the formats reads.  When some format reads the string, the
    result is the date read by the first such format in the order of
    [date_formats], as [strftime] writes it; 01-02-2020, which several
    formats could read, is the first of February. *)
Theorem parse_date_first_match :
  (forall c, exists r, parse_date c = Ok r)
  /\ parse_date CNone = Ok None
  /\ (forall c, (forall s, c <> CStr s) -> parse_date c = Ok None)
  /\ (forall s,
        (forall fmt, fmt ∈ date_formats ->
                     exists e, strptime (strip s) fmt = Raise e) ->
        parse_date (CStr s) = Ok None)
  /\ (forall s pre fmt post d,
        date_formats = pre ++ fmt :: post ->
        (forall f, f ∈ pre -> exists e, strptime (strip s) f = Raise e) ->
        strptime (strip s) fmt = Ok d ->
        parse_date (CStr s) = Ok (Some (strftime_Ymd d)))
  /\ parse_date (CStr "01-02-2020") = Ok (Some "2020-02-01").
Proof.
  unfold parse_date.
  split.
  { intros c.
    destruct (parse_date_from_result c date_formats)
      as [H | (s & fmt & d & _ & _ & _ & H)]; rewrite H; eauto. }
  split; [reflexivity|].
  split; [intros c Hc; by apply parse_date_from_nonstr|].
  split; [intros s Hs; by apply parse_date_from_none|].
  split; [|vm_compute; reflexivity].
  intros s pre fmt post d -> Hpre Hfmt. by apply parse_date_from_first.
Qed.

(** The clauses at concrete inputs: a number is no string; no format reads
    not-a-date; the first format that reads January 2020 is the ninth. *)
Lemma parse_date_first_match_witness :
  parse_date (CInt 2020) = Ok None
  /\ parse_date (CStr "not-a-date") = Ok None
  /\ parse_date (CStr " January 2020 ") = Ok (Some "2020-01-01").
Proof.
  destruct parse_date_first_match as (_ & _ & Hnonstr & Hnone & Hfirst & _).
  split; [apply Hnonstr; discriminate|].
  split.
  { apply Hnone. intros fmt Hfmt. unfold date_formats in Hfmt.
    repeat (apply elem_of_cons in Hfmt as [-> | Hfmt];
            [eexists; vm_compute; reflexivity|]).
    by apply elem_of_nil in Hfmt. }
  apply (Hfirst " January 2020 "
           ["%Y-%m-%d"; "%d-%m-%Y"; "%d-%b-%y"; "%d-%b-%Y"; "%d-%B-%Y";
            "%B-%y"; "%b-%y"; "%B %d, %Y"]
           "%B %Y"
           ["%Y"; "%d/%m/%Y"; "%m/%d/%Y"; "%d %B %Y"; "%m.%d.%Y"]
           (mkDate 2020 1 1)).
  - reflexivity.
  - intros f Hf.
    repeat (apply elem_of_cons in Hf as [-> | Hf];
            [eexists; vm_compute; reflexivity|]).
    by apply elem_of_nil in Hf.
  - vm_compute; reflexivity.
Defined.

(** ** Defaults of the date fields and the shape of the result *)

Lemma first_success_Some {A B : Type} (f : A -> option B) (xs : list A) (b : B) :
  first_success f xs = Some b -> exists a, a ∈ xs /\ f a = Some b.
Proof.
  induction xs as [|x xs IH]; cbn; [done|].
  destruct (f x) as [b'|] eqn:E.
  - intros [= ->]. exists x. split; [left | done].
  - intros H. destruct (IH H) as (a & Ha & Hfa). exists a. split; [by right | done].
Qed.

(** A way to match an item leaves the fields alone or sets the field of
    the item's directive. *)
Lemma ways_fields (it : item) (fs : fields) (s : string) (way : fields * string) :
  way ∈ ways it fs s ->
  fst way = fs \/ exists d found, it = Dir d /\ fst way = set_field d found fs.
Proof.
  destruct it as [c| |d]; cbn [ways].
  - destruct s as [|x s']; [by intros ?%elem_of_nil|].
    destruct (one c x); [|by intros ?%elem_of_nil].
    intros ->%list_elem_of_singleton. by left.
  - rewrite list_elem_of_In, in_map_iff.
    intros (r & <- & _). by left.
  - intros (ps & _ & H)%list_elem_of_omap.
    destruct (match_seq ps s) as [[found r]|]; [|done].
    injection H as <-. right. by exists d, found.
Qed.

Lemma match_items_keeps (its : list item) :
  forall fs s res,
    match_items its fs s = Some res ->
    (forallb (fun it => negb (sets_day it)) its = true ->
     f_day (fst res) = f_day fs)
    /\ (forallb (fun it => negb (sets_month it)) its = true ->
        f_mon (fst res) = f_mon fs).
Proof.
  induction its as [|it its IH]; intros fs s res; cbn [match_items forallb].
  - by intros [= <-].
  - intros (way & Hway & Hrest)%first_success_Some.
    destruct (IH _ _ _ Hrest) as [IHd IHm].
    destruct (ways_fields _ _ _ _ Hway) as [Hfs | (d & found & -> & Hfs)].
    + rewrite Hfs in IHd, IHm.
      split; intros [_ H]%andb_prop; auto.
    + rewrite Hfs in IHd, IHm.
      split; intros [Hd H]%andb_prop.
      * rewrite IHd by done. by destruct d.
      * rewrite IHm by done. by destruct d.
Qed.

Lemma strptime_defaults (s fmt : string) (its : list item) (d : date) :
  compile false fmt = Some its ->
  strptime s fmt = Ok d ->
  (forallb (fun it => negb (sets_day it)) its = true -> day d = 1%Z)
  /\ (forallb (fun it => negb (sets_month it)) its = true -> month d = 1%Z).
Proof.
  unfold strptime, make_date. intros ->.
  destruct (match_items its no_fields s) as [[fs rest]|] eqn:E; [|done].
  destruct (match_items_keeps _ _ _ _ E) as [Hd Hm].
  repeat case_match; try done.
  intros [= <-]; cbn [day month]. cbn [fst] in Hd, Hm. auto.
Qed.

(** A property checked on every number below a bound holds of each of
    them. *)
Lemma below_bound (P : Z -> bool) (bound : nat) (z : Z) :
  forallb (fun n => P (Z.of_nat n)) (seq 0 bound) = true ->
  (0 <= z < Z.of_nat bound)%Z ->
  P z = true.
Proof.
  intros Hall Hz. rewrite forallb_forall in Hall.
  rewrite <- (Z2Nat.id z) by lia.
  apply Hall, in_seq. lia.
Qed.

Lemma iso_shape (y m d : string) :
  all_digits 4 y = true -> all_digits 2 m = true -> all_digits 2 d = true ->
  is_iso_date (y ++ "-" ++ m ++ "-" ++ d)%string = true.
Proof.
  unfold all_digits, is_iso_date.
  destruct y as [|y1 [|y2 [|y3 [|y4 [|? ?]]]]]; try done.
  destruct m as [|m1 [|m2 [|? ?]]]; try done.
  destruct d as [|d1 [|d2 [|? ?]]]; try done.
  cbn. intros Hy Hm Hd.
  repeat match goal with
         | H : (_ && _)%bool = true |- _ => apply andb_prop in H as [? H]
         end.
  repeat match goal with
         | H : isdigit _ = true |- _ => rewrite H; clear H
         end.
  reflexivity.
Qed.

(** A year written on fewer than four characters makes a text that is too
    short for YYYY-MM-DD. *)
Lemma short_shape (y m d : string) :
  (String.length y <? 4)%nat = true ->
  all_digits 2 m = true -> all_digits 2 d = true ->
  is_iso_date (y ++ "-" ++ m ++ "-" ++ d)%string = false.
Proof.
  unfold all_digits, is_iso_date.
  destruct y as [|y1 [|y2 [|y3 [|y4 ?]]]]; try done;
    destruct m as [|m1 [|m2 [|? ?]]]; try done;
    destruct d as [|d1 [|d2 [|? ?]]]; done.
Qed.

(** The fields of a date of the calendar are within their bounds. *)
Lemma calendar_date_bounds (d : date) :
  calendar_date d ->
  (1 <= year d <= 9999)%Z /\ (1 <= month d <= 12)%Z /\ (1 <= day d <= 31)%Z.
Proof.
  unfold calendar_date, make_date. case_match; [|done]. intros _.
  repeat match goal with
         | H : (_ && _)%bool = true |- _ => apply andb_prop in H as [H ?]
         end.
  repeat match goal with
         | H : (_ <=? _)%Z = true |- _ => apply Z.leb_le in H
         end.
  assert (days_in_month (year d) (month d) <= 31)%Z
    by (unfold days_in_month; repeat case_match; lia).
  lia.
Qed.

(** What [strptime] returns is a date of the calendar. *)
Lemma strptime_calendar (s fmt : string) (d : date) :
  strptime s fmt = Ok d -> calendar_date d.
Proof.
  unfold strptime, calendar_date.
  repeat case_match; try done.
  unfold make_date. case_match; [|done].
  intros [= <-]; cbn [year month day].
  match goal with H : _ = true |- _ => by rewrite H end.
Qed.

(** From the year 1000 on the text of a date is a full YYYY-MM-DD; below
    it the year has fewer than four digits and the text is shorter. *)
Lemma strftime_iso (d : date) :
  calendar_date d -> (1000 <= year d)%Z -> is_iso_date (strftime_Ymd d) = true.
Proof.
  intros Hd Hy. apply calendar_date_bounds in Hd as (Hyear & Hmonth & Hday).
  unfold strftime_Ymd. apply iso_shape.
  - assert (H : (year d <? 1000)%Z || all_digits 4 (str_of_Z (year d)) = true).
    { apply (below_bound
               (fun y => (y <? 1000)%Z || all_digits 4 (str_of_Z y))
               (Z.to_nat 10000));
        [vm_compute; reflexivity | lia]. }
    apply orb_prop in H as [H | H]; [|done].
    apply Z.ltb_lt in H. lia.
  - apply (below_bound (fun m => all_digits 2 (zfill 2 m)) 13);
      [vm_compute; reflexivity | lia].
  - apply (below_bound (fun n => all_digits 2 (zfill 2 n)) 32);
      [vm_compute; reflexivity | lia].
Qed.

Lemma strftime_short (d : date) :
  calendar_date d -> (year d < 1000)%Z -> is_iso_date (strftime_Ymd d) = false.
Proof.
  intros Hd Hy. apply calendar_date_bounds in Hd as (Hyear & Hmonth & Hday).
  unfold strftime_Ymd. apply short_shape.
  - apply (below_bound (fun y => (String.length (str_of_Z y) <? 4)%nat) 1000);
      [vm_compute; reflexivity | lia].
  - apply (below_bound (fun m => all_digits 2 (zfill 2 m)) 13);
      [vm_compute; reflexivity | lia].
  - apply (below_bound (fun n => all_digits 2 (zfill 2 n)) 32);
      [vm_compute; reflexivity | lia].
Qed.

(** What [parse_date] returns for a text it reads is the text [strftime]
    writes for a date of the calendar. *)
Lemma parse_date_calendar (c : cell) (r : string) :
  parse_date c = Ok (Some r) ->
  exists d, calendar_date d /\ r = strftime_Ymd d.
Proof.
  unfold parse_date.
  destruct (parse_date_from_result c date_formats)
    as [H | (s & fmt & d & _ & _ & Hd & H)]; rewrite H; [done|].
  intros [= <-]. exists d. split; [by eapply strptime_calendar | done].
Qed.

(** C10.  The two examples of the claim read as it says: a bare year is
    the first of January of that year and a month with a year the first of
    that month.  But not every date [parse_date] returns is a full
    YYYY-MM-DD text, as the claim and the docstring of the function have
    it: [strftime] writes a year below 1000 without its leading zeros, so
    0999 gives 999-01-01 and 0999-01-02 gives 999-01-02, and so it is for
    every date before the year 1000. *)
Theorem parse_date_year_below_1000 :
  parse_date (CStr "2020") = Ok (Some "2020-01-01")
  /\ parse_date (CStr "January 2020") = Ok (Some "2020-01-01")
  /\ parse_date (CStr "0999") = Ok (Some "999-01-01")
  /\ parse_date (CStr "0999-01-02") = Ok (Some "999-01-02")
  /\ is_iso_date "999-01-01" = false
  /\ is_iso_date "999-01-02" = false
  /\ (forall d, calendar_date d -> (year d < 1000)%Z ->
                is_iso_date (strftime_Ymd d) = false).
Proof.
  repeat (split; [vm_compute; reflexivity|]).
  apply strftime_short.
Qed.

(** X18.  What does hold of the dates [parse_date] returns.  A format
    that has no directive for the day leaves the day at 1 and one that has
    none for the month leaves the month at 1; every text returned is the
    one [strftime] writes for a date of the calendar, and it is a full
    YYYY-MM-DD (four digits, two digits and two digits between hyphens)
    exactly when the year is 1000 or later. *)
Theorem parse_date_defaults :
  (forall s fmt its d,
     compile false fmt = Some its ->
     strptime s fmt = Ok d ->
     (forallb (fun it => negb (sets_day it)) its = true -> day d = 1%Z)
     /\ (forallb (fun it => negb (sets_month it)) its = true -> month d = 1%Z))
  /\ (forall c r,
        parse_date c = Ok (Some r) ->
        exists d,
          calendar_date d /\ r = strftime_Ymd d
          /\ is_iso_date r = (1000 <=? year d)%Z).
Proof.
  split; [apply strptime_defaults|].
  intros c r Hr. destruct (parse_date_calendar c r Hr) as (d & Hd & ->).
  exists d. split; [done|]. split; [done|].
  destruct (Z.leb_spec 1000 (year d)).
  - by apply strftime_iso.
  - by apply strftime_short.
Qed.

(** The clauses at concrete dates: March 1999 read with a format of month
    and year, 1987 read as a bare year, and what [parse_date] makes of
    5 March 2020. *)
Lemma parse_date_defaults_witness :
  (exists d, strptime "March 1999" "%B %Y" = Ok d /\ day d = 1%Z)
  /\ (exists d, strptime "1987" "%Y" = Ok d /\ month d = 1%Z /\ day d = 1%Z)
  /\ (exists d, calendar_date d /\ "2020-03-05" = strftime_Ymd d
                /\ is_iso_date "2020-03-05" = (1000 <=? year d)%Z).
Proof.
  destruct parse_date_defaults as (Hdef & Hiso).
  split.
  { exists (mkDate 1999 3 1). split; [vm_compute; reflexivity|].
    apply (Hdef "March 1999" "%B %Y" [Dir dB; Spaces; Dir dY]);
      vm_compute; reflexivity. }
  split.
  { exists (mkDate 1987 1 1). split; [vm_compute; reflexivity|]. split.
    - apply (Hdef "1987" "%Y" [Dir dY]); vm_compute; reflexivity.
    - apply (Hdef "1987" "%Y" [Dir dY]); vm_compute; reflexivity. }
  apply (Hiso (CStr "5 March 2020")). vm_compute; reflexivity.
Defined.

(** ** Columns of strings: what [apply] and [iterrows] leave alone *)

Lemma infer_objects_strings {A : Type} (infer_string : bool) (g : A -> string)
    (xs : list A) :
  infer_objects infer_string ((fun x => CStr (g x)) <$> xs)
  = (fun x => CStr (g x)) <$> xs.
Proof.
  unfold infer_objects.
  destruct xs as [|x xs]; [done|]. cbn [fmap list_fmap existsb is_str orb].
  destruct (infer_string && _); [|done].
  f_equal. induction xs as [|y xs IH]; cbn; [done|]. by rewrite IH.
Qed.

Lemma infer_objects_length (infer_string : bool) (vals : list cell) :
  length (infer_objects infer_string vals) = length vals.
Proof.
  unfold infer_objects. repeat case_match; by rewrite ?length_fmap.
Qed.

Lemma col_index_lt (name : string) (cols : list string) (i : nat) :
  col_index name cols = Some i -> (i < length cols)%nat.
Proof.
  revert i. induction cols as [|c cols IH]; intros i; cbn; [done|].
  destruct (String.eqb c name); [intros [= <-]; lia|].
  destruct (col_index name cols) as [j|]; [|done].
  intros [= <-]. specialize (IH j eq_refl). lia.
Qed.

Lemma forallb_fmap_false {A B : Type} (P : B -> bool) (f : A -> B) (xs : list A)
    (x : A) :
  x ∈ xs -> P (f x) = false -> forallb P (f <$> xs) = false.
Proof.
  intros Hx HP. destruct (forallb P (f <$> xs)) eqn:E; [|done].
  rewrite forallb_forall in E. rewrite <- HP. symmetry. apply E.
  apply list_elem_of_In, list_elem_of_fmap. by exists x.
Qed.

(** A frame with a string in one of its columns is an array of objects:
    [iterrows] yields its rows as they are. *)
Lemma iterrows_strings (df : DataFrame) (i : nat) :
  (i < length (columns df))%nat ->
  Forall (holds_string i) (rows df) ->
  iterrows df = rows df.
Proof.
  intros Hi Hstr. unfold iterrows.
  destruct (rows df) as [|row rws] eqn:Hrows.
  { by destruct (values_dtype df). }
  assert (Hobj : values_dtype df = Object); [|by rewrite Hobj].
  assert (Hcol : dtype_of (column df i) = Object).
  { unfold column. rewrite Hrows. apply Forall_cons in Hstr as [[s Hs] _].
    unfold dtype_of. cbn. by rewrite Hs. }
  assert (Hin : i ∈ seq 0 (length (columns df))).
  { apply list_elem_of_In, in_seq. lia. }
  unfold values_dtype. cbv zeta.
  rewrite (forallb_fmap_false _ _ _ i Hin) by (by rewrite Hcol).
  by rewrite (forallb_fmap_false _ _ _ i Hin) by (by rewrite Hcol).
Qed.

Lemma sqlite_value_idemp (c : cell) :
  sqlite_value (sqlite_value c) = sqlite_value c.
Proof.
  destruct c as [| | |f]; cbn; try done.
  destruct (is_nan f) eqn:E; cbn; [done|]. by rewrite E.
Qed.

(** ** Identifier explosion *)

Section Explosion.

Variable infer_string : bool.
Variable repr_float : float -> string.

Lemma mapM_ok {A B : Type} (f : A -> result B) (g : A -> B) (xs : list A) :
  Forall (fun x => f x = Ok (g x)) xs -> mapM f xs = Ok (g <$> xs).
Proof.
  induction 1 as [|x xs Hx _ IH]; cbn; [done|].
  by rewrite Hx, IH.
Qed.

Lemma mapM_length {A B : Type} (f : A -> result B) (xs : list A) (ys : list B) :
  mapM f xs = Ok ys -> length ys = length xs.
Proof.
  revert ys. induction xs as [|x xs IH]; cbn; intros ys.
  - by intros [= <-].
  - destruct (f x) as [y|]; cbn; [|done].
    destruct (mapM f xs) as [ys'|]; cbn; [|done].
    intros [= <-]. cbn. f_equal. by apply IH.
Qed.

Lemma mapM_raise {A B : Type} (f : A -> result B) (e : exn) (xs : list A) (x : A) :
  Forall (fun x => (exists y, f x = Ok y) \/ f x = Raise e) xs ->
  x ∈ xs -> f x = Raise e -> mapM f xs = Raise e.
Proof.
  intros Hall Hin Hx. induction Hall as [|x' xs Hx' _ IH]; [by apply elem_of_nil in Hin|].
  cbn. apply elem_of_cons in Hin as [<- | Hin].
  - by rewrite Hx.
  - destruct Hx' as [[y ->] | ->]; cbn; [|done].
    by rewrite IH.
Qed.

Lemma zip_with_fmap_same {A B C : Type} (h : A -> B -> C) (g : A -> B) (xs : list A) :
  zip_with h xs (g <$> xs) = (fun x => h x (g x)) <$> xs.
Proof. induction xs as [|x xs IH]; cbn; [done|]. by rewrite IH. Qed.

Lemma append_alternatives_app (casrn : string) (alts : list string)
    (acc : list (list (string * cell))) :
  append_alternatives casrn alts acc
  = acc ++ ((fun alt_id =>
               [("IDENTIFIER", CStr casrn); ("CASRN", CStr casrn);
                ("ALTERNATIVE_IDENTIFIER", CStr (strip alt_id))]) <$> alts).
Proof.
  unfold append_alternatives. revert acc.
  induction alts as [|a alts IH]; intros acc; cbn.
  - by rewrite app_nil_r.
  - rewrite IH. by rewrite <- app_assoc.
Qed.

Lemma row_get_at (cols : list string) (row : list cell) (name : string) (i : nat) :
  col_index name cols = Some i -> row_get cols row name = Ok (default CNone (row !! i)).
Proof. unfold row_get. by intros ->. Qed.

Lemma collect_identifier_rows_eq (cols : list string) (i : nat) (rws : list (list cell)) :
  col_index "IDENTIFIER" cols = Some i ->
  forall acc,
    collect_identifier_rows repr_float cols rws acc
    = Ok (acc ++ (rws ≫= fun row =>
                    records_of (py_str repr_float (default CNone (row !! i))))).
Proof.
  intros Hi. induction rws as [|row rws IH]; intros acc; cbn.
  - by rewrite app_nil_r.
  - rewrite (row_get_at _ _ _ _ Hi); cbn.
    rewrite IH, append_alternatives_app, <- app_assoc. reflexivity.
Qed.

Lemma holds_string_text (i : nat) (row : list cell) :
  holds_string i row -> default CNone (row !! i) = CStr (text_at i row).
Proof. intros [s Hs]. unfold text_at. by rewrite Hs. Qed.

Lemma DataFrame_of_records_rows (ss : list string) :
  rows (DataFrame_of_records (ss ≫= records_of)) = ss ≫= cross_references.
Proof.
  assert (Hcols : forall recs : list (list (string * cell)),
             Forall (fun r => map fst r = ["IDENTIFIER"; "CASRN"; "ALTERNATIVE_IDENTIFIER"]) recs ->
             rows (DataFrame_of_records recs)
             = (fun r => (fun c => record_get c r)
                           <$> ["IDENTIFIER"; "CASRN"; "ALTERNATIVE_IDENTIFIER"]) <$> recs).
  { intros recs Hrecs. unfold DataFrame_of_records; cbn [rows].
    destruct Hrecs as [|r recs Hr Hrecs]; [done|]. by rewrite Hr. }
  rewrite Hcols.
  - induction ss as [|s ss IH]; [done|].
    cbn [mbind list_bind]. rewrite fmap_app, IH. f_equal.
    unfold records_of, cross_references.
    rewrite <- list_fmap_compose. by apply list_fmap_ext.
  - apply Forall_forall. intros r (s & Hr & _)%list_elem_of_bind.
    unfold records_of in Hr. by apply list_elem_of_fmap in Hr as (alt & -> & _).
Qed.

Lemma DataFrame_of_records_columns (ss : list string) :
  rows (DataFrame_of_records (ss ≫= records_of)) <> [] ->
  columns (DataFrame_of_records (ss ≫= records_of))
  = ["IDENTIFIER"; "CASRN"; "ALTERNATIVE_IDENTIFIER"].
Proof.
  unfold DataFrame_of_records; cbn [rows columns].
  destruct (ss ≫= records_of) as [|r recs] eqn:E; [done|]. intros _.
  assert (Hr : r ∈ ss ≫= records_of) by (rewrite E; left).
  apply list_elem_of_bind in Hr as (s & Hr & _).
  unfold records_of in Hr. by apply list_elem_of_fmap in Hr as (alt & -> & _).
Qed.

Lemma split_first_count (sep : ascii) (s : string) :
  length (snd (split_first sep s)) = count_char sep s.
Proof.
  induction s as [|c s IH]; cbn; [done|].
  destruct (split_first sep s) as [tok toks]; cbn in IH.
  destruct (Ascii.eqb c sep); cbn; by rewrite IH.
Qed.

Lemma cross_references_length (s : string) :
  length (cross_references s) = count_char "|" s.
Proof.
  unfold cross_references, split. rewrite length_fmap.
  rewrite <- split_first_count. by destruct (split_first "|" s).
Qed.

Lemma bind_length {A B : Type} (f : A -> list B) (xs : list A) :
  length (xs ≫= f) = sum_list ((fun x => length (f x)) <$> xs).
Proof.
  induction xs as [|x xs IH]; cbn; [done|].
  by rewrite length_app, IH.
Qed.

(** What [explode_identifiers] returns on a frame whose identifier cells
    all hold strings. *)
Lemma explode_identifiers_strings (df : DataFrame) (i : nat) :
  col_index "IDENTIFIER" (columns df) = Some i ->
  Forall (holds_string i) (rows df) ->
  explode_identifiers infer_string repr_float df
  = Ok (mkFrame (columns df)
          ((fun row => <[i := CStr (primary_token (text_at i row))]> row) <$> rows df),
        DataFrame_of_records ((text_at i <$> rows df) ≫= records_of)).
Proof.
  intros Hi Hstr. unfold explode_identifiers.
  rewrite (iterrows_strings df i) by (by try apply (col_index_lt _ _ _ Hi)).
  rewrite (collect_identifier_rows_eq _ _ _ Hi); cbn.
  unfold apply_col. rewrite Hi.
  rewrite (mapM_ok _ (fun row => CStr (primary_token (text_at i row)))).
  - cbn. rewrite infer_objects_strings, zip_with_fmap_same. do 3 f_equal.
    induction Hstr as [|row rws Hrow _ IH]; [done|].
    cbn. rewrite IH. f_equal.
    by rewrite (holds_string_text _ _ Hrow).
  - eapply Forall_impl; [exact Hstr|]. intros row Hrow; cbn.
    by rewrite (holds_string_text _ _ Hrow).
Qed.

End Explosion.

Lemma bind_fmap_list {A B C : Type} (g : A -> B) (f : B -> list C) (xs : list A) :
  (g <$> xs) ≫= f = xs ≫= (fun x => f (g x)).
Proof. induction xs as [|x xs IH]; cbn; [done|]. by rewrite IH. Qed.

(** C4.  On a frame whose identifier cells hold strings, identifier
    explosion returns the frame with each identifier replaced by its first
    token, trimmed, and a cross-reference frame with one row per token
    after the first, in the order of the rows and of the tokens: the
    primary token twice (IDENTIFIER and CASRN) and the trimmed token
    (ALTERNATIVE_IDENTIFIER).  There are as many cross-reference rows as
    there are separators in the identifiers.  An identifier of three tokens
    gives its primary and two cross-reference rows; one without separator
    gives itself and none. *)
Theorem explode_identifiers_spec (infer_string : bool) (repr_float : float -> string) :
  (forall df i,
     col_index "IDENTIFIER" (columns df) = Some i ->
     Forall (holds_string i) (rows df) ->
     exists df' ids,
       explode_identifiers infer_string repr_float df = Ok (df', ids)
       /\ columns df' = columns df
       /\ rows df'
          = (fun row => <[i := CStr (primary_token (text_at i row))]> row) <$> rows df
       /\ rows ids = rows df ≫= (fun row => cross_references (text_at i row))
       /\ length (rows ids)
          = sum_list ((fun row => count_char "|" (text_at i row)) <$> rows df)
       /\ (rows ids <> [] ->
           columns ids = ["IDENTIFIER"; "CASRN"; "ALTERNATIVE_IDENTIFIER"]))
  /\ explode_identifiers infer_string repr_float
       (mkFrame ["IDENTIFIER"] [[CStr "50-00-0|CAS-ALT-1|CAS-ALT-2"]])
     = Ok (mkFrame ["IDENTIFIER"] [[CStr "50-00-0"]],
           mkFrame ["IDENTIFIER"; "CASRN"; "ALTERNATIVE_IDENTIFIER"]
             [[CStr "50-00-0"; CStr "50-00-0"; CStr "CAS-ALT-1"];
              [CStr "50-00-0"; CStr "50-00-0"; CStr "CAS-ALT-2"]])
  /\ explode_identifiers infer_string repr_float (mkFrame ["IDENTIFIER"] [[CStr "50-00-0"]])
     = Ok (mkFrame ["IDENTIFIER"] [[CStr "50-00-0"]], mkFrame [] []).
Proof.
  split; [|split; by destruct infer_string].
  intros df i Hi Hstr.
  eexists _, _. split; [by apply explode_identifiers_strings|].
  cbn [columns rows]. split; [done|]. split; [done|].
  assert (Hrows : rows (DataFrame_of_records ((text_at i <$> rows df) ≫= records_of))
                  = rows df ≫= (fun row => cross_references (text_at i row))).
  { by rewrite DataFrame_of_records_rows, bind_fmap_list. }
  split; [done|]. split.
  - rewrite Hrows, bind_length. f_equal.
    apply list_fmap_ext; intros _ row _. apply cross_references_length.
  - apply DataFrame_of_records_columns.
Qed.

(** Two substances, the first with two alternatives written with blanks
    around the tokens. *)
Lemma explode_identifiers_spec_witness :
  exists df' ids,
    explode_identifiers false (fun _ => "nan")
      (mkFrame ["DTXSID"; "IDENTIFIER"]
         [[CStr "DTXSID7020637"; CStr " 50-00-0 | A1 |A2"];
          [CStr "DTXSID5020607"; CStr "64-17-5"]])
    = Ok (df', ids)
    /\ rows df' = [[CStr "DTXSID7020637"; CStr "50-00-0"];
                   [CStr "DTXSID5020607"; CStr "64-17-5"]]
    /\ rows ids = [[CStr "50-00-0"; CStr "50-00-0"; CStr "A1"];
                   [CStr "50-00-0"; CStr "50-00-0"; CStr "A2"]]
    /\ length (rows ids) = 2.
Proof.
  destruct (explode_identifiers_spec false (fun _ => "nan")) as [Hgen _].
  destruct (Hgen (mkFrame ["DTXSID"; "IDENTIFIER"]
                    [[CStr "DTXSID7020637"; CStr " 50-00-0 | A1 |A2"];
                     [CStr "DTXSID5020607"; CStr "64-17-5"]]) 1%nat)
    as (df' & ids & Hrun & _ & Hrows & Hids & Hlen & _).
  - reflexivity.
  - repeat constructor; eexists; reflexivity.
  - exists df', ids. split; [exact Hrun|].
    split; [rewrite Hrows; reflexivity|].
    split; [rewrite Hids; reflexivity|].
    rewrite Hlen; reflexivity.
Defined.

(** C9.  The frame identifier explosion returns has the columns of the
    frame it was given and as many rows, in the same order; each row has
    kept its length and, in every position but that of the IDENTIFIER
    column, its cell. *)
Theorem explode_identifiers_frame (infer_string : bool) (repr_float : float -> string)
    (df df' ids : DataFrame) :
  explode_identifiers infer_string repr_float df = Ok (df', ids) ->
  columns df' = columns df
  /\ length (rows df') = length (rows df)
  /\ forall k row,
       rows df !! k = Some row ->
       exists row',
         rows df' !! k = Some row'
         /\ length row' = length row
         /\ forall j, col_index "IDENTIFIER" (columns df) <> Some j ->
                      row' !! j = row !! j.
Proof.
  unfold explode_identifiers, apply_col.
  destruct (collect_identifier_rows _ _ _ _) as [recs|]; cbn; [|done].
  destruct (col_index "IDENTIFIER" (columns df)) as [i|]; [|done].
  destruct (mapM _ (rows df)) as [vals|] eqn:Hvals; cbn; [|done].
  intros [= <- _]; cbn [columns rows].
  apply mapM_length in Hvals.
  pose proof (infer_objects_length infer_string vals) as Hinf.
  split; [done|]. split.
  { rewrite length_zip_with. lia. }
  intros k row Hrow.
  destruct (lookup_lt_is_Some_2 (infer_objects infer_string vals) k) as [v Hv].
  { rewrite Hinf, Hvals. by eapply lookup_lt_Some. }
  exists (<[i := v]> row). split.
  { rewrite lookup_zip_with, Hrow, Hv. reflexivity. }
  split; [apply length_insert|].
  intros j Hj. apply list_lookup_insert_ne. congruence.
Qed.

(** A frame of two rows and three columns, the identifier in the middle. *)
Lemma explode_identifiers_frame_witness :
  let df := mkFrame ["DTXSID"; "IDENTIFIER"; "SMILES"]
              [[CStr "D1"; CStr "a|b"; CStr "C=O"]; [CStr "D2"; CStr "c"; CNone]] in
  let df' := mkFrame ["DTXSID"; "IDENTIFIER"; "SMILES"]
               [[CStr "D1"; CStr "a"; CStr "C=O"]; [CStr "D2"; CStr "c"; CNone]] in
  columns df' = columns df
  /\ length (rows df') = length (rows df)
  /\ exists row',
       rows df' !! 0%nat = Some row'
       /\ length row' = 3%nat
       /\ row' !! 0%nat = Some (CStr "D1")
       /\ row' !! 2%nat = Some (CStr "C=O").
Proof.
  intros df df'.
  destruct (explode_identifiers_frame false (fun _ => "nan") df df'
              (mkFrame ["IDENTIFIER"; "CASRN"; "ALTERNATIVE_IDENTIFIER"]
                 [[CStr "a"; CStr "a"; CStr "b"]]))
    as (Hcols & Hlen & Hrows).
  - reflexivity.
  - split; [exact Hcols|]. split; [exact Hlen|].
    destruct (Hrows 0%nat [CStr "D1"; CStr "a|b"; CStr "C=O"])
      as (row' & Hrow' & Hlen' & Hkeep); [reflexivity|].
    exists row'. split; [exact Hrow'|]. split; [exact Hlen'|].
    split; rewrite Hkeep by discriminate; reflexivity.
Defined.

(** C3.  A null identifier makes identifier explosion raise.  The loop that
    builds the cross-references reads the cell through [str] and gets a
    single token from it, hence no cross-reference; the assignment of the
    column then calls [split] on the cell itself, which only a string has.
    So it is for every frame with a cell that holds no string in the
    IDENTIFIER column. *)
Theorem explode_identifiers_null_raises (infer_string : bool) (repr_float : float -> string) :
  collect_identifier_rows repr_float ["DTXSID"; "IDENTIFIER"]
    [[CStr "DTXSID7020637"; CNone]] [] = Ok []
  /\ explode_identifiers infer_string repr_float
       (mkFrame ["DTXSID"; "IDENTIFIER"] [[CStr "DTXSID7020637"; CNone]])
     = Raise AttributeError
  /\ (forall df i row,
        col_index "IDENTIFIER" (columns df) = Some i ->
        row ∈ rows df ->
        (forall s, row !! i <> Some (CStr s)) ->
        explode_identifiers infer_string repr_float df = Raise AttributeError).
Proof.
  split; [reflexivity|]. split; [reflexivity|].
  intros df i row Hi Hrow Hnull.
  unfold explode_identifiers.
  rewrite (collect_identifier_rows_eq _ _ _ _ Hi); cbn.
  unfold apply_col. rewrite Hi.
  rewrite (mapM_raise _ AttributeError _ row); [done| |done|].
  - apply Forall_forall. intros r _.
    destruct (default CNone (r !! i)); cbn; eauto.
  - destruct (row !! i) as [[|s| |]|] eqn:E; cbn; try done.
    by destruct (Hnull s).
Qed.

(** ** The orchestrator: failures stay within their table *)

Section Orchestrator.

Variable infer_string : bool.
Variable repr_float : float -> string.
Variable sink_accepts : list stored -> string -> list cell -> bool.

Lemma quiet_lift {A : Type} (r : result A) : quiet (lift r).
Proof. intros w. unfold lift. by destruct r. Qed.

Lemma quiet_ret {A : Type} (a : A) : quiet (mret a : io A).
Proof. intros w. done. Qed.

Lemma quiet_commit : quiet commit.
Proof.
  intros w; cbn. split; [by apply prefix_app_r|]. done.
Qed.

Lemma quiet_execute (table : string) (arity : nat) (params : list cell) :
  quiet (execute sink_accepts table arity params).
Proof.
  intros w. unfold execute. by case_match.
Qed.

Lemma quiet_bind {A B : Type} (m : io A) (k : A -> io B) :
  quiet m -> (forall a, quiet (k a)) -> quiet (m ≫= k).
Proof.
  intros Hm Hk w. specialize (Hm w).
  unfold mbind, io_bind_inst, io_bind.
  destruct (m w) as [w1 [a|e|c]]; cbn in *.
  - destruct Hm as (Hc & Hs & _). specialize (Hk a w1).
    destruct Hk as (Hc' & Hs' & Hx').
    split; [by etrans|]. split; [congruence | done].
  - destruct Hm as (Hc & Hs & _). done.
  - destruct Hm as (_ & _ & Hx). by destruct (Hx c).
Qed.

Lemma quiet_for_each {A : Type} (xs : list A) (body : A -> io unit) :
  (forall x, quiet (body x)) -> quiet (for_each xs body).
Proof.
  intros Hbody. induction xs as [|x xs IH]; cbn [for_each].
  - apply (quiet_ret tt).
  - apply (quiet_bind (body x) (fun _ => for_each xs body)); auto.
Qed.

Lemma quiet_insert_rows (table : string) (arity : nat) (rws : list (list cell)) :
  quiet (for_each rws (execute sink_accepts table arity);; commit).
Proof.
  apply quiet_bind; [|intros _; apply quiet_commit].
  apply quiet_for_each. intros row. apply quiet_execute.
Qed.

Lemma quiet_Identifier_import_data (identifier_df : DataFrame) :
  quiet (Identifier_import_data sink_accepts identifier_df).
Proof.
  apply quiet_bind; [|intros _; apply quiet_commit].
  apply quiet_for_each. intros row.
  repeat (apply quiet_bind; [apply quiet_lift|intros ?]).
  apply quiet_execute.
Qed.

Lemma quiet_DSSTox_import_data (df : DataFrame) :
  quiet (DSSTox_import_data infer_string repr_float sink_accepts df).
Proof.
  apply quiet_bind; [apply quiet_lift|]. intros [dsstox_df identifier_df].
  apply quiet_bind; [apply quiet_for_each; intros row; apply quiet_execute|].
  intros _. apply quiet_bind; [apply quiet_Identifier_import_data|].
  intros _. apply quiet_commit.
Qed.

(** Importing a frame into a known table prints the line of the table
    when it returns and nothing when it raises; it never exits, and what
    was committed stays. *)
Lemma import_table_data_known (table_name : string) (df : DataFrame) (w : world) :
  known_table table_name = true ->
  committed w `prefix_of`
    committed (fst (import_table_data infer_string repr_float sink_accepts table_name df w))
  /\ ((snd (import_table_data infer_string repr_float sink_accepts table_name df w) = Ret tt
       /\ stdout (fst (import_table_data infer_string repr_float sink_accepts table_name df w))
          = stdout w ++ [MsgImported table_name])
      \/ (exists e,
            snd (import_table_data infer_string repr_float sink_accepts table_name df w) = Throw e
            /\ stdout (fst (import_table_data infer_string repr_float sink_accepts table_name df w))
               = stdout w)).
Proof.
  intros Hknown.
  assert (Hq : exists body : io unit,
             quiet body
             /\ import_table_data infer_string repr_float sink_accepts table_name df
                = (body;; print (MsgImported table_name))).
  { unfold import_table_data.
    repeat match goal with
           | |- context [if String.eqb table_name ?t then _ else _] =>
               destruct (String.eqb table_name t) eqn:?
           end;
      try (eexists; split; [|reflexivity]).
    - apply quiet_bind; [apply quiet_lift | intros ?; apply quiet_insert_rows].
    - apply quiet_insert_rows.
    - apply quiet_insert_rows.
    - apply quiet_insert_rows.
    - apply quiet_insert_rows.
    - apply quiet_DSSTox_import_data.
    - apply quiet_insert_rows.
    - apply quiet_insert_rows.
    - apply quiet_bind; [apply quiet_lift | intros ?; apply quiet_insert_rows].
    - apply quiet_insert_rows.
    - apply quiet_insert_rows.
    - unfold known_table, table_names in Hknown; cbn in Hknown.
      repeat match goal with
             | H : String.eqb _ _ = false |- _ => rewrite H in Hknown; clear H
             end.
      done. }
  destruct Hq as (body & Hbody & ->).
  specialize (Hbody w).
  unfold mbind, io_bind_inst, io_bind.
  destruct (body w) as [w1 [[]|e|c]]; cbn in *;
    destruct Hbody as (Hc & Hs & Hx).
  - split; [done|]. left. by rewrite Hs.
  - split; [done|]. right. by exists e.
  - by destruct (Hx c).
Qed.

(** The frames of one table: the lines of the frames imported, and an
    exception when one of them fails. *)
Lemma import_frames_known (table_name : string) (df_list : list DataFrame) (w : world) :
  known_table table_name = true ->
  exists k,
    committed w `prefix_of`
      committed (fst (import_frames infer_string repr_float sink_accepts table_name df_list w))
    /\ stdout (fst (import_frames infer_string repr_float sink_accepts table_name df_list w))
       = stdout w ++ replicate k (MsgImported table_name)
    /\ ((snd (import_frames infer_string repr_float sink_accepts table_name df_list w) = Ret tt
         /\ k = length df_list)
        \/ (exists e,
              snd (import_frames infer_string repr_float sink_accepts table_name df_list w) = Throw e
              /\ (k < length df_list)%nat)).
Proof.
  intros Hknown. unfold import_frames. revert w.
  induction df_list as [|df df_list IH]; intros w; cbn [for_each].
  - exists 0%nat. cbn. rewrite app_nil_r. split; [done|]. split; [done|]. by left.
  - destruct (import_table_data_known table_name (replace_empty_na_with_null df) w Hknown)
      as (Hc & Hcase).
    unfold io_bind.
    destruct (import_table_data infer_string repr_float sink_accepts table_name
                (replace_empty_na_with_null df) w) as [w1 out]; cbn in *.
    destruct Hcase as [[-> Hs] | (e & -> & Hs)].
    + destruct (IH w1) as (k & Hc' & Hs' & Hcase').
      exists (S k). split; [by etrans|]. split.
      { rewrite Hs', Hs, <- app_assoc. reflexivity. }
      destruct Hcase' as [[Hret ->] | (e & He & Hk)]; [by left|].
      right. exists e. split; [done | lia].
    + exists 0%nat. cbn. rewrite app_nil_r. split; [done|]. split; [done|].
      right. exists e. split; [done | lia].
Qed.

(** The catch around a table. *)
Lemma import_table_guarded_known (entry : string * list DataFrame) (w : world) :
  known_table (fst entry) = true ->
  exists msgs,
    snd (import_table_guarded infer_string repr_float sink_accepts entry w) = Ret tt
    /\ committed w `prefix_of`
         committed (fst (import_table_guarded infer_string repr_float sink_accepts entry w))
    /\ stdout (fst (import_table_guarded infer_string repr_float sink_accepts entry w))
       = stdout w ++ msgs
    /\ table_report entry msgs.
Proof.
  intros Hknown.
  destruct (import_frames_known (fst entry) (snd entry) w Hknown)
    as (k & Hc & Hs & Hcase).
  unfold import_table_guarded.
  destruct (import_frames infer_string repr_float sink_accepts (fst entry) (snd entry) w)
    as [w1 out]; cbn in *.
  destruct Hcase as [[-> ->] | (e & -> & Hk)]; cbn.
  - eexists. split; [done|]. split; [done|]. split; [exact Hs|]. by left.
  - exists (replicate k (MsgImported (fst entry)) ++ [MsgImportError (fst entry) e]).
    split; [done|]. split; [done|]. split.
    { by rewrite Hs, <- app_assoc. }
    right. by exists k, e.
Qed.

Lemma for_each_guarded_known (data : list (string * list DataFrame)) (w : world) :
  Forall (fun entry => known_table (fst entry) = true) data ->
  exists reports,
    snd (for_each data (import_table_guarded infer_string repr_float sink_accepts) w) = Ret tt
    /\ committed w `prefix_of`
         committed (fst (for_each data (import_table_guarded infer_string repr_float sink_accepts) w))
    /\ stdout (fst (for_each data (import_table_guarded infer_string repr_float sink_accepts) w))
       = stdout w ++ concat reports
    /\ Forall2 table_report data reports.
Proof.
  intros Hknown. revert w.
  induction Hknown as [|entry data Hentry _ IH]; intros w; cbn [for_each].
  - exists []. cbn. by rewrite app_nil_r.
  - destruct (import_table_guarded_known entry w Hentry) as (msgs & Hret & Hc & Hs & Hrep).
    unfold io_bind.
    destruct (import_table_guarded infer_string repr_float sink_accepts entry w) as [w1 out];
      cbn in *. subst out.
    destruct (IH w1) as (reports & Hret' & Hc' & Hs' & Hreps).
    exists (msgs :: reports). split; [done|]. split; [by etrans|]. split.
    { rewrite Hs', Hs; cbn. by rewrite app_assoc. }
    by constructor.
Qed.

Lemma attempt_every_table_app (import : string -> list DataFrame -> io unit)
    (xs ys : list (string * list DataFrame)) (w : world) :
  attempt_every_table import (xs ++ ys) w
  = attempt_every_table import ys (attempt_every_table import xs w).
Proof.
  revert w. induction xs as [|[table_name df_list] xs IH]; intros w; cbn; [done|].
  destruct (import table_name df_list w) as [w1 [[]|e|c]]; apply IH.
Qed.

(** The loop of [import_data_to_DB] over known tables is the run the
    specification describes. *)
Lemma for_each_guarded_attempt (data : list (string * list DataFrame)) (w : world) :
  Forall (fun entry => known_table (fst entry) = true) data ->
  for_each data (import_table_guarded infer_string repr_float sink_accepts) w
  = (attempt_every_table (import_frames infer_string repr_float sink_accepts) data w,
     Ret tt).
Proof.
  intros Hknown. revert w.
  induction Hknown as [|[table_name df_list] data Hentry _ IH]; intros w;
    cbn [for_each attempt_every_table]; [done|].
  unfold io_bind, import_table_guarded at 1. cbn [fst snd] in *.
  destruct (import_frames_known table_name df_list w Hentry) as (k & _ & _ & Hcase).
  destruct (import_frames infer_string repr_float sink_accepts table_name df_list w)
    as [w1 out]; cbn in Hcase.
  destruct Hcase as [[-> _] | (e & -> & _)]; cbn; apply IH.
Qed.

(** C8.  With tables the loader knows, [import_data_to_DB] always returns:
    no exception of a table's transform or insertion leaves it and it does
    not exit.  Its run is the one the specification describes: every table
    of [data] is imported in turn from the state the tables before it
    left, and the closing commit follows.  The console shows for each
    table its imported frames or, when one raised, the frames before it
    and one line with the table's name and the exception.  When the import
    of a table raises, that line is on the console at the end, the run
    goes on from the state the failure left with every table after it, and
    what was committed when the failing table was reached, the tables
    before it included, is still committed at the end. *)
Theorem import_data_to_DB_isolates_failures
    (data : list (string * list DataFrame)) (w : world) :
  Forall (fun entry => known_table (fst entry) = true) data ->
  let import := import_frames infer_string repr_float sink_accepts in
  let w' := attempt_every_table import data w in
  import_data_to_DB infer_string repr_float sink_accepts data w
  = (mkWorld (committed w' ++ pending w') [] (stdout w'), Ret tt)
  /\ committed w `prefix_of` committed w'
  /\ (exists reports,
        stdout w' = stdout w ++ concat reports
        /\ Forall2 table_report data reports)
  /\ (forall before table_name df_list after w1 e,
        data = before ++ (table_name, df_list) :: after ->
        import table_name df_list (attempt_every_table import before w)
        = (w1, Throw e) ->
        w' = attempt_every_table import after
               (with_output w1 [MsgImportError table_name e])
        /\ committed (attempt_every_table import before w) `prefix_of` committed w'
        /\ MsgImportError table_name e ∈ stdout w').
Proof.
  intros Hknown import w'.
  pose proof (for_each_guarded_attempt data w Hknown) as Hloop.
  destruct (for_each_guarded_known data w Hknown) as (reports & _ & Hc & Hs & Hreps).
  rewrite Hloop in Hc, Hs. cbn [fst] in Hc, Hs. fold import in Hc, Hs. fold w' in Hc, Hs.
  split.
  { unfold import_data_to_DB. by rewrite Hloop. }
  split; [exact Hc|].
  split; [by exists reports|].
  intros before table_name df_list after w1 e -> Hfail.
  apply Forall_app in Hknown as [Hbefore Hrest].
  apply Forall_cons in Hrest as [Hentry Hafter]. cbn [fst] in Hentry.
  set (w0 := attempt_every_table import before w) in *.
  set (w2 := with_output w1 [MsgImportError table_name e]).
  assert (Hw' : w' = attempt_every_table import after w2).
  { subst w'. rewrite attempt_every_table_app. fold w0.
    cbn [attempt_every_table]. by rewrite Hfail. }
  split; [exact Hw'|].
  pose proof (for_each_guarded_attempt after w2 Hafter) as Hloop2.
  destruct (for_each_guarded_known after w2 Hafter) as (reports2 & _ & Hc2 & Hs2 & _).
  rewrite Hloop2 in Hc2, Hs2. cbn [fst] in Hc2, Hs2.
  fold import in Hc2, Hs2. rewrite <- Hw' in Hc2, Hs2.
  split.
  - destruct (import_frames_known table_name df_list w0 Hentry) as (k & Hc0 & _ & _).
    fold import in Hc0. rewrite Hfail in Hc0. cbn [fst] in Hc0.
    etrans; [exact Hc0|]. exact Hc2.
  - rewrite Hs2. apply elem_of_app. left.
    subst w2. cbn. apply elem_of_app. right. left.
Qed.

End Orchestrator.

(** A run over three tables, started with one row already committed: the
    frame of the first has no doc_date column (the transform raises), the
    frame of the second has too few values for its INSERT (the insertion
    raises), the third is imported. *)
Lemma import_data_to_DB_isolates_failures_witness :
  let w := mkWorld [("PUC_dictionary", [CInt 1])] [] [] in
  let data :=
    [("document_dictionary", [mkFrame ["document_id"; "title"] [[CInt 1; CStr "t"]]]);
     ("chemical_dictionary", [mkFrame ["chemical_id"] [[CInt 7]]]);
     ("HHE_data", [mkFrame ["document_id"; "chemical_id"] [[CInt 1; CInt 7]]])] in
  import_data_to_DB false (fun _ => "nan") (fun _ _ _ => true) data w
  = (mkWorld [("PUC_dictionary", [CInt 1]); ("HHE_data", [CInt 1; CInt 7])] []
       [MsgImportError "document_dictionary" KeyError;
        MsgImportError "chemical_dictionary" DatabaseError;
        MsgImported "HHE_data"],
     Ret tt)
  /\ attempt_every_table (import_frames false (fun _ => "nan") (fun _ _ _ => true))
       data w
     = attempt_every_table (import_frames false (fun _ => "nan") (fun _ _ _ => true))
         [("HHE_data", [mkFrame ["document_id"; "chemical_id"] [[CInt 1; CInt 7]]])]
         (mkWorld [("PUC_dictionary", [CInt 1])] []
            [MsgImportError "document_dictionary" KeyError;
             MsgImportError "chemical_dictionary" DatabaseError]).
Proof.
  intros w data.
  destruct (import_data_to_DB_isolates_failures false (fun _ => "nan")
              (fun _ _ _ => true) data w)
    as (Hrun & _ & _ & Hfail).
  - repeat constructor.
  - split.
    + rewrite Hrun. vm_compute. reflexivity.
    + edestruct (Hfail [("document_dictionary",
                         [mkFrame ["document_id"; "title"] [[CInt 1; CStr "t"]]])]
                   "chemical_dictionary" [mkFrame ["chemical_id"] [[CInt 7]]]
                   [("HHE_data",
                     [mkFrame ["document_id"; "chemical_id"] [[CInt 1; CInt 7]]])])
        as (Hgoes_on & _ & _).
      * reflexivity.
      * vm_compute. reflexivity.
      * exact Hgoes_on.
Defined.

(** ** The place of null normalization in the import of a frame *)

Lemma cross_references_notnull (s : string) :
  fmap (M := list) (fun c => if notnull c then c else CNone) <$> cross_references s
  = cross_references s.
Proof.
  unfold cross_references. rewrite <- list_fmap_compose.
  by apply list_fmap_ext.
Qed.

Lemma iterrows_nil (df : DataFrame) : rows df = [] -> iterrows df = [].
Proof. unfold iterrows. intros ->. by destruct (values_dtype df). Qed.

(** The frame of cross-references, once its nulls are set to [None]: its
    rows hold strings, so [iterrows] yields them as they are. *)
Lemma identifier_frame_rows (ss : list string) :
  iterrows (where_notnull (DataFrame_of_records (ss ≫= records_of)))
  = ss ≫= cross_references
  /\ (ss ≫= cross_references <> [] ->
      columns (where_notnull (DataFrame_of_records (ss ≫= records_of)))
      = ["IDENTIFIER"; "CASRN"; "ALTERNATIVE_IDENTIFIER"]).
Proof.
  set (ids := where_notnull (DataFrame_of_records (ss ≫= records_of))).
  assert (Hrows : rows ids = ss ≫= cross_references).
  { subst ids. unfold where_notnull, map_cells; cbn [rows].
    rewrite DataFrame_of_records_rows.
    induction ss as [|s ss IH]; [done|].
    cbn. by rewrite fmap_app, IH, cross_references_notnull. }
  assert (Hcols : ss ≫= cross_references <> [] ->
                  columns ids = ["IDENTIFIER"; "CASRN"; "ALTERNATIVE_IDENTIFIER"]).
  { intros Hne. subst ids. unfold where_notnull, map_cells; cbn [columns].
    apply DataFrame_of_records_columns. by rewrite DataFrame_of_records_rows. }
  split; [|exact Hcols].
  destruct (ss ≫= cross_references) as [|r rs] eqn:E.
  { by apply iterrows_nil. }
  rewrite <- Hrows. apply (iterrows_strings ids 0).
  - rewrite Hcols by done. cbn. lia.
  - rewrite Hrows, <- E. apply Forall_forall.
    intros row (s & Hrow & _)%list_elem_of_bind.
    unfold cross_references in Hrow.
    apply list_elem_of_fmap in Hrow as (alt & -> & _). by eexists.
Qed.

Section Staging.

Variable infer_string : bool.
Variable repr_float : float -> string.
Variable sink_accepts : list stored -> string -> list cell -> bool.

(** Unfolding of the sequencing of calls down to the calls themselves. *)
Ltac io_steps :=
  repeat progress
    (cbn [for_each fst snd];
     unfold insert_batches, mbind, io_bind_inst, io_bind, lift,
       result_bind, Py.bind).

Lemma for_each_ext {A : Type} (xs : list A) (f g : A -> io unit) (w : world) :
  (forall x w', x ∈ xs -> f x w' = g x w') -> for_each xs f w = for_each xs g w.
Proof.
  revert w. induction xs as [|x xs IH]; intros w H; cbn [for_each]; [done|].
  unfold io_bind. rewrite (H x w) by left.
  destruct (g x w) as [w1 [[]|e|c]]; try done.
  apply IH. intros y w' Hy. apply H. by right.
Qed.

Lemma for_each_fmap {A B : Type} (g : A -> B) (xs : list A) (body : B -> io unit)
    (w : world) :
  for_each (g <$> xs) body w = for_each xs (fun x => body (g x)) w.
Proof.
  revert w. induction xs as [|x xs IH]; intros w; cbn [fmap list_fmap for_each]; [done|].
  unfold io_bind. destruct (body (g x) w) as [w1 [[]|e|c]]; [apply IH | done | done].
Qed.

(** SQLite takes the values of a row the same way whether or not it has
    taken them before. *)
Lemma execute_bound (table : string) (arity : nat) (params : list cell) (w : world) :
  execute sink_accepts table arity (sqlite_value <$> params) w
  = execute sink_accepts table arity params w.
Proof.
  unfold execute. rewrite length_fmap, <- list_fmap_compose.
  by rewrite (list_fmap_ext (sqlite_value ∘ sqlite_value) sqlite_value params)
    by (intros; apply sqlite_value_idemp).
Qed.

Lemma for_each_bound_rows (df : DataFrame) (table : string) (arity : nat) (w : world) :
  for_each (bound_rows df) (execute sink_accepts table arity) w
  = for_each (iterrows df) (execute sink_accepts table arity) w.
Proof.
  unfold bound_rows. rewrite for_each_fmap.
  apply for_each_ext. intros row w' _. apply execute_bound.
Qed.

(** The rows of the frame of cross-references have the three values the
    INSERT of the Identifier table reads by name. *)
Lemma identifier_rows_by_name (df dsstox_df identifier_df : DataFrame)
    (row : list cell) (w : world) :
  explode_identifiers infer_string repr_float df = Ok (dsstox_df, identifier_df) ->
  row ∈ iterrows (where_notnull identifier_df) ->
  (a ← lift (row_get (columns (where_notnull identifier_df)) row "IDENTIFIER");
   b ← lift (row_get (columns (where_notnull identifier_df)) row "CASRN");
   c ← lift (row_get (columns (where_notnull identifier_df)) row "ALTERNATIVE_IDENTIFIER");
   execute sink_accepts "Identifier" 3 [a; b; c]) w
  = execute sink_accepts "Identifier" 3 row w.
Proof.
  unfold explode_identifiers, apply_col.
  destruct (col_index "IDENTIFIER" (columns df)) as [i|] eqn:Hi.
  - rewrite (collect_identifier_rows_eq _ _ _ _ Hi); cbn.
    destruct (mapM _ (rows df)) as [vals|]; cbn; [|done].
    intros [= _ <-] Hrow.
    rewrite <- (bind_fmap_list
                  (fun row => py_str repr_float (default CNone (row !! i)))
                  records_of) in *.
    set (ss := (fun row => py_str repr_float (default CNone (row !! i)))
                 <$> iterrows df) in *.
    destruct (identifier_frame_rows ss) as [Hrows Hcols].
    rewrite Hrows in Hrow.
    change (columns (where_notnull (DataFrame_of_records (ss ≫= records_of))))
      with (columns (DataFrame_of_records (ss ≫= records_of))) in Hcols.
    rewrite Hcols
      by (intros Hnil; rewrite Hnil in Hrow; by apply elem_of_nil in Hrow).
    apply list_elem_of_bind in Hrow as (s & Hrow & _).
    unfold cross_references in Hrow.
    apply list_elem_of_fmap in Hrow as (alt & -> & _).
    reflexivity.
  - destruct (collect_identifier_rows _ _ _ _); cbn; done.
Qed.

Lemma import_table_data_staged (table_name : string) (df : DataFrame) (w : world) :
  known_table table_name = true ->
  import_table_data infer_string repr_float sink_accepts table_name df w
  = (batches ← lift (insertions infer_string repr_float table_name df);
     insert_batches sink_accepts batches;;
     commit;;
     print (MsgImported table_name)) w.
Proof.
  intros Hknown.
  unfold import_table_data, insertions, marks_of.
  repeat match goal with
         | |- context [if String.eqb table_name ?t then _ else _] =>
             destruct (String.eqb_spec table_name t) as [-> | ?]
         end;
    try discriminate;
    cbn [String.eqb Ascii.eqb Bool.eqb];
    try (unfold chemical_dictionary_import_data, list_presence_dictionary_import_data,
           PUC_dictionary_import_data, functional_use_dictionary_import_data,
           QSUR_data_import_data, functional_use_data_import_data,
           list_presence_data_import_data, HHE_data_import_data;
         io_steps; rewrite for_each_bound_rows;
         match goal with
         | |- context [for_each ?rws ?body w] =>
             destruct (for_each rws body w) as [w1 [[]|e|c]]; reflexivity
         end).
  - (* document_dictionary *)
    unfold document_dictionary_import_data. io_steps.
    destruct (convert_dates infer_string df "doc_date") as [df'|e]; io_steps; [|done].
    rewrite for_each_bound_rows.
    by destruct (for_each (iterrows df') _ w) as [w1 [[]|e|c]].
  - (* DSSTox *)
    unfold DSSTox_import_data, Identifier_import_data. io_steps.
    destruct (explode_identifiers infer_string repr_float df)
      as [[dsstox_df identifier_df]|e] eqn:E;
      io_steps; [|done].
    rewrite for_each_bound_rows.
    destruct (for_each (iterrows (where_notnull dsstox_df)) _ w) as [w1 [[]|e|c]];
      io_steps; try done.
    rewrite for_each_bound_rows.
    rewrite (for_each_ext _ _ (execute sink_accepts "Identifier" 3)).
    + destruct (for_each (iterrows (where_notnull identifier_df)) _ w1)
        as [w2 [[]|e|c]]; cbn; try done.
      by rewrite app_nil_r.
    + intros row w' Hrow.
      apply (identifier_rows_by_name df dsstox_df identifier_df row w' E Hrow).
  - (* product_composition_data *)
    unfold product_composition_data_import_data. io_steps.
    destruct (convert_compositions infer_string repr_float df) as [df'|e];
      io_steps; [|done].
    rewrite for_each_bound_rows.
    by destruct (for_each (iterrows df') _ w) as [w1 [[]|e|c]].
  - (* no other table is known *)
    unfold known_table, table_names in Hknown; cbn in Hknown.
    repeat match goal with
           | H : table_name <> _ |- _ =>
               apply String.eqb_neq in H; rewrite H in Hknown; clear H
           end.
    done.
Qed.

End Staging.

(** C2, as the code has it.  For every known table the import of a frame
    is: null normalization of the frame as read, then the transform of the
    table on the normalized frame (date canonicalization, composition
    parsing, identifier explosion), then the insertion of the rows the
    transform returns, as they are bound, the commit and the line on the
    console.  Normalization comes first and is not applied again. *)
Theorem import_normalizes_before_transform
    (infer_string : bool) (repr_float : float -> string)
    (sink_accepts : list stored -> string -> list cell -> bool)
    (table_name : string) (df : DataFrame) (w : world) :
  known_table table_name = true ->
  import_frames infer_string repr_float sink_accepts table_name [df] w
  = normalize_then_transform infer_string repr_float sink_accepts table_name df w.
Proof.
  intros Hknown. unfold import_frames, normalize_then_transform; cbn [for_each].
  rewrite <- (import_table_data_staged _ _ _ _ _ _ Hknown).
  unfold io_bind.
  by destruct (import_table_data _ _ _ _ _ w) as [w1 [[]|e|c]].
Qed.

(** A document whose date is the text NA: the date reaches the transform
    as null, and null is what is inserted. *)
Lemma import_normalizes_before_transform_witness :
  import_frames false (fun _ => "nan") (fun _ _ _ => true) "document_dictionary"
    [mkFrame ["document_id"; "title"; "subtitle"; "doc_date"]
       [[CInt 1; CStr "Safety data sheet"; CStr ""; CStr "NA"];
        [CInt 2; CStr "Label"; CStr "NA"; CStr "02-Jan-20"]]]
    empty_world
  = (mkWorld
       [("document_dictionary", [CInt 1; CStr "Safety data sheet"; CNone; CNone]);
        ("document_dictionary", [CInt 2; CStr "Label"; CNone; CStr "2020-01-02"])]
       [] [MsgImported "document_dictionary"],
     Ret tt).
Proof.
  rewrite import_normalizes_before_transform by reflexivity.
  vm_compute; reflexivity.
Defined.

(** C2, as stated, fails.  For the substance whose identifier reads
    NA|CAS-ALT-1 the code normalizes first, so the primary token NA that the
    explosion produces is inserted as the text NA; with the transform first
    and normalization right before the insertion it would be null. *)
Lemma normalization_after_transform_counterexample :
  import_frames false (fun _ => "nan") (fun _ _ _ => true) "DSSTox" [substance_na] empty_world
  = (mkWorld
       [("DSSTox",
         [CStr "DTXSID7020637"; CStr "Formaldehyde"; CStr "50-00-0";
          CStr "WSFSSNUMVMOOMR-UHFFFAOYSA-N"; CStr "Formaldehyde"; CStr "C=O";
          CStr "CH2O"; CStr "30.026"; CStr "30.010564684"; CStr "C=O"; CStr "C=O";
          CStr "NA"]);
        ("Identifier", [CStr "NA"; CStr "NA"; CStr "CAS-ALT-1"])]
       [] [MsgImported "DSSTox"],
     Ret tt)
  /\ transform_then_normalize false (fun _ => "nan") (fun _ _ _ => true) "DSSTox"
       substance_na empty_world
     = (mkWorld
          [("DSSTox",
            [CStr "DTXSID7020637"; CStr "Formaldehyde"; CStr "50-00-0";
             CStr "WSFSSNUMVMOOMR-UHFFFAOYSA-N"; CStr "Formaldehyde"; CStr "C=O";
             CStr "CH2O"; CStr "30.026"; CStr "30.010564684"; CStr "C=O"; CStr "C=O";
             CNone]);
           ("Identifier", [CNone; CNone; CStr "CAS-ALT-1"])]
          [] [MsgImported "DSSTox"],
        Ret tt)
  /\ import_frames false (fun _ => "nan") (fun _ _ _ => true) "DSSTox" [substance_na] empty_world
     <> transform_then_normalize false (fun _ => "nan") (fun _ _ _ => true) "DSSTox"
          substance_na empty_world.
Proof.
  split; [vm_compute; reflexivity|].
  split; [vm_compute; reflexivity|].
  vm_compute. discriminate.
Qed.

(** ** The order of the load phase *)

Section LoadOrder.

Variable path_exists : string -> bool.
Hypothesis all_exist : forall p, path_exists p = true.

Lemma prune_missing_all_exist (fuel i : nat) (paths : list string) (w : world) :
  prune_missing path_exists fuel i paths w = (w, Ret paths).
Proof.
  revert i. induction fuel as [|fuel IH]; intros i; cbn; [done|].
  destruct (paths !! i) as [p|]; [|done].
  by rewrite all_exist.
Qed.

Lemma verify_files_all_exist (file_paths : dict string) (w : world) :
  Forall (fun entry => snd entry <> []) file_paths ->
  verify_files path_exists file_paths w = (w, Ret file_paths).
Proof.
  induction 1 as [|[table_name paths] rest Hpaths _ IH]; cbn; [done|].
  unfold mbind, io_bind_inst, io_bind.
  rewrite prune_missing_all_exist.
  destruct paths as [|p paths]; [done|].
  by rewrite IH.
Qed.

Lemma parse_file_paths_all_exist (data_dir : string) (w : world) :
  exists file_paths,
    parse_file_paths path_exists data_dir w = (w, Ret file_paths)
    /\ fst <$> file_paths = production_order.
Proof.
  unfold parse_file_paths.
  eexists. split.
  - apply verify_files_all_exist.
    cbn. repeat constructor; discriminate.
  - reflexivity.
Qed.

Lemma parse_file_paths_for_test_all_exist (data_dir : string) (w : world) :
  exists file_paths,
    parse_file_paths_for_test path_exists data_dir w = (w, Ret file_paths)
    /\ fst <$> file_paths = test_order.
Proof.
  unfold parse_file_paths_for_test.
  eexists. split.
  - apply verify_files_all_exist.
    cbn. repeat constructor; discriminate.
  - reflexivity.
Qed.

End LoadOrder.

(** C1.  With every file of the data directory present and readable,
    [main] (called with the four options and no test) imports the tables
    in the order in which [parse_file_paths] entered them in the
    dictionary: DSSTox first, before every dictionary table, and
    list_presence_data before list_presence_dictionary.  The order of the
    tables is that of the dictionary whatever the directory;
    [parse_file_paths_for_test] has list_presence_dictionary before
    list_presence_data. *)
Theorem load_order_of_main :
  (forall infer_string,
     stdout (fst (main infer_string (fun _ => "nan") (fun _ => true)
                    sample_read_excel sample_read_csv (fun _ _ _ => true)
                    sample_parse_args sample_argv empty_world))
     = [MsgDatabaseCreated "cp_dsstox.db"]
       ++ replicate 13 (MsgImported "DSSTox")
       ++ [MsgImported "document_dictionary"; MsgImported "chemical_dictionary";
           MsgImported "list_presence_data"; MsgImported "PUC_dictionary";
           MsgImported "functional_use_dictionary"; MsgImported "QSUR_data";
           MsgImported "functional_use_data"; MsgImported "product_composition_data";
           MsgImported "list_presence_dictionary"; MsgImported "HHE_data";
           MsgCompleted])
  /\ (forall path_exists data_dir w,
        (forall p, path_exists p = true) ->
        exists file_paths,
          parse_file_paths path_exists data_dir w = (w, Ret file_paths)
          /\ fst <$> file_paths = production_order)
  /\ (forall path_exists data_dir w,
        (forall p, path_exists p = true) ->
        exists file_paths,
          parse_file_paths_for_test path_exists data_dir w = (w, Ret file_paths)
          /\ fst <$> file_paths = test_order).
Proof.
  split; [intros []; vm_compute; reflexivity|].
  split.
  - intros path_exists data_dir w Hall. by apply parse_file_paths_all_exist.
  - intros path_exists data_dir w Hall. by apply parse_file_paths_for_test_all_exist.
Qed.

(** * Further properties of the loader *)

(** ** The discovery of the files *)

Lemma with_output_nil (w : world) : with_output w [] = w.
Proof. destruct w. unfold with_output; cbn. by rewrite app_nil_r. Qed.

Lemma with_output_app (w : world) (a b : list message) :
  with_output (with_output w a) b = with_output w (a ++ b).
Proof. unfold with_output; cbn. by rewrite app_assoc. Qed.

Section Discovery.

Variable path_exists : string -> bool.

Lemma remove_first_sublist (p : string) (paths : list string) :
  remove_first p paths `sublist_of` paths.
Proof.
  induction paths as [|q paths IH]; cbn; [done|].
  destruct (String.eqb q p).
  - by apply sublist_cons.
  - by apply sublist_skip.
Qed.

Lemma remove_first_filter (p : string) (paths : list string) :
  path_exists p = false ->
  List.filter path_exists (remove_first p paths) = List.filter path_exists paths.
Proof.
  intros Hp. induction paths as [|q paths IH]; cbn; [done|].
  destruct (String.eqb_spec q p) as [-> | Hq].
  - by rewrite Hp.
  - cbn. by rewrite IH.
Qed.

Lemma remove_first_delete (p : string) (paths : list string) (i : nat) :
  NoDup paths -> paths !! i = Some p -> remove_first p paths = delete i paths.
Proof.
  intros Hnd. revert i. induction Hnd as [|q paths Hq Hnd IH]; intros i; [done|].
  destruct i as [|i]; cbn.
  - intros [= ->]. by rewrite String.eqb_refl.
  - intros Hi. destruct (String.eqb_spec q p) as [-> | _].
    + destruct Hq. by eapply list_elem_of_lookup_2.
    + by rewrite (IH i).
Qed.

(** What the loop over the paths of a table leaves: it returns, having
    printed one line per path it removed; it removes only paths that do not
    exist and keeps the order. *)
Lemma prune_missing_result (fuel i : nat) (paths : list string) (w : world) :
  exists paths' msgs,
    prune_missing path_exists fuel i paths w = (with_output w msgs, Ret paths')
    /\ paths' `sublist_of` paths
    /\ List.filter path_exists paths' = List.filter path_exists paths
    /\ Forall (fun m => exists p,
                 m = MsgFileNotFound p /\ p ∈ paths /\ path_exists p = false) msgs.
Proof.
  revert i paths w. induction fuel as [|fuel IH]; intros i paths w; cbn.
  { exists paths, []. by rewrite with_output_nil. }
  destruct (paths !! i) as [p|] eqn:Hi.
  2: { exists paths, []. by rewrite with_output_nil. }
  destruct (path_exists p) eqn:Hp; [apply IH|].
  unfold mbind, io_bind_inst, io_bind; cbn.
  destruct (IH (S i) (remove_first p paths)
              (mkWorld (committed w) (pending w) (stdout w ++ [MsgFileNotFound p])))
    as (paths' & msgs & -> & Hsub & Hfil & Hmsgs).
  exists paths', (MsgFileNotFound p :: msgs). split.
  { unfold with_output; cbn. by rewrite <- app_assoc. }
  split; [etrans; [exact Hsub | apply remove_first_sublist]|].
  split; [by rewrite Hfil, remove_first_filter|].
  constructor.
  - exists p. split; [done|]. split; [by eapply list_elem_of_lookup_2 | done].
  - eapply Forall_impl; [exact Hmsgs|]. cbn.
    intros m (q & -> & Hq & Hq'). exists q. split; [done|]. split; [|done].
    eapply elem_of_sublist; [exact Hq|]. apply remove_first_sublist.
Qed.

(** With distinct paths, the loop never touches what lies before its
    position. *)
Lemma prune_missing_keeps_before (fuel i : nat) (paths : list string) (w : world) :
  NoDup paths ->
  forall paths' w',
    prune_missing path_exists fuel i paths w = (w', Ret paths') ->
    take i paths' = take i paths.
Proof.
  revert i paths w. induction fuel as [|fuel IH]; intros i paths w Hnd paths' w'; cbn.
  { by intros [= _ <-]. }
  destruct (paths !! i) as [p|] eqn:Hi.
  2: { by intros [= _ <-]. }
  destruct (path_exists p).
  - intros H. apply IH in H; [|done].
    apply (f_equal (take i)) in H.
    by rewrite !take_take, Nat.min_l in H by lia.
  - unfold mbind, io_bind_inst, io_bind; cbn. intros H.
    rewrite (remove_first_delete _ _ _ Hnd Hi) in H.
    apply IH in H; [|eapply sublist_NoDup; [exact Hnd | apply sublist_delete]].
    apply (f_equal (take i)) in H.
    rewrite !take_take, Nat.min_l in H by lia. rewrite H.
    rewrite delete_take_drop. apply take_app_length'.
    rewrite length_take. apply lookup_lt_Some in Hi. lia.
Qed.

Lemma prune_missing_several (paths : list string) (w : world) :
  NoDup paths -> (2 <= length paths)%nat ->
  exists p paths',
    snd (prune_missing path_exists (length paths) 0 paths w) = Ret (p :: paths').
Proof.
  intros Hnd Hlen.
  destruct paths as [|p0 [|p1 rest]]; cbn in Hlen; try lia.
  destruct (prune_missing_result (length (p0 :: p1 :: rest)) 0 (p0 :: p1 :: rest) w)
    as (paths' & msgs & Hrun & _).
  rewrite Hrun; cbn [snd].
  change (length (p0 :: p1 :: rest)) with (S (length (p1 :: rest))) in Hrun.
  cbn [prune_missing lookup list_lookup] in Hrun.
  destruct (path_exists p0).
  - apply prune_missing_keeps_before in Hrun; [|done].
    destruct paths' as [|q paths']; [done|]. by exists q, paths'.
  - unfold mbind, io_bind_inst, io_bind, print in Hrun.
    cbn [remove_first] in Hrun. rewrite String.eqb_refl in Hrun.
    apply prune_missing_keeps_before in Hrun; [|by apply NoDup_cons_1_2 in Hnd].
    destruct paths' as [|q paths']; [done|]. by exists q, paths'.
Qed.

Lemma verify_files_result (file_paths : dict string) (w : world) :
  exists msgs,
    fst (verify_files path_exists file_paths w) = with_output w msgs
    /\ (snd (verify_files path_exists file_paths w) = Exit 1
        \/ exists file_paths',
             snd (verify_files path_exists file_paths w) = Ret file_paths'
             /\ fst <$> file_paths' = fst <$> file_paths
             /\ Forall (fun entry => snd entry <> []) file_paths'
             /\ Forall2 (fun entry entry' =>
                           snd entry' `sublist_of` snd entry
                           /\ List.filter path_exists (snd entry')
                              = List.filter path_exists (snd entry))
                        file_paths file_paths').
Proof.
  revert w. induction file_paths as [|[table_name paths] rest IH]; intros w; cbn.
  { exists []. rewrite with_output_nil. split; [done|]. right. by exists []. }
  unfold mbind, io_bind_inst, io_bind.
  destruct (prune_missing_result (length paths) 0 paths w)
    as (paths' & msgs & -> & Hsub & Hfil & _).
  destruct paths' as [|p paths'].
  { exists msgs. split; [done|]. by left. }
  destruct (IH (with_output w msgs)) as (msgs' & Hw & Hcase).
  destruct (verify_files path_exists rest (with_output w msgs)) as [w1 out]; cbn in *.
  subst w1. exists (msgs ++ msgs'). rewrite with_output_app.
  destruct Hcase as [-> | (rest' & -> & Hkeys & Hne & Hall)].
  - split; [done|]. by left.
  - split; [done|]. right. eexists. split; [done|]. cbn.
    split; [by rewrite Hkeys|]. split; [by constructor|]. by constructor.
Qed.

(** When it is a table with a single file that lacks it, the loop over the
    tables exits; when no such table lacks its file and the other tables
    have several distinct files, it returns. *)
Lemma verify_files_exit (file_paths : dict string) (w : world) :
  Forall (fun entry => several_paths entry \/ single_path entry) file_paths ->
  (Exists (fun entry => exists p, snd entry = [p] /\ path_exists p = false) file_paths ->
   snd (verify_files path_exists file_paths w) = Exit 1)
  /\ (Forall (fun entry => forall p, snd entry = [p] -> path_exists p = true) file_paths ->
      exists file_paths', snd (verify_files path_exists file_paths w) = Ret file_paths').
Proof.
  intros Hshape. revert w.
  induction Hshape as [|[table_name paths] rest Hentry _ IH]; intros w.
  { split; [by intros ?%Exists_nil | by eexists]. }
  cbn [verify_files]. unfold mbind, io_bind_inst, io_bind.
  destruct Hentry as [[Hnd Hlen] | [p Hp]]; cbn [snd] in *.
  - destruct (prune_missing_several paths w Hnd Hlen) as (q & paths' & Hrun).
    destruct (prune_missing path_exists (length paths) 0 paths w) as [w1 out];
      cbn in Hrun; subst out.
    destruct (IH w1) as [IHexit IHret].
    split.
    + intros [(p & Hp & _) | Hex]%Exists_cons.
      { cbn in Hp. subst paths. cbn in Hlen. lia. }
      rewrite (surjective_pairing (verify_files path_exists rest w1)).
      by rewrite (IHexit Hex).
    + intros [_ Hall]%Forall_cons.
      destruct (IHret Hall) as (rest' & Hrest).
      rewrite (surjective_pairing (verify_files path_exists rest w1)), Hrest.
      by eexists.
  - subst paths. cbn.
    destruct (path_exists p) eqn:Hpe; cbn.
    + destruct (IH w) as [IHexit IHret].
      split.
      * intros [(p' & [= <-] & Hp') | Hex]%Exists_cons; [congruence|].
        rewrite (surjective_pairing (verify_files path_exists rest w)).
        by rewrite (IHexit Hex).
      * intros [_ Hall]%Forall_cons.
        destruct (IHret Hall) as (rest' & Hrest).
        rewrite (surjective_pairing (verify_files path_exists rest w)), Hrest.
        by eexists.
    + rewrite String.eqb_refl. cbn. split; [done|].
      intros [Hp _]%Forall_cons. cbn in Hp. by rewrite (Hp p) in Hpe.
Qed.

End Discovery.

Section DiscoveryProperties.

Variable path_exists : string -> bool.

Lemma lookup_elem_of_drop (paths : list string) (i : nat) (p : string) :
  paths !! i = Some p -> p ∈ drop i paths.
Proof.
  intros Hi. apply list_elem_of_lookup. exists 0%nat.
  by rewrite lookup_drop, Nat.add_0_r.
Qed.

Lemma elem_of_drop_le (paths : list string) (i j : nat) (p : string) :
  (i <= j)%nat -> p ∈ drop j paths -> p ∈ drop i paths.
Proof.
  intros Hij (k & Hk)%list_elem_of_lookup. rewrite lookup_drop in Hk.
  apply list_elem_of_lookup. exists (j - i + k)%nat. rewrite lookup_drop.
  by replace (i + (j - i + k))%nat with (j + k)%nat by lia.
Qed.

(** With distinct paths, the lines the loop prints are about paths at or
    after its position. *)
Lemma prune_missing_reports_after (fuel i : nat) (paths : list string) (w : world) :
  NoDup paths ->
  exists paths' msgs,
    prune_missing path_exists fuel i paths w = (with_output w msgs, Ret paths')
    /\ Forall (fun m => exists q, m = MsgFileNotFound q /\ q ∈ drop i paths) msgs.
Proof.
  revert i paths w. induction fuel as [|fuel IH]; intros i paths w Hnd; cbn.
  { exists paths, []. by rewrite with_output_nil. }
  destruct (paths !! i) as [p|] eqn:Hi.
  2: { exists paths, []. by rewrite with_output_nil. }
  destruct (path_exists p).
  - destruct (IH (S i) paths w Hnd) as (paths' & msgs & -> & Hmsgs).
    exists paths', msgs. split; [done|].
    eapply Forall_impl; [exact Hmsgs|]. cbn. intros m (q & -> & Hq).
    exists q. split; [done|]. eapply elem_of_drop_le; [|exact Hq]. lia.
  - unfold mbind, io_bind_inst, io_bind; cbn.
    rewrite (remove_first_delete _ _ _ Hnd Hi).
    destruct (IH (S i) (delete i paths)
                (mkWorld (committed w) (pending w) (stdout w ++ [MsgFileNotFound p])))
      as (paths' & msgs & -> & Hmsgs).
    { eapply sublist_NoDup; [exact Hnd | apply sublist_delete]. }
    exists paths', (MsgFileNotFound p :: msgs). split.
    { unfold with_output; cbn. by rewrite <- app_assoc. }
    constructor.
    + exists p. split; [done|]. by apply lookup_elem_of_drop.
    + eapply Forall_impl; [exact Hmsgs|]. cbn. intros m (q & -> & Hq).
      exists q. split; [done|].
      rewrite delete_take_drop, drop_app_ge in Hq by (rewrite length_take; lia).
      rewrite drop_drop in Hq. eapply elem_of_drop_le; [|exact Hq]. lia.
Qed.

End DiscoveryProperties.

(** X1.  The loop that checks the files of a table skips the path that
    follows a path it removes.  With distinct paths, when the first two
    files are both missing the second is neither removed nor reported: it
    heads the list the loop leaves, though it does not exist. *)
Theorem prune_missing_skips_next (path_exists : string -> bool)
    (p1 p2 : string) (rest : list string) (w : world) :
  NoDup (p1 :: p2 :: rest) ->
  path_exists p1 = false ->
  path_exists p2 = false ->
  exists paths' msgs,
    prune_missing path_exists (length (p1 :: p2 :: rest)) 0 (p1 :: p2 :: rest) w
    = (with_output w (MsgFileNotFound p1 :: msgs), Ret (p2 :: paths'))
    /\ MsgFileNotFound p2 ∉ msgs.
Proof.
  intros Hnd Hp1 Hp2.
  change (length (p1 :: p2 :: rest)) with (S (length (p2 :: rest))).
  cbn [prune_missing lookup list_lookup]. rewrite Hp1.
  unfold mbind, io_bind_inst, io_bind, print.
  cbn [remove_first]. rewrite String.eqb_refl.
  apply NoDup_cons in Hnd as [_ Hnd].
  destruct (prune_missing_reports_after path_exists (length (p2 :: rest)) 1 (p2 :: rest)
              (mkWorld (committed w) (pending w) (stdout w ++ [MsgFileNotFound p1])) Hnd)
    as (paths' & msgs & Hrun & Hmsgs).
  pose proof (prune_missing_keeps_before _ _ _ _ _ Hnd _ _ Hrun) as Hkeep.
  rewrite Hrun. destruct paths' as [|q paths']; [done|].
  injection Hkeep as ->.
  exists paths', msgs. split.
  { unfold with_output; cbn. by rewrite <- app_assoc. }
  intros Hin. rewrite Forall_forall in Hmsgs.
  destruct (Hmsgs _ Hin) as (q & [= <-] & Hq). cbn in Hq.
  apply NoDup_cons in Hnd as [Hnotin _]. by destruct Hnotin.
Qed.

(** Three dumps of which only the third exists: the second stays. *)
Lemma prune_missing_skips_next_witness :
  exists paths' msgs,
    prune_missing (String.eqb "data/DSSToxDump3.xlsx")
      3 0 ["data/DSSToxDump1.xlsx"; "data/DSSToxDump2.xlsx"; "data/DSSToxDump3.xlsx"]
      empty_world
    = (with_output empty_world (MsgFileNotFound "data/DSSToxDump1.xlsx" :: msgs),
       Ret ("data/DSSToxDump2.xlsx" :: paths'))
    /\ MsgFileNotFound "data/DSSToxDump2.xlsx" ∉ msgs.
Proof.
  apply (prune_missing_skips_next (String.eqb "data/DSSToxDump3.xlsx")
           "data/DSSToxDump1.xlsx" "data/DSSToxDump2.xlsx" ["data/DSSToxDump3.xlsx"]).
  - repeat (apply NoDup_cons_2;
              [rewrite ?elem_of_cons, elem_of_nil; intuition discriminate|]).
    apply NoDup_nil_2.
  - reflexivity.
  - reflexivity.
Defined.

(** X2.  The loop that verifies the files of the tables only prints.  When
    it returns, the dictionary has the same tables in the same order, no
    table is left without a path, and the paths of a table are those it
    had, in their order, less some that do not exist: every file that
    exists is kept.  Otherwise it exits with status 1. *)
Theorem verify_files_keeps_existing (path_exists : string -> bool)
    (file_paths : dict string) (w : world) :
  exists msgs,
    fst (verify_files path_exists file_paths w) = with_output w msgs
    /\ (snd (verify_files path_exists file_paths w) = Exit 1
        \/ exists file_paths',
             snd (verify_files path_exists file_paths w) = Ret file_paths'
             /\ fst <$> file_paths' = fst <$> file_paths
             /\ Forall (fun entry => snd entry <> []) file_paths'
             /\ Forall2 (fun entry entry' =>
                           snd entry' `sublist_of` snd entry
                           /\ List.filter path_exists (snd entry')
                              = List.filter path_exists (snd entry))
                        file_paths file_paths').
Proof.
  destruct (verify_files_result path_exists file_paths w) as (msgs & Hw & Hcase).
  exists msgs. split; [exact Hw|].
  destruct Hcase as [Hexit | (file_paths' & Hret & Hkeys & Hne & Hall)].
  - by left.
  - right. exists file_paths'. by repeat split.
Qed.

(** Membership in a list written out. *)
Ltac in_list :=
  repeat first [apply list_elem_of_here | apply list_elem_of_further].

Lemma append_inj (s a b : string) : (s ++ a)%string = (s ++ b)%string -> a = b.
Proof. induction s as [|c s IH]; cbn; [done|]. intros [= H]. by apply IH. Qed.

Lemma dsstox_dumps_several (data_dir : string) :
  several_paths
    ("DSSTox",
     String.append data_dir
       <$> ["/DSSToxDump1.xlsx"; "/DSSToxDump2.xlsx"; "/DSSToxDump3.xlsx";
            "/DSSToxDump4.xlsx"; "/DSSToxDump5.xlsx"; "/DSSToxDump6.xlsx";
            "/DSSToxDump7.xlsx"; "/DSSToxDump8.xlsx"; "/DSSToxDump9.xlsx";
            "/DSSToxDump10.xlsx"; "/DSSToxDump11.xlsx"; "/DSSToxDump12.xlsx";
            "/DSSToxDump13.xlsx"]).
Proof.
  split; cbn [snd]; [|rewrite length_fmap; cbn; lia].
  apply NoDup_fmap_2; [intros a b; apply append_inj|].
  repeat (apply NoDup_cons_2;
            [rewrite ?elem_of_cons, elem_of_nil; intuition discriminate|]).
  apply NoDup_nil_2.
Qed.

(** X3.  [parse_file_paths] exits (with status 1) exactly when one of the
    ten CSV files is missing.  Missing DSSTox dumps never end the program:
    the loop cannot empty a list of thirteen paths. *)
Theorem parse_file_paths_exits_iff (path_exists : string -> bool)
    (data_dir : string) (w : world) :
  snd (parse_file_paths path_exists data_dir w) = Exit 1
  <-> exists table_name,
        table_name ∈ csv_tables
        /\ path_exists (csv_path data_dir table_name) = false.
Proof.
  unfold parse_file_paths.
  match goal with
  | |- context [verify_files _ ?d w] => set (file_paths := d)
  end.
  assert (Hshape : Forall (fun entry => several_paths entry \/ single_path entry) file_paths).
  { subst file_paths. cbn.
    constructor; [left; apply dsstox_dumps_several|].
    repeat (constructor; [right; eexists; reflexivity|]). constructor. }
  destruct (verify_files_exit path_exists file_paths w Hshape) as [Hexit Hret].
  split.
  - intros Hrun.
    destruct (path_exists (csv_path data_dir "document_dictionary")) eqn:H1;
      [|eexists; split; [|exact H1]; unfold csv_tables; in_list].
    destruct (path_exists (csv_path data_dir "chemical_dictionary")) eqn:H2;
      [|eexists; split; [|exact H2]; unfold csv_tables; in_list].
    destruct (path_exists (csv_path data_dir "list_presence_data")) eqn:H3;
      [|eexists; split; [|exact H3]; unfold csv_tables; in_list].
    destruct (path_exists (csv_path data_dir "PUC_dictionary")) eqn:H4;
      [|eexists; split; [|exact H4]; unfold csv_tables; in_list].
    destruct (path_exists (csv_path data_dir "functional_use_dictionary")) eqn:H5;
      [|eexists; split; [|exact H5]; unfold csv_tables; in_list].
    destruct (path_exists (csv_path data_dir "QSUR_data")) eqn:H6;
      [|eexists; split; [|exact H6]; unfold csv_tables; in_list].
    destruct (path_exists (csv_path data_dir "functional_use_data")) eqn:H7;
      [|eexists; split; [|exact H7]; unfold csv_tables; in_list].
    destruct (path_exists (csv_path data_dir "product_composition_data")) eqn:H8;
      [|eexists; split; [|exact H8]; unfold csv_tables; in_list].
    destruct (path_exists (csv_path data_dir "list_presence_dictionary")) eqn:H9;
      [|eexists; split; [|exact H9]; unfold csv_tables; in_list].
    destruct (path_exists (csv_path data_dir "HHE_data")) eqn:H10;
      [|eexists; split; [|exact H10]; unfold csv_tables; in_list].
    destruct Hret as (file_paths' & Hok); [|congruence].
    subst file_paths. cbn.
    constructor.
    { intros p Hp. inversion Hp. }
    repeat (constructor; [intros p [= <-]; assumption|]). constructor.
  - intros (table_name & Hin & Hmissing). apply Hexit.
    subst file_paths. cbn. apply Exists_cons_tl.
    unfold csv_tables in Hin.
    repeat (apply elem_of_cons in Hin as [-> | Hin];
            [rewrite Exists_exists; eexists (_, [_]);
             split; [|eexists; split; [reflexivity | exact Hmissing]];
             in_list|]).
    by apply elem_of_nil in Hin.
Qed.

(** ** The reader of a file *)

Lemma endswith_last_char (s suffix : string) :
  suffix <> EmptyString -> endswith s suffix = true ->
  last_char s = last_char suffix.
Proof.
  intros Hne.
  assert (Hunfold : forall s,
             endswith s suffix
             = String.eqb s suffix
               || match s with
                  | EmptyString => false
                  | String _ s' => endswith s' suffix
                  end) by (by intros []).
  induction s as [|c s IH]; rewrite Hunfold.
  - rewrite orb_false_r. intros H%String.eqb_eq. by subst.
  - intros [H%String.eqb_eq | H]%orb_prop; [by subst|].
    rewrite <- (IH H). destruct s; [|done].
    rewrite Hunfold, orb_false_r in H. apply String.eqb_eq in H. by subst.
Qed.

Lemma csv_is_not_excel (path : string) :
  endswith path ".csv" = true ->
  endswith path ".xlsx" = false /\ endswith path ".xls" = false.
Proof.
  intros Hcsv. apply endswith_last_char in Hcsv; [|done].
  split.
  - destruct (endswith path ".xlsx") eqn:E; [|done].
    apply endswith_last_char in E; [|done]. rewrite Hcsv in E. discriminate.
  - destruct (endswith path ".xls") eqn:E; [|done].
    apply endswith_last_char in E; [|done]. rewrite Hcsv in E. discriminate.
Qed.

Section Reader.

Variable read_excel : string -> result DataFrame.
Variable read_csv : string -> string -> result DataFrame.

(** The encodings before the first that does not fail to decode are
    reported, and the outcome is that of the first that does not. *)
Lemma try_encodings_first (path : string) (pre : list string) (enc : string)
    (post : list string) (w : world) :
  (forall e, e ∈ pre -> read_csv path e = Raise UnicodeDecodeError) ->
  read_csv path enc <> Raise UnicodeDecodeError ->
  try_encodings read_csv path (pre ++ enc :: post) w
  = lift (read_csv path enc)
      (with_output w ((fun e => MsgEncodingFailed e path) <$> pre)).
Proof.
  revert w. induction pre as [|e pre IH]; intros w Hpre Henc; cbn.
  - rewrite with_output_nil.
    destruct (read_csv path enc) as [df|[]]; try done.
  - rewrite (Hpre e) by left.
    unfold mbind, io_bind_inst, io_bind; cbn.
    rewrite IH; [|intros e' He'; apply Hpre; by right|done].
    unfold with_output; cbn. by rewrite <- app_assoc.
Qed.

Lemma try_encodings_all_fail (path : string) (encs : list string) (w : world) :
  (forall e, e ∈ encs -> read_csv path e = Raise UnicodeDecodeError) ->
  try_encodings read_csv path encs w
  = (with_output w (((fun e => MsgEncodingFailed e path) <$> encs)
                    ++ [MsgAllEncodingsFailed path]),
     Exit 1).
Proof.
  revert w. induction encs as [|e encs IH]; intros w Hall; cbn.
  - done.
  - rewrite (Hall e) by left.
    unfold mbind, io_bind_inst, io_bind; cbn.
    rewrite IH; [|intros e' He'; apply Hall; by right].
    unfold with_output; cbn. by rewrite <- !app_assoc.
Qed.

Lemma try_encodings_result (path : string) (encs : list string) (w : world) :
  exists msgs,
    fst (try_encodings read_csv path encs w) = with_output w msgs
    /\ forall code, snd (try_encodings read_csv path encs w) = Exit code -> code = 1%Z.
Proof.
  revert w. induction encs as [|e encs IH]; intros w; cbn.
  - exists [MsgAllEncodingsFailed path]. split; [done|]. by intros code [= <-].
  - destruct (read_csv path e) as [df|err] eqn:E.
    + exists []. rewrite with_output_nil. cbn. done.
    + destruct err;
        try (exists []; rewrite with_output_nil; cbn; done).
      unfold mbind, io_bind_inst, io_bind; cbn.
      destruct (IH (mkWorld (committed w) (pending w)
                      (stdout w ++ [MsgEncodingFailed e path])))
        as (msgs & Hw & Hcode).
      exists (MsgEncodingFailed e path :: msgs). split; [|done].
      rewrite Hw. unfold with_output; cbn. by rewrite <- app_assoc.
Qed.

Lemma load_file_result (path : string) (w : world) :
  exists msgs,
    fst (load_file read_excel read_csv path w) = with_output w msgs
    /\ (snd (load_file read_excel read_csv path w) = Exit 1
        \/ exists df, snd (load_file read_excel read_csv path w) = Ret df).
Proof.
  unfold load_file.
  destruct (endswith path ".xlsx" || endswith path ".xls").
  { unfold lift. destruct (read_excel path) as [df|e]; cbn.
    - exists []. rewrite with_output_nil. split; [done|]. right. by exists df.
    - exists [MsgReadError path e]. split; [done|]. by left. }
  destruct (endswith path ".csv").
  - destruct (try_encodings_result path ["utf-8"; "ISO-8859-1"; "Windows-1252"] w)
      as (msgs & Hw & Hcode).
    destruct (try_encodings read_csv path _ w) as [w1 [df|e|c]]; cbn in *; subst w1.
    + exists msgs. split; [done|]. right. by exists df.
    + exists (msgs ++ [MsgReadError path e]).
      unfold mbind, io_bind_inst, io_bind; cbn. split; [|by left].
      unfold with_output; cbn. by rewrite <- app_assoc.
    + exists msgs. split; [done|]. left. by rewrite (Hcode c).
  - cbn. exists [MsgUnsupportedFormat path]. split; [done|]. by left.
Qed.

End Reader.


(** X5.  For a path that ends in .csv the encodings utf-8, ISO-8859-1 and
    Windows-1252 are tried in this order: the frame returned is the one
    read with the first encoding that decodes the file, one line is printed
    for each encoding that failed before it, and the Excel reader is not
    consulted. *)
Theorem load_file_first_encoding
    (read_excel : string -> result DataFrame)
    (read_csv : string -> string -> result DataFrame)
    (path : string) (pre : list string) (enc : string) (post : list string)
    (df : DataFrame) (w : world) :
  endswith path ".csv" = true ->
  csv_encodings = pre ++ enc :: post ->
  (forall e, e ∈ pre -> read_csv path e = Raise UnicodeDecodeError) ->
  read_csv path enc = Ok df ->
  load_file read_excel read_csv path w
  = (with_output w ((fun e => MsgEncodingFailed e path) <$> pre), Ret df).
Proof.
  intros Hcsv Hencs Hpre Henc. unfold load_file.
  destruct (csv_is_not_excel path Hcsv) as [-> ->]. rewrite Hcsv. cbn [orb].
  change ["utf-8"; "ISO-8859-1"; "Windows-1252"] with csv_encodings.
  rewrite Hencs, try_encodings_first by (done || congruence).
  by rewrite Henc.
Qed.

(** A file that is not valid UTF-8 but reads as ISO-8859-1. *)
Lemma load_file_first_encoding_witness :
  load_file (fun _ => Raise OtherError)
    (fun _ enc => if String.eqb enc "utf-8" then Raise UnicodeDecodeError
                  else Ok (sample_frame "HHE_data"))
    "data/HHE_data_20201216.csv" empty_world
  = (with_output empty_world [MsgEncodingFailed "utf-8" "data/HHE_data_20201216.csv"],
     Ret (sample_frame "HHE_data")).
Proof.
  apply (load_file_first_encoding _ _ _ ["utf-8"] "ISO-8859-1" ["Windows-1252"]).
  - reflexivity.
  - reflexivity.
  - intros e ->%list_elem_of_singleton. reflexivity.
  - reflexivity.
Defined.

(** X6.  What ends the program in [load_file], always with status 1: a path
    that ends in none of .xlsx, .xls and .csv, reported as unsupported
    without any reader being called; a CSV file that none of the three
    encodings decodes; and any other exception of a reader, reported with
    the path (for a CSV file, after the lines of the encodings that failed
    before). *)
Theorem load_file_failures
    (read_excel : string -> result DataFrame)
    (read_csv : string -> string -> result DataFrame)
    (path : string) (w : world) :
  (endswith path ".xlsx" = false -> endswith path ".xls" = false ->
   endswith path ".csv" = false ->
   load_file read_excel read_csv path w
   = (with_output w [MsgUnsupportedFormat path], Exit 1))
  /\ (endswith path ".csv" = true ->
      (forall e, e ∈ csv_encodings -> read_csv path e = Raise UnicodeDecodeError) ->
      load_file read_excel read_csv path w
      = (with_output w (((fun e => MsgEncodingFailed e path) <$> csv_encodings)
                        ++ [MsgAllEncodingsFailed path]),
         Exit 1))
  /\ (forall pre enc post err,
        endswith path ".csv" = true ->
        csv_encodings = pre ++ enc :: post ->
        (forall e, e ∈ pre -> read_csv path e = Raise UnicodeDecodeError) ->
        read_csv path enc = Raise err -> err <> UnicodeDecodeError ->
        load_file read_excel read_csv path w
        = (with_output w (((fun e => MsgEncodingFailed e path) <$> pre)
                          ++ [MsgReadError path err]),
           Exit 1))
  /\ (forall err,
        endswith path ".xlsx" || endswith path ".xls" = true ->
        read_excel path = Raise err ->
        load_file read_excel read_csv path w
        = (with_output w [MsgReadError path err], Exit 1)).
Proof.
  unfold load_file. split; [|split; [|split]].
  - by intros -> -> ->.
  - intros Hcsv Hall.
    destruct (csv_is_not_excel path Hcsv) as [-> ->]. rewrite Hcsv. cbn [orb].
    change ["utf-8"; "ISO-8859-1"; "Windows-1252"] with csv_encodings.
    by rewrite try_encodings_all_fail.
  - intros pre enc post err Hcsv Hencs Hpre Henc Herr.
    destruct (csv_is_not_excel path Hcsv) as [-> ->]. rewrite Hcsv. cbn [orb].
    change ["utf-8"; "ISO-8859-1"; "Windows-1252"] with csv_encodings.
    rewrite Hencs, try_encodings_first by (done || congruence).
    rewrite Henc. unfold mbind, io_bind_inst, io_bind; cbn.
    destruct err; try done; unfold with_output; cbn; by rewrite <- app_assoc.
  - intros err -> Herr. by rewrite Herr.
Qed.

(** A text file is unsupported; a CSV file that no encoding decodes; a CSV
    file the reader cannot parse; a workbook that cannot be opened. *)
Lemma load_file_failures_witness :
  load_file (fun _ => Raise OtherError) (fun _ _ => Raise UnicodeDecodeError)
    "data/notes.txt" empty_world
  = (with_output empty_world [MsgUnsupportedFormat "data/notes.txt"], Exit 1)
  /\ load_file (fun _ => Raise OtherError) (fun _ _ => Raise UnicodeDecodeError)
       "data/a.csv" empty_world
     = (with_output empty_world
          [MsgEncodingFailed "utf-8" "data/a.csv";
           MsgEncodingFailed "ISO-8859-1" "data/a.csv";
           MsgEncodingFailed "Windows-1252" "data/a.csv";
           MsgAllEncodingsFailed "data/a.csv"],
        Exit 1)
  /\ load_file (fun _ => Raise OtherError) (fun _ _ => Raise ValueError)
       "data/a.csv" empty_world
     = (with_output empty_world [MsgReadError "data/a.csv" ValueError], Exit 1)
  /\ load_file (fun _ => Raise OtherError) (fun _ _ => Raise ValueError)
       "data/a.xlsx" empty_world
     = (with_output empty_world [MsgReadError "data/a.xlsx" OtherError], Exit 1).
Proof.
  split; [|split; [|split]].
  - by apply (load_file_failures (fun _ => Raise OtherError)
                (fun _ _ => Raise UnicodeDecodeError) "data/notes.txt" empty_world).
  - apply (load_file_failures (fun _ => Raise OtherError)
             (fun _ _ => Raise UnicodeDecodeError) "data/a.csv" empty_world);
      [reflexivity | intros; reflexivity].
  - apply (proj1 (proj2 (proj2 (load_file_failures (fun _ => Raise OtherError)
             (fun _ _ => Raise ValueError) "data/a.csv" empty_world)))
             [] "utf-8" ["ISO-8859-1"; "Windows-1252"] ValueError);
      [reflexivity | reflexivity | by intros e ?%elem_of_nil | reflexivity | discriminate].
  - apply (load_file_failures (fun _ => Raise OtherError)
             (fun _ _ => Raise ValueError) "data/a.xlsx" empty_world);
      reflexivity.
Defined.

(** ** Extraction and the whole program *)

Section Program.

Variable infer_string : bool.
Variable repr_float : float -> string.
Variable path_exists : string -> bool.
Variable read_excel : string -> result DataFrame.
Variable read_csv : string -> string -> result DataFrame.
Variable sink_accepts : list stored -> string -> list cell -> bool.

Lemma load_files_result (paths : list string) (w : world) :
  exists msgs,
    fst (load_files read_excel read_csv paths w) = with_output w msgs
    /\ (snd (load_files read_excel read_csv paths w) = Exit 1
        \/ exists df_list,
             snd (load_files read_excel read_csv paths w) = Ret df_list
             /\ Forall2 (fun path df =>
                           empty df = false
                           /\ exists w0, snd (load_file read_excel read_csv path w0) = Ret df)
                        paths df_list).
Proof.
  revert w. induction paths as [|path paths IH]; intros w; cbn.
  { exists []. rewrite with_output_nil. split; [done|]. right. by exists []. }
  unfold mbind, io_bind_inst, io_bind.
  destruct (load_file_result read_excel read_csv path w) as (msgs & Hw & Hcase).
  destruct (load_file read_excel read_csv path w) as [w1 out] eqn:Hload;
    cbn in Hw, Hcase. subst w1.
  destruct Hcase as [-> | [df ->]].
  { exists msgs. split; [done|]. by left. }
  destruct (empty df) eqn:Hempty.
  { exists msgs. split; [done|]. by left. }
  destruct (IH (with_output w msgs)) as (msgs' & Hw' & Hcase').
  destruct (load_files read_excel read_csv paths (with_output w msgs)) as [w2 out];
    cbn in Hw', Hcase'. subst w2.
  exists (msgs ++ msgs'). rewrite with_output_app.
  destruct Hcase' as [-> | (df_list & -> & Hall)].
  - split; [done|]. by left.
  - split; [done|]. right. exists (df :: df_list). split; [done|].
    constructor; [|done]. split; [done|]. exists w. by rewrite Hload.
Qed.

Lemma extract_data_result (file_paths : dict string) (w : world) :
  exists msgs,
    fst (extract_data read_excel read_csv file_paths w) = with_output w msgs
    /\ (snd (extract_data read_excel read_csv file_paths w) = Exit 1
        \/ exists data,
             snd (extract_data read_excel read_csv file_paths w) = Ret data
             /\ fst <$> data = fst <$> file_paths
             /\ Forall2 (fun entry frames =>
                           Forall2 (fun path df =>
                                      empty df = false
                                      /\ exists w0,
                                           snd (load_file read_excel read_csv path w0)
                                           = Ret df)
                                   (snd entry) (snd frames))
                        file_paths data).
Proof.
  revert w. induction file_paths as [|[table_name paths] rest IH]; intros w; cbn.
  { exists []. rewrite with_output_nil. split; [done|]. right. by exists []. }
  unfold mbind, io_bind_inst, io_bind.
  destruct (load_files_result paths w) as (msgs & Hw & Hcase).
  destruct (load_files read_excel read_csv paths w) as [w1 out]; cbn in Hw, Hcase.
  subst w1. destruct Hcase as [-> | (df_list & -> & Hframes)].
  { exists msgs. split; [done|]. by left. }
  destruct (IH (with_output w msgs)) as (msgs' & Hw' & Hcase').
  destruct (extract_data read_excel read_csv rest (with_output w msgs)) as [w2 out];
    cbn in Hw', Hcase'. subst w2.
  exists (msgs ++ msgs'). rewrite with_output_app.
  destruct Hcase' as [-> | (data & -> & Hkeys & Hall)].
  - split; [done|]. by left.
  - split; [done|]. right. exists ((table_name, df_list) :: data).
    split; [done|]. cbn. split; [by rewrite Hkeys|]. by constructor.
Qed.

(** The import of a dictionary of known tables, with the line that
    follows it. *)
Lemma import_or_report_known (data : dict DataFrame) (w : world) :
  data <> [] ->
  Forall (fun entry => known_table (fst entry) = true) data ->
  snd (import_or_report infer_string repr_float sink_accepts data w) = Ret tt
  /\ pending (fst (import_or_report infer_string repr_float sink_accepts data w)) = []
  /\ committed w `prefix_of`
       committed (fst (import_or_report infer_string repr_float sink_accepts data w))
  /\ MsgCompleted ∈ stdout (fst (import_or_report infer_string repr_float sink_accepts data w)).
Proof.
  intros Hne Hknown. unfold import_or_report.
  destruct data as [|entry data]; [done|].
  destruct (for_each_guarded_known infer_string repr_float sink_accepts (entry :: data) w Hknown)
    as (reports & Hret & Hc & Hs & _).
  unfold mbind, io_bind_inst, io_bind, import_data_to_DB.
  destruct (for_each (entry :: data) (import_table_guarded infer_string repr_float sink_accepts) w)
    as [w1 out]; cbn in *. subst out. cbn.
  split; [done|]. split; [done|]. split.
  - etrans; [exact Hc|]. by apply prefix_app_r.
  - apply elem_of_app. right. left.
Qed.

(** The program after the paths were found: the schema, the extraction
    and the import.  It exits with status 1 and leaves the database as it
    was, or returns with everything committed. *)
Lemma load_phase_result (db_path schema_file : string) (file_paths : dict string)
    (w : world) :
  file_paths <> [] ->
  Forall (fun entry => known_table (fst entry) = true) file_paths ->
  let run :=
    (create_database db_path schema_file;;
     data ← extract_data read_excel read_csv file_paths;
     import_or_report infer_string repr_float sink_accepts data) w in
  (snd run = Exit 1
   /\ committed (fst run) = committed w /\ pending (fst run) = pending w)
  \/ (snd run = Ret tt
      /\ pending (fst run) = []
      /\ committed w `prefix_of` committed (fst run)
      /\ MsgCompleted ∈ stdout (fst run)).
Proof.
  intros Hne Hknown run. subst run.
  unfold create_database, mbind, io_bind_inst, io_bind; cbn [print].
  set (w1 := mkWorld (committed w) (pending w) (stdout w ++ [MsgDatabaseCreated db_path])).
  destruct (extract_data_result file_paths w1) as (msgs & Hw & Hcase).
  destruct (extract_data read_excel read_csv file_paths w1) as [w2 out];
    cbn in Hw, Hcase. subst w2.
  destruct Hcase as [-> | (data & -> & Hkeys & _)]; [by left|].
  right.
  assert (Hdata : data <> []).
  { intros ->. destruct file_paths; [done | discriminate]. }
  assert (Hknown' : Forall (fun entry => known_table (fst entry) = true) data).
  { apply (Forall_fmap fst (fun t => known_table t = true)).
    rewrite Hkeys. by apply (Forall_fmap fst (fun t => known_table t = true)). }
  destruct (import_or_report_known data (with_output w1 msgs) Hdata Hknown')
    as (Hret & Hpend & Hpre & Hdone).
  by repeat split.
Qed.

Lemma parse_file_paths_keys (data_dir : string) (w : world) :
  exists msgs,
    fst (parse_file_paths path_exists data_dir w) = with_output w msgs
    /\ (snd (parse_file_paths path_exists data_dir w) = Exit 1
        \/ exists file_paths,
             snd (parse_file_paths path_exists data_dir w) = Ret file_paths
             /\ fst <$> file_paths = production_order).
Proof.
  unfold parse_file_paths.
  match goal with
  | |- context [verify_files _ ?d w] =>
      destruct (verify_files_result path_exists d w) as (msgs & Hw & Hcase)
  end.
  exists msgs. split; [exact Hw|].
  destruct Hcase as [Hexit | (file_paths' & Hret & Hkeys & _)]; [by left|].
  right. exists file_paths'. split; [exact Hret|]. by rewrite Hkeys.
Qed.

Lemma parse_file_paths_for_test_keys (data_dir : string) (w : world) :
  exists msgs,
    fst (parse_file_paths_for_test path_exists data_dir w) = with_output w msgs
    /\ (snd (parse_file_paths_for_test path_exists data_dir w) = Exit 1
        \/ exists file_paths,
             snd (parse_file_paths_for_test path_exists data_dir w) = Ret file_paths
             /\ fst <$> file_paths = test_order).
Proof.
  unfold parse_file_paths_for_test.
  match goal with
  | |- context [verify_files _ ?d w] =>
      destruct (verify_files_result path_exists d w) as (msgs & Hw & Hcase)
  end.
  exists msgs. split; [exact Hw|].
  destruct Hcase as [Hexit | (file_paths' & Hret & Hkeys & _)]; [by left|].
  right. exists file_paths'. split; [exact Hret|]. by rewrite Hkeys.
Qed.

Lemma keys_known (file_paths : dict string) (order : list string) :
  fst <$> file_paths = order ->
  order <> [] ->
  Forall (fun t => known_table t = true) order ->
  file_paths <> []
  /\ Forall (fun entry => known_table (fst entry) = true) file_paths.
Proof.
  intros Hkeys Hne Hknown. split.
  - intros ->. by destruct order.
  - apply (Forall_fmap fst (fun t => known_table t = true)). by rewrite Hkeys.
Qed.

End Program.

(** X7.  [extract_data] only prints and never raises.  When it returns,
    the dictionary of frames has the tables of the dictionary of paths in
    the same order, one frame per path in the order of the paths, each the
    frame [load_file] returns for its path and none of them empty;
    otherwise (a file that cannot be read, or one with no row or no column)
    it exits with status 1. *)
Theorem extract_data_frames
    (read_excel : string -> result DataFrame)
    (read_csv : string -> string -> result DataFrame)
    (file_paths : dict string) (w : world) :
  exists msgs,
    fst (extract_data read_excel read_csv file_paths w) = with_output w msgs
    /\ (snd (extract_data read_excel read_csv file_paths w) = Exit 1
        \/ exists data,
             snd (extract_data read_excel read_csv file_paths w) = Ret data
             /\ fst <$> data = fst <$> file_paths
             /\ Forall2 (fun entry frames =>
                           Forall2 (fun path df =>
                                      empty df = false
                                      /\ exists w0,
                                           snd (load_file read_excel read_csv path w0)
                                           = Ret df)
                                   (snd entry) (snd frames))
                        file_paths data).
Proof.
  destruct (extract_data_result read_excel read_csv file_paths w)
    as (msgs & Hw & Hcase).
  exists msgs. split; [exact Hw|].
  destruct Hcase as [Hexit | (data & Hret & Hkeys & Hall)]; [by left|].
  right. exists data. by repeat split.
Qed.

Lemma io_run_bind {A B : Type} (m : io A) (k : A -> io B) (w : world) :
  (m ≫= k) w
  = match m w with
    | (w', Ret a) => k a w'
    | (w', Throw e) => (w', Throw e)
    | (w', Exit c) => (w', Exit c)
    end.
Proof. reflexivity. Qed.

(** X8.  [main] always ends by [exit], and the status is 0, 1 or 2.
    Status 2 comes from argparse alone, which refuses the command line
    before anything is printed or touched; for [-h] argparse prints its
    help and ends the program with status 0.  Once the four options are
    read, in both modes: status 1 means that a file was missing, unreadable
    or empty, nothing was inserted and the database is as it was; status 0
    means that the import ran, the line of completion was printed and
    every insertion that succeeded is committed, whether or not tables
    reported errors. *)
Theorem main_exit_status
    (infer_string : bool) (repr_float : float -> string)
    (path_exists : string -> bool)
    (read_excel : string -> result DataFrame)
    (read_csv : string -> string -> result DataFrame)
    (sink_accepts : list stored -> string -> list cell -> bool)
    (parse_args : list string -> parsed) (argv : list string) (w : world) :
  let run := main infer_string repr_float path_exists read_excel read_csv
               sink_accepts parse_args argv w in
  match parse_args argv with
  | UsageError => run = (w, Exit 2)
  | HelpRequested => run = (with_output w [MsgHelp], Exit 0)
  | Namespace _ _ _ _ =>
      (snd run = Exit 1
       /\ committed (fst run) = committed w /\ pending (fst run) = pending w)
      \/ (snd run = Exit 0
          /\ pending (fst run) = []
          /\ committed w `prefix_of` committed (fst run)
          /\ MsgCompleted ∈ stdout (fst run))
  end.
Proof.
  intros run. subst run. unfold main.
  destruct (parse_args argv) as [db_path schema_file data_path TEST| |];
    [|reflexivity|reflexivity].
  cbv zeta.
  match goal with
  | |- context [(if ?b then ?m1 else ?m2) w] =>
      destruct ((if b then m1 else m2) w) as [wf out] eqn:Hrun
  end.
  cbn [fst snd].
  assert (Hphase : forall file_paths order msgs w0,
             committed w0 = committed w -> pending w0 = pending w ->
             fst <$> file_paths = order -> order <> [] ->
             Forall (fun t => known_table t = true) order ->
             forall w' out',
               (create_database db_path schema_file;;
                data ← extract_data read_excel read_csv file_paths;
                import_or_report infer_string repr_float sink_accepts data)
                 (with_output w0 msgs) = (w', out') ->
               (out' = Exit 1 /\ committed w' = committed w /\ pending w' = pending w)
               \/ (out' = Ret tt /\ pending w' = []
                   /\ committed w `prefix_of` committed w'
                   /\ MsgCompleted ∈ stdout w')).
  { intros file_paths order msgs w0 Hc0 Hp0 Hkeys Hne Hknown w' out' Hrun'.
    destruct (keys_known file_paths order Hkeys Hne Hknown) as [Hne' Hknown'].
    pose proof (load_phase_result infer_string repr_float read_excel read_csv
                  sink_accepts db_path schema_file file_paths (with_output w0 msgs)
                  Hne' Hknown')
      as H.
    cbv zeta in H. rewrite Hrun' in H. cbn in H. rewrite Hc0, Hp0 in H. exact H. }
  destruct (String.eqb TEST "yes").
  - unfold test_program in Hrun.
    rewrite !io_run_bind in Hrun. cbn [print] in Hrun.
    set (w0 := mkWorld (committed w) (pending w) (stdout w ++ [MsgTesting])) in Hrun.
    rewrite io_run_bind in Hrun.
    pose proof (parse_file_paths_for_test_keys path_exists data_path w0) as Hparse.
    destruct (parse_file_paths_for_test path_exists data_path w0) as [w1 out1].
    destruct Hparse as (msgs & Hw & Hcase). cbn in Hw, Hcase. subst w1.
    destruct Hcase as [-> | (file_paths & -> & Hkeys)].
    { injection Hrun as <- <-. by left. }
    match type of Hrun with
    | (let (_, _) := ?m in _) = _ => destruct m as [w2 out2] eqn:Hload
    end.
    apply (Hphase file_paths test_order msgs w0) in Hload;
      [|done|done|done|done|by repeat constructor].
    destruct Hload as [(-> & Hc & Hp) | (-> & Hp & Hc & Hdone)].
    + injection Hrun as <- <-. by left.
    + rewrite io_run_bind in Hrun. cbn in Hrun.
      injection Hrun as <- <-. cbn. right.
      split; [done|]. split; [done|]. split; [done|].
      apply elem_of_app. by left.
  - rewrite io_run_bind in Hrun.
    pose proof (parse_file_paths_keys path_exists data_path w) as Hparse.
    destruct (parse_file_paths path_exists data_path w) as [w1 out1].
    destruct Hparse as (msgs & Hw & Hcase). cbn in Hw, Hcase. subst w1.
    destruct Hcase as [-> | (file_paths & -> & Hkeys)].
    { injection Hrun as <- <-. by left. }
    pose proof (Hphase file_paths production_order msgs w eq_refl eq_refl Hkeys
                  ltac:(done) ltac:(by repeat constructor)) as Hload.
    rewrite io_run_bind in Hrun. rewrite io_run_bind in Hload.
    destruct (create_database db_path schema_file (with_output w msgs))
      as [w2 [[]|e|c]].
    2,3: destruct (Hload _ _ eq_refl) as [(Hout & Hc & Hp) | (Hout & Hp & Hc & Hdone)];
      try discriminate Hout; injection Hout as ->; injection Hrun as <- <-; by left.
    rewrite io_run_bind in Hrun. rewrite io_run_bind in Hload.
    destruct (extract_data read_excel read_csv file_paths w2) as [w3 [data|e|c]].
    2,3: destruct (Hload _ _ eq_refl) as [(Hout & Hc & Hp) | (Hout & Hp & Hc & Hdone)];
      try discriminate Hout; injection Hout as ->; injection Hrun as <- <-; by left.
    rewrite io_run_bind in Hrun.
    destruct (import_or_report infer_string repr_float sink_accepts data w3)
      as [w4 [[]|e|c]];
      destruct (Hload _ _ eq_refl) as [(Hout & Hc & Hp) | (Hout & Hp & Hc & Hdone)];
      try discriminate Hout.
    + injection Hrun as <- <-. by right.
    + injection Hout as ->. injection Hrun as <- <-. by left.
Qed.

(** ** The conversions of a column *)

Section Conversions.

Variable infer_string : bool.
Variable repr_float : float -> string.

(** What the inference of [apply] does to a value: nothing, or a null
    becomes NaN, or an integer the float of its value. *)
Lemma infer_objects_values (vals : list cell) :
  Forall2 (fun v v' =>
             v' = v
             \/ (notnull v = false /\ v' = CFloat nan)
             \/ exists z, v = CInt z /\ v' = CFloat (float_of_Z z))
          vals (infer_objects infer_string vals).
Proof.
  unfold infer_objects.
  repeat case_match;
    try (apply Forall_Forall2_diag, Forall_forall; intros; by left).
  - apply Forall2_fmap_r, Forall_Forall2_diag, Forall_forall. intros c Hc.
    match goal with
    | H : (_ && forallb _ _)%bool = true |- _ =>
        apply andb_prop in H as [_ H]; rewrite forallb_forall in H;
        specialize (H c (proj1 (list_elem_of_In _ _) Hc))
    end.
    destruct c as [|s|z|f]; cbn in *; try (by left).
    + right. by left.
    + right. left. split; [|done]. by destruct (is_nan f).
  - apply Forall2_fmap_r, Forall_Forall2_diag, Forall_forall. intros c _.
    destruct c as [|s|z|f]; cbn; try (by left).
    + right. by left.
    + right. right. by exists z.
Qed.

(** A conversion that never raises, applied to a column that exists: the
    frame comes back with, row by row, the cell of the column replaced. *)
Lemma apply_col_total (P : cell -> Prop) (df : DataFrame) (name : string)
    (f : cell -> result cell) (i : nat) :
  col_index name (columns df) = Some i ->
  (forall c, exists c', f c = Ok c' /\ P c') ->
  (forall c, P c -> notnull c = false -> P (CFloat nan)) ->
  (forall z, P (CInt z) -> P (CFloat (float_of_Z z))) ->
  exists df',
    apply_col infer_string df name f = Ok df'
    /\ columns df' = columns df
    /\ Forall2 (fun row row' => exists c', row' = <[i := c']> row /\ P c')
               (rows df) (rows df').
Proof.
  intros Hi Hf Hnull Hint. unfold apply_col. rewrite Hi.
  assert (Hrows : exists vals,
             mapM (fun row => f (default CNone (row !! i))) (rows df) = Ok vals
             /\ Forall2 (fun row v => P v) (rows df) vals).
  { induction (rows df) as [|row rws IH]; cbn; [by exists []|].
    destruct (Hf (default CNone (row !! i))) as (c' & -> & Hc'); cbn.
    destruct IH as (vals & -> & Hvals); cbn.
    exists (c' :: vals). split; [done|]. by constructor. }
  destruct Hrows as (vals & -> & Hvals); cbn.
  eexists. split; [done|]. cbn. split; [done|].
  pose proof (infer_objects_values vals) as Hinf.
  revert Hinf. generalize (infer_objects infer_string vals) as vals'.
  induction Hvals as [|row v rws vals Hv _ IH]; intros vals' Hinf;
    inversion Hinf as [|? v' ? vals'' Hv' Hrest]; subst; cbn; [constructor|].
  constructor; [|by apply IH].
  exists v'. split; [done|].
  destruct Hv' as [-> | [[Hv0 ->] | (z & -> & ->)]]; eauto.
Qed.

Lemma converted_row_insert (P : cell -> Prop) (converted : list nat)
    (row row' : list cell) (i : nat) (c : cell) :
  converted_row P converted row row' -> P c ->
  converted_row P (i :: converted) row (<[i := c]> row').
Proof.
  intros (Hlen & Hkeep & Hconv) Hc. split; [by rewrite length_insert|]. split.
  - intros j Hj. apply not_elem_of_cons in Hj as [Hji Hj].
    rewrite list_lookup_insert_ne by done. by apply Hkeep.
  - intros j c' Hj Hlook. destruct (decide (i = j)) as [<- | Hij].
    + apply list_lookup_insert_Some in Hlook as [(_ & <- & _) | (? & _)]; done.
    + rewrite list_lookup_insert_ne in Hlook by done.
      apply elem_of_cons in Hj as [-> | Hj]; [done|]. by eapply Hconv.
Qed.

Lemma converted_row_refl (P : cell -> Prop) (row : list cell) :
  converted_row P [] row row.
Proof.
  split; [done|]. split; [done|]. by intros j c ?%elem_of_nil.
Qed.

(** One more column converted. *)
Lemma apply_col_converts (P : cell -> Prop) (converted : list nat)
    (df0 df : DataFrame) (name : string) (f : cell -> result cell) (i : nat) :
  col_index name (columns df) = Some i ->
  (forall c, exists c', f c = Ok c' /\ P c') ->
  (forall c, P c -> notnull c = false -> P (CFloat nan)) ->
  (forall z, P (CInt z) -> P (CFloat (float_of_Z z))) ->
  Forall2 (converted_row P converted) (rows df0) (rows df) ->
  exists df',
    apply_col infer_string df name f = Ok df'
    /\ columns df' = columns df
    /\ Forall2 (converted_row P (i :: converted)) (rows df0) (rows df').
Proof.
  intros Hi Hf Hnull Hint Hrows.
  destruct (apply_col_total P df name f i Hi Hf Hnull Hint)
    as (df' & Hrun & Hcols & Hstep).
  exists df'. split; [done|]. split; [done|].
  revert Hstep. generalize (rows df'). clear Hrun Hcols.
  induction Hrows as [|row0 row rws0 rws Hrow _ IH]; intros rws' Hstep.
  - inversion Hstep. constructor.
  - inversion Hstep as [|? row' ? rws'' (c' & -> & Hc') Hrest]; subst.
    constructor; [by apply converted_row_insert | by apply IH].
Qed.

Lemma date_cell_total (c : cell) :
  exists c',
    (if notnull c then r ← parse_date c; Ok (cell_of_str r) else Ok CNone) = Ok c'
    /\ date_or_null c'.
Proof.
  destruct (notnull c); [|exists CNone; split; [done | by left]].
  unfold parse_date.
  destruct (parse_date_from_result c date_formats)
    as [-> | (s & fmt & d & _ & _ & Hd & ->)]; cbn.
  - exists CNone. split; [done | by left].
  - eexists. split; [done|]. right. exists d.
    split; [by eapply strptime_calendar | done].
Qed.

Lemma date_or_null_inferred :
  (forall c, date_or_null c -> notnull c = false -> date_or_null (CFloat nan))
  /\ (forall z, date_or_null (CInt z) -> date_or_null (CFloat (float_of_Z z))).
Proof.
  split; [intros; by left|].
  intros z [H | (d & _ & H)]; discriminate.
Qed.

Lemma float_or_null_inferred :
  (forall c, float_or_null c -> notnull c = false -> float_or_null (CFloat nan))
  /\ (forall z, float_or_null (CInt z) -> float_or_null (CFloat (float_of_Z z))).
Proof.
  split; intros; right; by eexists.
Qed.

Lemma to_float_total (c : cell) : exists r, to_float repr_float c = Ok r.
Proof.
  unfold to_float, float_of_str.
  destruct (notnull c); [|by eexists].
  destruct (contains "%" (strip (py_str repr_float c))).
  - destruct (py_float _); cbn; by eexists.
  - destruct (py_float _); cbn; by eexists.
Qed.

Lemma float_cell_total (c : cell) :
  exists c',
    (r ← to_float repr_float c; Ok (cell_of_float r)) = Ok c' /\ float_or_null c'.
Proof.
  destruct (to_float_total c) as [r ->]; cbn.
  eexists. split; [done|]. destruct r as [f|]; [right; by exists f | by left].
Qed.

End Conversions.

(** X9.  [convert_dates] raises [KeyError] when the frame has no column of
    the given name and returns otherwise, whatever the cells hold.  The
    frame returned has the same columns and rows of the same length in the
    same order; every cell outside the date column is unchanged, and every
    cell of the date column is a null ([None], or NaN where pandas makes a
    string column of the result) or the text [strftime] writes for a date
    of the calendar, which is a full YYYY-MM-DD from the year 1000 on. *)
Theorem convert_dates_spec (infer_string : bool) (df : DataFrame)
    (date_column : string) :
  (col_index date_column (columns df) = None ->
   convert_dates infer_string df date_column = Raise KeyError)
  /\ (forall i,
        col_index date_column (columns df) = Some i ->
        exists df',
          convert_dates infer_string df date_column = Ok df'
          /\ columns df' = columns df
          /\ Forall2 (converted_row date_or_null [i]) (rows df) (rows df'))
  /\ (forall d, calendar_date d -> (1000 <= year d)%Z ->
                is_iso_date (strftime_Ymd d) = true).
Proof.
  unfold convert_dates. split; [|split].
  - intros Hnone. unfold apply_col. by rewrite Hnone.
  - intros i Hi.
    apply (apply_col_converts infer_string date_or_null [] df df date_column _ i Hi).
    + apply date_cell_total.
    + apply date_or_null_inferred.
    + apply date_or_null_inferred.
    + apply Forall_Forall2_diag, Forall_forall. intros row _.
      apply converted_row_refl.
  - apply strftime_iso.
Qed.

(** Documents with dates in three notations, one of them before the year
    1000, a null and a text that is no date, converted where pandas infers
    string columns. *)
Lemma convert_dates_spec_witness :
  convert_dates true (mkFrame ["title"] [[CStr "Label"]]) "doc_date" = Raise KeyError
  /\ exists df',
       convert_dates true
         (mkFrame ["document_id"; "doc_date"]
            [[CInt 1; CStr "March 5, 2019"]; [CInt 2; CStr "05/03/2019"];
             [CInt 3; CNone]; [CInt 4; CStr "unknown"];
             [CInt 5; CStr "0999-01-02"]])
         "doc_date"
       = Ok df'
       /\ Forall2 (converted_row date_or_null [1%nat])
            [[CInt 1; CStr "March 5, 2019"]; [CInt 2; CStr "05/03/2019"];
             [CInt 3; CNone]; [CInt 4; CStr "unknown"];
             [CInt 5; CStr "0999-01-02"]]
            (rows df')
       /\ rows df'
          = [[CInt 1; CStr "2019-03-05"]; [CInt 2; CStr "2019-03-05"];
             [CInt 3; CFloat nan]; [CInt 4; CFloat nan];
             [CInt 5; CStr "999-01-02"]].
Proof.
  split.
  - by apply (convert_dates_spec true (mkFrame ["title"] [[CStr "Label"]]) "doc_date").
  - destruct (proj1 (proj2 (convert_dates_spec true
                       (mkFrame ["document_id"; "doc_date"]
                          [[CInt 1; CStr "March 5, 2019"]; [CInt 2; CStr "05/03/2019"];
                           [CInt 3; CNone]; [CInt 4; CStr "unknown"];
                           [CInt 5; CStr "0999-01-02"]])
                       "doc_date")) 1%nat eq_refl)
      as (df' & Hrun & _ & Hrows).
    exists df'. split; [exact Hrun|]. split; [exact Hrows|].
    vm_compute in Hrun. injection Hrun as <-. reflexivity.
Defined.

(** X10.  [convert_compositions] raises [KeyError] when one of the columns
    raw_min_comp, raw_central_comp and raw_max_comp is missing and returns
    otherwise, whatever the cells hold: no value makes [to_float] raise.
    The frame returned has the same columns and rows of the same length in
    the same order; every cell outside the three columns is unchanged, and
    every cell of the three columns is null or a float, never a text. *)
Theorem convert_compositions_spec (infer_string : bool) (repr_float : float -> string) (df : DataFrame) :
  ((exists col, col ∈ composition_columns /\ col_index col (columns df) = None) ->
   convert_compositions infer_string repr_float df = Raise KeyError)
  /\ (forall i1 i2 i3,
        col_index "raw_min_comp" (columns df) = Some i1 ->
        col_index "raw_central_comp" (columns df) = Some i2 ->
        col_index "raw_max_comp" (columns df) = Some i3 ->
        exists df',
          convert_compositions infer_string repr_float df = Ok df'
          /\ columns df' = columns df
          /\ Forall2 (converted_row float_or_null [i3; i2; i1]) (rows df) (rows df')).
Proof.
  assert (Hstep : forall converted df1 col,
             columns df1 = columns df ->
             Forall2 (converted_row float_or_null converted) (rows df) (rows df1) ->
             (col_index col (columns df) = None /\
              apply_col infer_string df1 col (fun x => r ← to_float repr_float x; Ok (cell_of_float r))
              = Raise KeyError)
             \/ exists i df2,
                  col_index col (columns df) = Some i
                  /\ apply_col infer_string df1 col
                       (fun x => r ← to_float repr_float x; Ok (cell_of_float r))
                     = Ok df2
                  /\ columns df2 = columns df
                  /\ Forall2 (converted_row float_or_null (i :: converted))
                       (rows df) (rows df2)).
  { intros converted df1 col Hcols Hrows.
    destruct (col_index col (columns df)) as [i|] eqn:Hi.
    - right.
      destruct (apply_col_converts infer_string float_or_null converted df df1 col
                  (fun x => r ← to_float repr_float x; Ok (cell_of_float r)) i)
        as (df2 & Hrun & Hcols2 & Hrows2);
        [by rewrite Hcols | apply float_cell_total
        | apply float_or_null_inferred | apply float_or_null_inferred | done |].
      exists i, df2. split; [done|]. split; [done|]. split; [congruence | done].
    - left. split; [done|]. unfold apply_col. by rewrite Hcols, Hi. }
  assert (H0 : Forall2 (converted_row float_or_null []) (rows df) (rows df)).
  { apply Forall_Forall2_diag, Forall_forall. intros row _. apply converted_row_refl. }
  unfold convert_compositions, composition_columns. cbn [foldl].
  unfold mbind, result_bind, Py.bind in Hstep |- *. cbv beta iota.
  destruct (Hstep [] df "raw_min_comp" eq_refl H0)
    as [[Hn1 Hr1] | (j1 & df1 & Hj1 & Hr1 & Hc1 & Hrows1)];
    rewrite Hr1; cbv beta iota.
  { split; [done|]. intros i1 i2 i3 Hi1. congruence. }
  destruct (Hstep [j1] df1 "raw_central_comp" Hc1 Hrows1)
    as [[Hn2 Hr2] | (j2 & df2 & Hj2 & Hr2 & Hc2 & Hrows2)];
    rewrite Hr2; cbv beta iota.
  { split; [done|]. intros i1 i2 i3 _ Hi2. congruence. }
  destruct (Hstep [j2; j1] df2 "raw_max_comp" Hc2 Hrows2)
    as [[Hn3 Hr3] | (j3 & df3 & Hj3 & Hr3 & Hc3 & Hrows3)];
    rewrite Hr3; cbv beta iota.
  { split; [done|]. intros i1 i2 i3 _ _ Hi3. congruence. }
  split.
  - intros (col & Hcol & Hnone). unfold composition_columns in Hcol.
    repeat (apply elem_of_cons in Hcol as [-> | Hcol]; [congruence|]).
    by apply elem_of_nil in Hcol.
  - intros i1 i2 i3 Hi1 Hi2 Hi3.
    assert (i1 = j1) as -> by congruence.
    assert (i2 = j2) as -> by congruence.
    assert (i3 = j3) as -> by congruence.
    by exists df3.
Qed.

(** Compositions written as a percentage, as a fraction, as a word and
    left empty; and a frame that lacks a column. *)
Lemma convert_compositions_spec_witness :
  convert_compositions false (fun _ => "nan")
    (mkFrame ["raw_min_comp"; "raw_max_comp"] [[CStr "1%"; CStr "2%"]])
  = Raise KeyError
  /\ exists df',
       convert_compositions false (fun _ => "nan")
         (mkFrame ["prod_title"; "raw_min_comp"; "raw_central_comp"; "raw_max_comp"]
            [[CStr "Glue"; CStr "5%"; CStr "0.075"; CStr "trace"];
             [CStr "Paint"; CNone; CStr "10 %"; CNone]])
       = Ok df'
       /\ Forall2 (converted_row float_or_null [3; 2; 1]%nat)
            [[CStr "Glue"; CStr "5%"; CStr "0.075"; CStr "trace"];
             [CStr "Paint"; CNone; CStr "10 %"; CNone]]
            (rows df').
Proof.
  split.
  - apply (convert_compositions_spec false (fun _ => "nan")
             (mkFrame ["raw_min_comp"; "raw_max_comp"] [[CStr "1%"; CStr "2%"]])).
    exists "raw_central_comp". split; [|reflexivity].
    unfold composition_columns. in_list.
  - destruct (proj2 (convert_compositions_spec false (fun _ => "nan")
                       (mkFrame ["prod_title"; "raw_min_comp"; "raw_central_comp";
                                 "raw_max_comp"]
                          [[CStr "Glue"; CStr "5%"; CStr "0.075"; CStr "trace"];
                           [CStr "Paint"; CNone; CStr "10 %"; CNone]]))
                1%nat 2%nat 3%nat eq_refl eq_refl eq_refl)
      as (df' & Hrun & _ & Hrows).
    exists df'. split; [exact Hrun | exact Hrows].
Defined.

(** ** Identifier explosion, once more *)

Lemma split_first_no_sep (sep : ascii) (s : string) :
  contains sep (fst (split_first sep s)) = false.
Proof.
  induction s as [|c s IH]; cbn; [done|].
  destruct (split_first sep s) as [tok toks]; cbn in IH.
  destruct (Ascii.eqb c sep) eqn:E; cbn; [done|]. by rewrite E.
Qed.

Lemma split_first_absent (sep : ascii) (s : string) :
  contains sep s = false -> split_first sep s = (s, []).
Proof.
  induction s as [|c s IH]; cbn; [done|].
  intros [Hc Hs]%orb_false_elim. by rewrite (IH Hs), Hc.
Qed.

Lemma contains_lstrip (c : ascii) (s : string) :
  contains c s = false -> contains c (lstrip s) = false.
Proof.
  induction s as [|d s IH]; cbn; [done|].
  intros [Hd Hs]%orb_false_elim.
  destruct (isspace d); [by apply IH|]. cbn. by rewrite Hd, Hs.
Qed.

Lemma contains_rstrip (c : ascii) (s : string) :
  contains c s = false -> contains c (rstrip s) = false.
Proof.
  induction s as [|d s IH]; cbn; [done|].
  intros [Hd Hs]%orb_false_elim. specialize (IH Hs).
  destruct (rstrip s) as [|e r].
  - destruct (isspace d); cbn; [done|]. by rewrite Hd.
  - cbn in *. by rewrite Hd, IH.
Qed.

Lemma rstrip_idemp (s : string) : rstrip (rstrip s) = rstrip s.
Proof.
  induction s as [|c s IH]; cbn; [done|].
  destruct (rstrip s) as [|e r] eqn:E.
  - destruct (isspace c) eqn:Hc; cbn; [done|]. by rewrite Hc.
  - cbn [rstrip]. cbn [rstrip] in IH. by rewrite IH.
Qed.

Lemma lstrip_rstrip_lstrip (s : string) :
  lstrip (rstrip (lstrip s)) = rstrip (lstrip s).
Proof.
  induction s as [|c s IH]; cbn; [done|].
  destruct (isspace c) eqn:Hc; [done|].
  cbn [rstrip]. destruct (rstrip s) as [|e r]; rewrite ?Hc; cbn; by rewrite ?Hc.
Qed.

Lemma strip_idemp (s : string) : strip (strip s) = strip s.
Proof.
  unfold strip. by rewrite lstrip_rstrip_lstrip, rstrip_idemp.
Qed.

Lemma primary_token_no_sep (s : string) :
  contains "|" (primary_token s) = false.
Proof.
  unfold primary_token, split, strip.
  pose proof (split_first_no_sep "|" s) as H.
  destruct (split_first "|" s) as [tok toks]; cbn in *.
  by apply contains_rstrip, contains_lstrip.
Qed.

Lemma primary_token_idemp (s : string) :
  primary_token (primary_token s) = primary_token s
  /\ records_of (primary_token s) = [].
Proof.
  pose proof (split_first_absent "|" _ (primary_token_no_sep s)) as H.
  unfold records_of. unfold primary_token at 1 4, split. rewrite H; cbn.
  split; [|done]. unfold primary_token at 1. apply strip_idemp.
Qed.

Lemma mapM_ok_inv {A B : Type} (f : A -> result B) (xs : list A) (ys : list B) :
  mapM f xs = Ok ys -> Forall (fun x => exists y, f x = Ok y) xs.
Proof.
  revert ys. induction xs as [|x xs IH]; intros ys; cbn; [by constructor|].
  destruct (f x) as [y|] eqn:E; cbn; [|done].
  destruct (mapM f xs) as [ys'|]; cbn; [|done].
  intros _. constructor; [by exists y | by eapply IH].
Qed.

(** When identifier explosion returns, the frame had the IDENTIFIER column
    and a string in it on every row. *)
Lemma explode_identifiers_ok_inv (infer_string : bool) (repr_float : float -> string)
    (df df' ids : DataFrame) :
  explode_identifiers infer_string repr_float df = Ok (df', ids) ->
  exists i,
    col_index "IDENTIFIER" (columns df) = Some i
    /\ Forall (holds_string i) (rows df).
Proof.
  unfold explode_identifiers, apply_col.
  destruct (collect_identifier_rows _ _ _ _) as [recs|]; cbn; [|done].
  destruct (col_index "IDENTIFIER" (columns df)) as [i|]; [|done].
  destruct (mapM _ (rows df)) as [vals|] eqn:Hvals; cbn; [|done].
  intros _. exists i. split; [done|].
  apply mapM_ok_inv in Hvals.
  eapply Forall_impl; [exact Hvals|]. cbn. intros row [y Hy].
  unfold holds_string.
  destruct (row !! i) as [[|s| |]|]; cbn in Hy; try done. by exists s.
Qed.

(** X11.  Identifier explosion is idempotent on the frame it returns: the
    identifiers it leaves are single tokens without blanks around them, so
    exploding the frame again returns the same frame and no
    cross-reference at all. *)
Theorem explode_identifiers_idempotent (infer_string : bool) (repr_float : float -> string)
    (df df' ids : DataFrame) :
  explode_identifiers infer_string repr_float df = Ok (df', ids) ->
  explode_identifiers infer_string repr_float df' = Ok (df', mkFrame [] []).
Proof.
  intros Hrun.
  destruct (explode_identifiers_ok_inv _ _ _ _ _ Hrun) as (i & Hi & Hstr).
  rewrite (explode_identifiers_strings infer_string repr_float df i Hi Hstr) in Hrun.
  injection Hrun as <- _.
  rewrite (explode_identifiers_strings infer_string repr_float _ i); cbn [columns rows]; [|done|].
  - f_equal. f_equal.
    + f_equal. rewrite <- list_fmap_compose.
      apply Forall_fmap_ext. eapply Forall_impl; [exact Hstr|]. cbn.
      intros row [s Hs]. unfold text_at at 1.
      rewrite list_lookup_insert_eq by (by eapply lookup_lt_Some).
      rewrite (proj1 (primary_token_idemp _)). apply list_insert_insert_eq.
    + rewrite <- list_fmap_compose.
      assert (Hnil : (text_at i
                        ∘ (fun row => <[i := CStr (primary_token (text_at i row))]> row)
                        <$> rows df) ≫= records_of = []).
      { induction Hstr as [|row rws [s Hs] _ IH]; [done|]. cbn.
        rewrite IH, app_nil_r. unfold text_at at 1.
        rewrite list_lookup_insert_eq by (by eapply lookup_lt_Some).
        apply primary_token_idemp. }
      by rewrite Hnil.
  - apply Forall_fmap. eapply Forall_impl; [exact Hstr|]. cbn.
    intros row [s Hs]. eexists.
    apply list_lookup_insert_eq. by eapply lookup_lt_Some.
Qed.

(** Two substances, one with an alternative and blanks. *)
Lemma explode_identifiers_idempotent_witness :
  explode_identifiers false (fun _ => "nan")
    (mkFrame ["DTXSID"; "IDENTIFIER"]
       [[CStr "DTXSID7020637"; CStr "50-00-0"]; [CStr "DTXSID5020607"; CStr "64-17-5"]])
  = Ok (mkFrame ["DTXSID"; "IDENTIFIER"]
          [[CStr "DTXSID7020637"; CStr "50-00-0"]; [CStr "DTXSID5020607"; CStr "64-17-5"]],
        mkFrame [] []).
Proof.
  apply (explode_identifiers_idempotent false (fun _ => "nan")
           (mkFrame ["DTXSID"; "IDENTIFIER"]
              [[CStr "DTXSID7020637"; CStr " 50-00-0 | A1"];
               [CStr "DTXSID5020607"; CStr "64-17-5"]])
           _
           (mkFrame ["IDENTIFIER"; "CASRN"; "ALTERNATIVE_IDENTIFIER"]
              [[CStr "50-00-0"; CStr "50-00-0"; CStr "A1"]])).
  reflexivity.
Defined.

(** ** Insertions, commits and what a failure leaves behind *)

Section Insertions.

Variable infer_string : bool.
Variable repr_float : float -> string.
Variable sink_accepts : list stored -> string -> list cell -> bool.

(** The rows of a batch are values as SQLite takes them. *)
Lemma bound_rows_fixed (df : DataFrame) :
  Forall (fun r => sqlite_value <$> r = r) (bound_rows df).
Proof.
  unfold bound_rows. apply Forall_fmap, Forall_forall. intros r _. cbn.
  rewrite <- list_fmap_compose.
  apply list_fmap_ext. intros; apply sqlite_value_idemp.
Qed.

Lemma insertions_fixed (table_name : string) (df : DataFrame) (batches : list batch) :
  insertions infer_string repr_float table_name df = Ok batches ->
  Forall (fun b => Forall (fun r => sqlite_value <$> r = r) (snd b)) batches.
Proof.
  unfold insertions.
  repeat case_match; unfold mbind, result_bind, Py.bind;
    repeat case_match; try done;
    intros [= <-]; repeat constructor; apply bound_rows_fixed.
Qed.

(** Rows the database accepts are inserted in order and stay pending. *)
Lemma for_each_execute_accepted (table : string) (arity : nat)
    (rws : list (list cell)) (w : world) :
  (forall db r, r ∈ rws -> sink_accepts db table r = true) ->
  Forall (fun r => length r = arity) rws ->
  Forall (fun r => sqlite_value <$> r = r) rws ->
  for_each rws (execute sink_accepts table arity) w
  = (mkWorld (committed w) (pending w ++ (pair table <$> rws)) (stdout w), Ret tt).
Proof.
  revert w. induction rws as [|r rws IH]; intros w Hacc Hlen Hfix; cbn [for_each].
  - cbn. rewrite app_nil_r. by destruct w.
  - apply Forall_cons in Hlen as [Hr Hlen]. apply Forall_cons in Hfix as [Hb Hfix].
    unfold io_bind, execute at 1. cbv zeta.
    rewrite Hb, Hr, Nat.eqb_refl, Hacc by left. cbn.
    rewrite IH; [|intros db r' Hr'; apply Hacc; by right|done|done].
    cbn. by rewrite <- app_assoc.
Qed.

(** The first row the database refuses stops the loop with its exception;
    the rows inserted before it stay pending. *)
Lemma for_each_execute_refused (table : string) (arity : nat)
    (rws : list (list cell)) (bad : list cell) (rest : list (list cell)) (w : world) :
  (forall db r, r ∈ rws -> sink_accepts db table r = true) ->
  Forall (fun r => length r = arity) rws ->
  (forall db, sink_accepts db table bad = false) ->
  Forall (fun r => sqlite_value <$> r = r) (rws ++ bad :: rest) ->
  for_each (rws ++ bad :: rest) (execute sink_accepts table arity) w
  = (mkWorld (committed w) (pending w ++ (pair table <$> rws)) (stdout w),
     Throw DatabaseError).
Proof.
  revert w. induction rws as [|r rws IH]; intros w Hacc Hlen Hbad Hfix;
    cbn [for_each app] in *; apply Forall_cons in Hfix as [Hb Hfix].
  - unfold io_bind, execute at 1. cbv zeta. rewrite Hb, Hbad, andb_false_r. cbn.
    rewrite app_nil_r. by destruct w.
  - apply Forall_cons in Hlen as [Hr Hlen].
    unfold io_bind, execute at 1. cbv zeta.
    rewrite Hb, Hr, Nat.eqb_refl, Hacc by left. cbn.
    rewrite IH; [|intros db r' Hr'; apply Hacc; by right|done|done|done].
    cbn. by rewrite <- app_assoc.
Qed.

Lemma import_table_data_unknown (table_name : string) (df : DataFrame) (w : world) :
  known_table table_name = false ->
  import_table_data infer_string repr_float sink_accepts table_name df w
  = (with_output w [MsgNotImported table_name], Exit 1).
Proof.
  unfold known_table, table_names; cbn [existsb].
  intros H.
  repeat (apply orb_false_elim in H as [? H]).
  unfold import_table_data.
  repeat match goal with
         | Heq : String.eqb table_name _ = false |- _ => rewrite Heq; clear Heq
         end.
  reflexivity.
Qed.

Lemma for_each_app {A : Type} (xs ys : list A) (body : A -> io unit) (w : world) :
  for_each (xs ++ ys) body w
  = match for_each xs body w with
    | (w', Ret _) => for_each ys body w'
    | other => other
    end.
Proof.
  revert w. induction xs as [|x xs IH]; intros w; cbn [app for_each]; [done|].
  unfold io_bind. destruct (body x w) as [w1 [[]|e|c]]; [apply IH | done | done].
Qed.

End Insertions.

(** X12.  What a failure in the middle of a table leaves in the database.
    When the rows of a frame are accepted up to one that the database
    refuses, the table is reported with the exception and the rows after
    the refused one are never tried; but the rows before it were inserted
    on the connection and the commit that ends [import_data_to_DB] commits
    them, together with whatever was pending.  A table reported as failed
    may thus be partly loaded. *)
Theorem failed_table_is_partly_committed
    (infer_string : bool) (repr_float : float -> string)
    (sink_accepts : list stored -> string -> list cell -> bool)
    (table_name : string) (arity : nat) (df : DataFrame)
    (rws : list (list cell)) (bad : list cell) (rest : list (list cell))
    (w : world) :
  known_table table_name = true ->
  insertions infer_string repr_float table_name (replace_empty_na_with_null df)
  = Ok [(table_name, arity, rws ++ bad :: rest)] ->
  (forall db r, r ∈ rws -> sink_accepts db table_name r = true) ->
  Forall (fun r => length r = arity) rws ->
  (forall db, sink_accepts db table_name bad = false) ->
  import_data_to_DB infer_string repr_float sink_accepts [(table_name, [df])] w
  = (mkWorld (committed w ++ pending w ++ (pair table_name <$> rws)) []
       (stdout w ++ [MsgImportError table_name DatabaseError]),
     Ret tt).
Proof.
  intros Hknown Hins Hacc Hlen Hbad.
  unfold import_data_to_DB, import_table_guarded, import_frames.
  cbn [for_each fst snd]. unfold io_bind at 1 2.
  rewrite (import_table_data_staged _ _ _ _ _ _ Hknown), Hins.
  rewrite !io_run_bind. cbn [lift].
  unfold insert_batches. cbn [for_each fst snd]. unfold io_bind at 1.
  rewrite io_run_bind. cbv beta.
  rewrite (for_each_execute_refused sink_accepts table_name arity rws bad rest w
             Hacc Hlen Hbad).
  - reflexivity.
  - apply (insertions_fixed infer_string repr_float) in Hins.
    by apply Forall_cons in Hins as [Hins _].
Qed.

(** Three rows for HHE_data in a database that refuses nulls: the second
    row has an empty chemical, which normalization turns into null. *)
Lemma failed_table_is_partly_committed_witness :
  import_data_to_DB false (fun _ => "nan") (fun _ _ r => forallb notnull r)
    [("HHE_data",
      [mkFrame ["document_id"; "chemical_id"]
         [[CInt 1; CInt 10]; [CInt 2; CStr ""]; [CInt 3; CInt 30]]])]
    empty_world
  = (mkWorld [("HHE_data", [CInt 1; CInt 10])] []
       [MsgImportError "HHE_data" DatabaseError],
     Ret tt).
Proof.
  apply (failed_table_is_partly_committed false (fun _ => "nan")
           (fun _ _ r => forallb notnull r) "HHE_data" 2
           (mkFrame ["document_id"; "chemical_id"]
              [[CInt 1; CInt 10]; [CInt 2; CStr ""]; [CInt 3; CInt 30]])
           [[CInt 1; CInt 10]] [CInt 2; CNone] [[CInt 3; CInt 30]] empty_world).
  - reflexivity.
  - reflexivity.
  - intros db r ->%list_elem_of_singleton. reflexivity.
  - repeat constructor.
  - reflexivity.
Defined.

(** X13.  A table name that [import_table_data] does not know ends the
    run: the line that the table was not imported is printed, the program
    exits with status 1 through the handler of [import_data_to_DB], which
    catches exceptions only, the tables after it are not attempted, and
    what was inserted and not yet committed is rolled back. *)
Theorem unknown_table_aborts
    (infer_string : bool) (repr_float : float -> string)
    (sink_accepts : list stored -> string -> list cell -> bool)
    (before : list (string * list DataFrame)) (table_name : string)
    (df : DataFrame) (df_list : list DataFrame)
    (after : list (string * list DataFrame)) (w : world) :
  Forall (fun entry => known_table (fst entry) = true) before ->
  known_table table_name = false ->
  exists w' reports,
    import_data_to_DB infer_string repr_float sink_accepts
      (before ++ (table_name, df :: df_list) :: after) w
    = (w', Exit 1)
    /\ pending w' = []
    /\ committed w `prefix_of` committed w'
    /\ stdout w' = stdout w ++ concat reports ++ [MsgNotImported table_name]
    /\ Forall2 table_report before reports.
Proof.
  intros Hknown Hunknown.
  destruct (for_each_guarded_known infer_string repr_float sink_accepts before w Hknown)
    as (reports & Hret & Hc & Hs & Hreps).
  unfold import_data_to_DB. rewrite for_each_app.
  destruct (for_each before (import_table_guarded infer_string repr_float sink_accepts) w)
    as [w1 out]; cbn in Hret, Hc, Hs. subst out.
  cbn [for_each]. unfold io_bind at 1, import_table_guarded at 1, import_frames.
  cbn [for_each fst snd]. unfold io_bind at 1.
  rewrite (import_table_data_unknown _ _ _ _ _ _ Hunknown). cbn.
  eexists _, reports. split; [reflexivity|]. cbn.
  split; [done|]. split; [done|]. split; [|done].
  by rewrite Hs, <- app_assoc.
Qed.

(** A known table, then a misspelt one, then a known one that is never
    reached. *)
Lemma unknown_table_aborts_witness :
  let data := [("HHE_data", [sample_frame "HHE_data"]);
               ("HHE", [sample_frame "HHE_data"]);
               ("QSUR_data", [sample_frame "QSUR_data"])] in
  (exists w' reports,
     import_data_to_DB false (fun _ => "nan") (fun _ _ _ => true) data empty_world
     = (w', Exit 1)
     /\ pending w' = []
     /\ committed empty_world `prefix_of` committed w'
     /\ stdout w' = stdout empty_world ++ concat reports ++ [MsgNotImported "HHE"]
     /\ Forall2 table_report [("HHE_data", [sample_frame "HHE_data"])] reports)
  /\ import_data_to_DB false (fun _ => "nan") (fun _ _ _ => true) data empty_world
     = (mkWorld [("HHE_data", [CStr "1"; CStr "1"])] []
          [MsgImported "HHE_data"; MsgNotImported "HHE"],
        Exit 1).
Proof.
  split.
  - apply (unknown_table_aborts false (fun _ => "nan") (fun _ _ _ => true)
             [("HHE_data", [sample_frame "HHE_data"])] "HHE"
             (sample_frame "HHE_data") []
             [("QSUR_data", [sample_frame "QSUR_data"])] empty_world);
      [by repeat constructor | reflexivity].
  - vm_compute. reflexivity.
Defined.

Section Success.

Variable infer_string : bool.
Variable repr_float : float -> string.
Variable sink_accepts : list stored -> string -> list cell -> bool.
Hypothesis accepts_all : forall db table r, sink_accepts db table r = true.

Lemma insert_batches_accepted (batches : list batch) (w : world) :
  Forall well_formed_batch batches ->
  Forall (fun b => Forall (fun r => sqlite_value <$> r = r) (snd b)) batches ->
  insert_batches sink_accepts batches w
  = (mkWorld (committed w) (pending w ++ stored_rows batches) (stdout w), Ret tt).
Proof.
  unfold insert_batches, stored_rows. revert w.
  induction batches as [|[[table arity] rws] batches IH]; intros w Hwf Hfix;
    cbn [for_each].
  - cbn. rewrite app_nil_r. by destruct w.
  - apply Forall_cons in Hwf as [Hb Hwf]. apply Forall_cons in Hfix as [Hf Hfix].
    unfold io_bind. cbn [fst snd].
    rewrite for_each_execute_accepted;
      [|by intros; apply accepts_all|exact Hb|exact Hf].
    rewrite IH by done. cbn. by rewrite <- app_assoc.
Qed.

Lemma import_accepted (table_name : string) (df : DataFrame)
    (batches : list batch) (w : world) :
  known_table table_name = true ->
  insertions infer_string repr_float table_name (replace_empty_na_with_null df) = Ok batches ->
  Forall well_formed_batch batches ->
  import_data_to_DB infer_string repr_float sink_accepts [(table_name, [df])] w
  = (mkWorld (committed w ++ pending w ++ stored_rows batches) []
       (stdout w ++ [MsgImported table_name]),
     Ret tt).
Proof.
  intros Hknown Hins Hwf.
  unfold import_data_to_DB, import_table_guarded, import_frames.
  cbn [for_each fst snd]. unfold io_bind at 1 2.
  rewrite (import_table_data_staged _ _ _ _ _ _ Hknown), Hins.
  rewrite !io_run_bind. cbn [lift]. rewrite io_run_bind.
  rewrite insert_batches_accepted
    by (done || by apply (insertions_fixed infer_string repr_float) in Hins).
  unfold mbind, io_bind_inst, io_bind; cbn.
  unfold commit; cbn. by rewrite app_nil_r.
Qed.

End Success.

(** X14.  A frame whose rows the database accepts is loaded whole.  For a
    known table, the rows the table's transform makes of the normalized
    frame are committed in their order after what was there, with the
    values as they are bound ([iterrows] hands the integers of a frame of
    numbers with a float column over as floats, and SQLite takes a NaN as
    NULL); nothing stays pending, and the console shows the line of the
    table and nothing else. *)
Theorem accepted_frame_is_committed
    (infer_string : bool) (repr_float : float -> string)
    (sink_accepts : list stored -> string -> list cell -> bool)
    (table_name : string) (df : DataFrame) (batches : list batch) (w : world) :
  (forall db table r, sink_accepts db table r = true) ->
  known_table table_name = true ->
  insertions infer_string repr_float table_name (replace_empty_na_with_null df)
  = Ok batches ->
  Forall well_formed_batch batches ->
  import_data_to_DB infer_string repr_float sink_accepts [(table_name, [df])] w
  = (mkWorld (committed w ++ pending w ++ stored_rows batches) []
       (stdout w ++ [MsgImported table_name]),
     Ret tt).
Proof.
  intros Hacc Hknown Hins Hwf.
  by apply import_accepted.
Qed.

(** A product with compositions in percent and as a fraction, next to
    texts and empty cells; and two rows of numbers with a float column, one
    of them missing: the integers are stored as floats and the NaN as
    NULL. *)
Lemma accepted_frame_is_committed_witness :
  import_data_to_DB false (fun _ => "nan") (fun _ _ _ => true)
    [("product_composition_data",
      [mkFrame (columns_of "product_composition_data")
         [[CInt 1; CInt 1; CInt 7; CInt 2; CInt 3; CStr "NA"; CStr "Glue"; CStr "";
           CStr "5%"; CStr "0.075"; CStr "10 %"; CNone; CNone; CNone]]])]
    empty_world
  = (mkWorld
       [("product_composition_data",
         [CInt 1; CInt 1; CInt 7; CInt 2; CInt 3; CNone; CStr "Glue"; CNone;
          CFloat 0.05; CFloat 0.075; CFloat 0.1; CNone; CNone; CNone])]
       [] [MsgImported "product_composition_data"],
     Ret tt)
  /\ import_data_to_DB false (fun _ => "nan") (fun _ _ _ => true)
       [("list_presence_data",
         [mkFrame (columns_of "list_presence_data")
            [[CInt 1; CInt 2; CFloat 0.5]; [CInt 3; CInt 4; CFloat nan]]])]
       empty_world
     = (mkWorld
          [("list_presence_data", [CFloat 1; CFloat 2; CFloat 0.5]);
           ("list_presence_data", [CFloat 3; CFloat 4; CNone])]
          [] [MsgImported "list_presence_data"],
        Ret tt).
Proof.
  split.
  - apply (accepted_frame_is_committed false (fun _ => "nan") (fun _ _ _ => true)
             "product_composition_data" _
             [("product_composition_data", 14%nat,
               [[CInt 1; CInt 1; CInt 7; CInt 2; CInt 3; CNone; CStr "Glue"; CNone;
                 CFloat 0.05; CFloat 0.075; CFloat 0.1; CNone; CNone; CNone]])]
             empty_world).
    + reflexivity.
    + reflexivity.
    + vm_compute. reflexivity.
    + repeat constructor.
  - apply (accepted_frame_is_committed false (fun _ => "nan") (fun _ _ _ => true)
             "list_presence_data" _
             [("list_presence_data", 3%nat,
               [[CFloat 1; CFloat 2; CFloat 0.5]; [CFloat 3; CFloat 4; CNone]])]
             empty_world).
    + reflexivity.
    + reflexivity.
    + vm_compute. reflexivity.
    + repeat constructor.
Defined.

Lemma null_if_empty_or_na_identifier (i : nat) (row : list cell) :
  holds_identifier i row ->
  holds_string i (null_if_empty_or_na <$> row)
  /\ text_at i (null_if_empty_or_na <$> row) = text_at i row.
Proof.
  intros (s & Hs & H1 & H2). unfold holds_string, text_at.
  rewrite list_lookup_fmap, Hs. cbn.
  destruct (String.eqb_spec s ""); [done|].
  destruct (String.eqb_spec s "NA"); [done|]. cbn. split; [by exists s | done].
Qed.

(** X15.  The import of a DSSTox frame that the database accepts.  When
    every row has twelve cells and an identifier that is a text other than
    the empty one and NA, the import commits one DSSTox row per row of the
    frame, in order and with the primary token as identifier, followed by
    one Identifier row per alternative token (primary, primary,
    alternative), and prints the line of the table. *)
Theorem dsstox_import_rows
    (infer_string : bool) (repr_float : float -> string)
    (sink_accepts : list stored -> string -> list cell -> bool)
    (df : DataFrame) (i : nat) (w : world) :
  (forall db table r, sink_accepts db table r = true) ->
  col_index "IDENTIFIER" (columns df) = Some i ->
  Forall (holds_identifier i) (rows df) ->
  Forall (fun r => length r = 12%nat) (rows df) ->
  exists dsstox_rows,
    import_data_to_DB infer_string repr_float sink_accepts [("DSSTox", [df])] w
    = (mkWorld
         (committed w ++ pending w
          ++ (pair "DSSTox" <$> dsstox_rows)
          ++ (pair "Identifier"
                <$> (rows df ≫= fun row => cross_references (text_at i row))))
         [] (stdout w ++ [MsgImported "DSSTox"]),
       Ret tt)
    /\ Forall2 (fun row r =>
                  length r = 12%nat
                  /\ r !! i = Some (CStr (primary_token (text_at i row))))
               (rows df) dsstox_rows.
Proof.
  intros Hacc Hi Hid Hlen.
  set (df0 := replace_empty_na_with_null df).
  assert (Hstr : Forall (holds_string i) (rows df0)).
  { subst df0. unfold replace_empty_na_with_null, map_cells; cbn [rows].
    apply Forall_fmap. eapply Forall_impl; [exact Hid|]. cbn.
    intros row Hrow. by apply null_if_empty_or_na_identifier. }
  assert (Htext : text_at i <$> rows df0 = text_at i <$> rows df).
  { subst df0. unfold replace_empty_na_with_null, map_cells; cbn [rows].
    rewrite <- list_fmap_compose. apply Forall_fmap_ext.
    eapply Forall_impl; [exact Hid|]. cbn.
    intros row Hrow. by apply null_if_empty_or_na_identifier. }
  pose proof (explode_identifiers_strings infer_string repr_float df0 i Hi Hstr) as Hrun.
  set (df1 := mkFrame (columns df0)
                ((fun row => <[i := CStr (primary_token (text_at i row))]> row)
                   <$> rows df0)) in Hrun.
  set (ids := DataFrame_of_records ((text_at i <$> rows df0) ≫= records_of)) in Hrun.
  assert (Hins : insertions infer_string repr_float "DSSTox" df0
                 = Ok [("DSSTox", 12%nat, bound_rows (where_notnull df1));
                       ("Identifier", 3%nat, bound_rows (where_notnull ids))]).
  { unfold insertions. cbn [String.eqb Ascii.eqb Bool.eqb]. by rewrite Hrun. }
  assert (Hids : bound_rows (where_notnull ids)
                 = rows df ≫= fun row => cross_references (text_at i row)).
  { subst ids. unfold bound_rows.
    rewrite (proj1 (identifier_frame_rows _)), Htext, bind_fmap_list.
    generalize (rows df) as rws. clear. intros rws.
    induction rws as [|row rws IH]; [done|].
    cbn. rewrite fmap_app, IH. f_equal.
    unfold cross_references. rewrite <- list_fmap_compose.
    by apply list_fmap_ext. }
  assert (Hdsstox : bound_rows (where_notnull df1)
                    = fmap (M := list) sqlite_value <$> rows (where_notnull df1)).
  { unfold bound_rows. f_equal. apply (iterrows_strings _ i).
    - apply (col_index_lt "IDENTIFIER"). exact Hi.
    - subst df1. unfold where_notnull, map_cells; cbn [rows].
      apply Forall_fmap, Forall_fmap.
      eapply Forall_impl; [exact Hstr|]. cbn. intros row [s Hs].
      exists (primary_token (text_at i row)).
      rewrite list_lookup_fmap, list_lookup_insert_eq
        by (by eapply lookup_lt_Some).
      reflexivity. }
  exists (bound_rows (where_notnull df1)). split.
  - rewrite (import_accepted infer_string repr_float sink_accepts Hacc "DSSTox" df _ w
               eq_refl Hins).
    + unfold stored_rows. cbn [fmap list_fmap mbind list_bind fst snd].
      by rewrite app_nil_r, <- Hids.
    + constructor; [|constructor; [|constructor]]; unfold well_formed_batch;
        cbn [fst snd].
      * rewrite Hdsstox. subst df1 df0.
        unfold where_notnull, replace_empty_na_with_null, map_cells. cbn [rows].
        apply Forall_fmap, Forall_fmap, Forall_fmap, Forall_fmap.
        eapply Forall_impl; [exact Hlen|]. cbn. intros row Hrow.
        by rewrite !length_fmap, length_insert, length_fmap.
      * rewrite Hids.
        apply Forall_forall. intros r (row & Hr & _)%list_elem_of_bind.
        unfold cross_references in Hr.
        by apply list_elem_of_fmap in Hr as (alt & -> & _).
  - rewrite Hdsstox. subst df1 df0.
    unfold where_notnull, replace_empty_na_with_null, map_cells.
    cbn [rows columns].
    apply Forall2_fmap_r, Forall2_fmap_r, Forall2_fmap_r, Forall2_fmap_r.
    apply Forall_Forall2_diag.
    apply Forall_forall. intros row Hrow.
    rewrite Forall_forall in Hid, Hlen.
    destruct (null_if_empty_or_na_identifier i row (Hid row Hrow)) as [[s Hs] Ht].
    split.
    + by rewrite !length_fmap, length_insert, length_fmap, (Hlen row Hrow).
    + rewrite !list_lookup_fmap, list_lookup_insert_eq
        by (by eapply lookup_lt_Some).
      cbn. by rewrite Ht.
Qed.

(** Three substances, one of them with an alternative identifier: three
    DSSTox rows and one Identifier row. *)
Lemma dsstox_import_rows_witness :
  let df := mkFrame dsstox_columns
              [[CStr "D1"; CStr "a"; CStr "50-00-0"; CStr "k"; CStr "a"; CStr "C=O";
                CStr "CH2O"; CInt 30; CInt 30; CStr "C=O"; CStr "C=O";
                CStr "50-00-0|CAS-ALT-1"];
               [CStr "D2"; CStr "b"; CStr "64-17-5"; CStr "k"; CStr "b"; CStr "CCO";
                CStr "C2H6O"; CInt 46; CInt 46; CStr "CCO"; CStr "CCO";
                CStr "64-17-5"];
               [CStr "D3"; CStr "c"; CStr "67-56-1"; CStr "k"; CStr "c"; CStr "CO";
                CStr "CH4O"; CInt 32; CInt 32; CStr "CO"; CStr "CO";
                CStr "67-56-1"]] in
  exists dsstox_rows,
    import_data_to_DB false (fun _ => "nan") (fun _ _ _ => true) [("DSSTox", [df])]
      empty_world
    = (mkWorld
         ((pair "DSSTox" <$> dsstox_rows)
          ++ [("Identifier", [CStr "50-00-0"; CStr "50-00-0"; CStr "CAS-ALT-1"])])
         [] [MsgImported "DSSTox"],
       Ret tt)
    /\ length dsstox_rows = 3%nat.
Proof.
  intros df.
  destruct (dsstox_import_rows false (fun _ => "nan") (fun _ _ _ => true) df 11 empty_world)
    as (dsstox_rows & Hrun & Hrows).
  - reflexivity.
  - reflexivity.
  - repeat constructor; eexists; (split; [reflexivity|]); split; discriminate.
  - repeat constructor.
  - exists dsstox_rows. split; [exact Hrun|].
    apply Forall2_length in Hrows. symmetry. exact Hrows.
Defined.

(** ** The paths of the sample directory and [validate_file_paths] *)

(** X16.  [parse_file_paths_for_test] exits (with status 1) exactly when
    one of the eleven sample files is missing, the DSSTox sample included:
    every list has one path, so the loop empties the list of a missing
    file. *)
Theorem parse_file_paths_for_test_exits_iff (path_exists : string -> bool)
    (data_dir : string) (w : world) :
  snd (parse_file_paths_for_test path_exists data_dir w) = Exit 1
  <-> exists p, p ∈ sample_files data_dir /\ path_exists p = false.
Proof.
  unfold parse_file_paths_for_test.
  match goal with
  | |- context [verify_files _ ?d w] => set (file_paths := d)
  end.
  assert (Hsnd : snd <$> file_paths = (fun p => [p]) <$> sample_files data_dir)
    by reflexivity.
  assert (Hshape : Forall (fun entry => several_paths entry \/ single_path entry) file_paths).
  { subst file_paths. cbn.
    repeat (constructor; [right; eexists; reflexivity|]). constructor. }
  destruct (verify_files_exit path_exists file_paths w Hshape) as [Hexit Hret].
  split.
  - intros Hrun.
    destruct (Forall_Exists_dec (fun p => path_exists p = true)
                (fun p => path_exists p = false)
                (fun p => match path_exists p as b
                            return {b = true} + {b = false} with
                          | true => left eq_refl
                          | false => right eq_refl
                          end)
                (sample_files data_dir)) as [Hall | Hex].
    + destruct Hret as (file_paths' & Hok); [|congruence].
      apply (Forall_fmap snd (fun l => forall p, l = [p] -> path_exists p = true)).
      rewrite Hsnd. apply Forall_fmap.
      eapply Forall_impl; [exact Hall|]. cbn. by intros q Hq p [= <-].
    + apply Exists_exists in Hex as (p & Hin & Hp). by exists p.
  - intros (p & Hin & Hp). apply Hexit.
    apply (Exists_fmap snd (fun l => exists p, l = [p] /\ path_exists p = false)).
    rewrite Hsnd. apply Exists_fmap, Exists_exists.
    exists p. split; [done|]. cbn. by exists p.
Qed.

(** X17.  [validate_file_paths] returns, having printed nothing, when every
    path exists; otherwise it prints one line, which names the first path
    that is missing, and exits with status 1. *)
Theorem validate_file_paths_spec (path_exists : string -> bool)
    (paths : list string) (w : world) :
  (Forall (fun p => path_exists p = true) paths
   /\ validate_file_paths path_exists paths w = (w, Ret tt))
  \/ (exists before p after,
        paths = before ++ p :: after
        /\ Forall (fun q => path_exists q = true) before
        /\ path_exists p = false
        /\ validate_file_paths path_exists paths w
           = (with_output w [MsgErrorFileNotFound p], Exit 1)).
Proof.
  induction paths as [|path paths IH]; [by left|].
  cbn [validate_file_paths]. destruct (path_exists path) eqn:Hpath.
  - destruct IH as [[Hall Hrun] | (before & p & after & -> & Hall & Hp & Hrun)].
    + left. by split; [constructor|].
    + right. exists (path :: before), p, after.
      repeat split; [by constructor | done | done].
  - right. exists [], path, paths. repeat split; [constructor | done].
Qed.
